(** * MatchIQ chat proxy: rate limiter and forwarding handler

    A shallow embedding of the two deployment variants of the proxy:

    - [Edge]: [src/chat.js], the Vercel Edge function
      ([handler(req)] returning a [Response]);
    - [Serverless]: [src/unnamed/part_000], the Vercel Serverless function
      ([handler(req, res)] writing to [res]).

    Modelling conventions.

    - [Date.now()] is an integral number of milliseconds, and the request
      counters are integral too; both are far below 2^53, so the JavaScript
      double arithmetic on them is exact and they are modelled in [Z].
      [Math.ceil(x / 1000)] on such an integral [x] is the integer ceiling
      of the quotient ([ceil_div]).
    - The process-wide [rateLimitMap] (a JS [Map] with string keys) is a
      [gmap string _] threaded through the calls; the record objects are
      only reachable through the map, so the in-place [record.count++] is
      an update of the binding.
    - JSON data is a [JSValue]; a JS number inside it is an IEEE binary64
      [float], as in the source language.
    - [JSON.stringify(o)] response and request bodies are represented by the
      value [o] handed to [JSON.stringify].
    - The single [await fetch(...)] is a suspension: the handler returns
      [Fetch call k], the upstream request together with its continuation. *)

From Stdlib Require Import ZArith Lia Ascii String.
From Stdlib Require Import Floats.PrimFloat.
From Stdlib Require Uint63.
From stdpp Require Import base option list strings gmap pretty.

Local Open Scope string_scope.
Local Open Scope Z_scope.

(** ** JavaScript values *)

#[warnings="-register-all"]
Inductive JSValue : Type :=
| JUndefined
| JNull
| JBool (b : bool)
| JNum (x : float)
| JStr (s : string)
| JArr (elems : list JSValue)
| JObj (props : list (string * JSValue)).

(** [ToBoolean]: the falsy values are [undefined], [null], [false], [0],
    [-0], [NaN] and the empty string. *)
Definition toBoolean (v : JSValue) : bool :=
  match v with
  | JUndefined | JNull => false
  | JBool b => b
  | JNum x => negb (PrimFloat.eqb x 0%float || PrimFloat.is_nan x)
  | JStr s => negb (String.eqb s "")
  | JArr _ | JObj _ => true
  end.

(** [a || b] *)
Definition jsOr (a b : JSValue) : JSValue := if toBoolean a then a else b.

(** [a ?? b] *)
Definition jsNullish (a b : JSValue) : JSValue :=
  match a with
  | JUndefined | JNull => b
  | _ => a
  end.

(** [Array.isArray(v)] *)
Definition isArray (v : JSValue) : bool :=
  match v with JArr _ => true | _ => false end.

Fixpoint assoc (name : string) (props : list (string * JSValue)) : JSValue :=
  match props with
  | [] => JUndefined
  | (k, v) :: rest => if String.eqb k name then v else assoc name rest
  end.

(** [v.name] for the property names the handlers read ([messages], [model],
    [max_tokens], [temperature], [error], [message], [choices], [content]):
    none of them is defined on the prototypes of arrays, strings, numbers or
    booleans, so only an object can hold them.  [None] is the [TypeError] of
    reading a property of [null] or [undefined]. *)
Definition getProp (v : JSValue) (name : string) : option JSValue :=
  match v with
  | JUndefined | JNull => None
  | JObj props => Some (assoc name props)
  | _ => Some JUndefined
  end.

(** [v[0]] *)
Definition getIndex0 (v : JSValue) : option JSValue :=
  match v with
  | JUndefined | JNull => None
  | JArr elems => Some (match elems with [] => JUndefined | e :: _ => e end)
  | JStr s => Some (match s with
                    | EmptyString => JUndefined
                    | String c _ => JStr (String c EmptyString)
                    end)
  | JObj props => Some (assoc "0" props)
  | _ => Some JUndefined
  end.

(** [v?.name] *)
Definition getPropOpt (v : JSValue) (name : string) : JSValue :=
  match getProp v name with
  | None => JUndefined
  | Some w => w
  end.

(** [data.choices[0].message.content]; [None] when one of the property
    reads throws. *)
Definition firstCompletionContent (data : JSValue) : option JSValue :=
  choices ← getProp data "choices";
  choice ← getIndex0 choices;
  message ← getProp choice "message";
  getProp message "content".

(** An integral JS number as a JSON value. *)
Definition float_of_Z (z : Z) : float :=
  if z <? 0 then PrimFloat.opp (PrimFloat.of_uint63 (Uint63.of_Z (- z)))
  else PrimFloat.of_uint63 (Uint63.of_Z z).

Definition JInt (z : Z) : JSValue := JNum (float_of_Z z).

(** [Math.ceil(x / d)] for integral [x] and positive integral [d]. *)
Definition ceil_div (x d : Z) : Z := - ((- x) / d).

(** [s.split(",")[0]]: the part of [s] before its first comma. *)
Fixpoint beforeComma (s : string) : string :=
  match s with
  | EmptyString => EmptyString
  | String c rest =>
      if Ascii.eqb c ","%char then EmptyString else String c (beforeComma rest)
  end.

(** White space removed by [String.prototype.trim], among the code units
    below 256 (a header value is a byte string): TAB, LF, VT, FF, CR, SP
    and NBSP. *)
Definition isWhiteSpace (c : ascii) : bool :=
  Ascii.is_space c || Ascii.eqb c "160"%char.

Fixpoint trimStart (s : string) : string :=
  match s with
  | EmptyString => EmptyString
  | String c rest => if isWhiteSpace c then trimStart rest else s
  end.

(** [s.trim()] *)
Definition trim (s : string) : string :=
  String.rev (trimStart (String.rev (trimStart s))).

(** A string or [null]/[undefined] as the operand of [||]. *)
Definition truthyString (o : option string) : option string :=
  match o with
  | Some s => if String.eqb s "" then None else Some s
  | None => None
  end.

(** ** The platform: responses, and the upstream [fetch] *)

(** A response: [responseBody] is [None] for a response without body, and
    [Some o] for the body [JSON.stringify(o)]. *)
Record Response := {
  status : Z;
  responseHeaders : list (string * string);
  responseBody : option JSValue;
}.

(** What a handler invocation ends in: a response, or an exception that
    escapes the handler. *)
Inductive Outcome :=
| Returned (r : Response)
| Thrown.

(** The argument of [fetch(url, {method, headers, body: JSON.stringify(o)})]. *)
Record UpstreamRequest := {
  url : string;
  fetchMethod : string;
  fetchHeaders : list (string * string);
  fetchBody : JSValue;
}.

(** The upstream reply: its status code and what [await openaiRes.json()]
    gives ([None]: the promise rejects, the body is not JSON). *)
Record UpstreamResponse := {
  upstreamStatus : Z;
  upstreamJson : option JSValue;
}.

(** [openaiRes.ok] *)
Definition ok (r : UpstreamResponse) : bool :=
  (200 <=? upstreamStatus r) && (upstreamStatus r <=? 299).

Inductive FetchOutcome :=
| Rejected (reason : JSValue)
| Resolved (openaiRes : UpstreamResponse).

(** A handler run up to its only suspension point: either it is over, or it
    awaits the upstream call and continues with [k] on its outcome. *)
Inductive Run :=
| Done (o : Outcome)
| Fetch (call : UpstreamRequest) (k : FetchOutcome -> Outcome).

(** The run completed against an upstream behaviour. *)
Definition complete (fetch : UpstreamRequest -> FetchOutcome) (r : Run) : Outcome :=
  match r with
  | Done o => o
  | Fetch call k => k (fetch call)
  end.

(** Statuses for which the Fetch standard forbids a body. *)
Definition nullBodyStatus (s : Z) : bool :=
  (s =? 101) || (s =? 103) || (s =? 204) || (s =? 205) || (s =? 304).

(** [new Response(body, {status, headers})] of the Fetch standard: a
    [RangeError] unless [200 <= status <= 599], a [TypeError] for a body
    with a null-body status; [None] stands for either exception. *)
Definition newResponse (b : option JSValue) (s : Z)
    (hs : list (string * string)) : option Response :=
  if negb ((200 <=? s) && (s <=? 599)) then None
  else if match b with Some _ => true | None => false end && nullBodyStatus s then None
  else Some {| status := s; responseHeaders := hs; responseBody := b |}.

(** ** [src/chat.js] *)

Module Edge.

Definition RATE_LIMIT : Z := 20.
Definition RATE_WINDOW : Z := 60 * 60.

Record RateRecord := { windowStart : Z; count : Z }.

Record RateCheck := { allowed : bool; remaining : Z; resetIn : option Z }.

Definition checkRateLimit (now : Z) (key : string)
    (rateLimitMap : gmap string RateRecord) : RateCheck * gmap string RateRecord :=
  match rateLimitMap !! key with
  | None =>
      ({| allowed := true; remaining := RATE_LIMIT - 1; resetIn := None |},
       <[key := {| windowStart := now; count := 1 |}]> rateLimitMap)
  | Some record =>
      if RATE_WINDOW * 1000 <? now - windowStart record then
        ({| allowed := true; remaining := RATE_LIMIT - 1; resetIn := None |},
         <[key := {| windowStart := now; count := 1 |}]> rateLimitMap)
      else if RATE_LIMIT <=? count record then
        ({| allowed := false; remaining := 0;
            resetIn := Some (ceil_div (windowStart record + RATE_WINDOW * 1000 - now) 1000) |},
         rateLimitMap)
      else
        let record' := {| windowStart := windowStart record; count := count record + 1 |} in
        ({| allowed := true; remaining := RATE_LIMIT - count record'; resetIn := None |},
         <[key := record']> rateLimitMap)
  end.

(** [req]: its method, [req.headers.get(name)] ([None] for [null]; names
    in lower case) and the outcome of [await req.json()] ([None]: the
    promise rejects). *)
Record Request := {
  method : string;
  headers : gmap string string;
  json : option JSValue;
}.

Definition getRateLimitKey (req : Request) : string :=
  match truthyString ((fun v => trim (beforeComma v)) <$> headers req !! "x-forwarded-for") with
  | Some forwarded => forwarded
  | None =>
      match truthyString (headers req !! "x-real-ip") with
      | Some ip => ip
      | None => "unknown"
      end
  end.

Definition allowedOrigins : list string :=
  ["https://www.propertyfinder.ae"; "chrome-extension://"].

Definition corsHeaders (req : Request) : list (string * string) :=
  let origin := default "" (truthyString (headers req !! "origin")) in
  let isAllowed := existsb (fun o => String.prefix o origin) allowedOrigins in
  [("Access-Control-Allow-Origin",
    if isAllowed then origin else "https://www.propertyfinder.ae");
   ("Access-Control-Allow-Methods", "POST, OPTIONS");
   ("Access-Control-Allow-Headers", "Content-Type");
   ("Access-Control-Max-Age", "86400")].

Definition jsonHeaders (cors : list (string * string)) : list (string * string) :=
  cors ++ [("Content-Type", "application/json")].

(** [return new Response(...)] outside the [try] block: an exception of the
    constructor escapes the handler. *)
Definition respond (b : option JSValue) (s : Z) (hs : list (string * string)) : Outcome :=
  match newResponse b s hs with
  | Some r => Returned r
  | None => Thrown
  end.

(** The [catch (e)] clause of the handler. *)
Definition unreachableResponse (cors : list (string * string)) : Outcome :=
  respond (Some (JObj [("error", JStr "Failed to reach AI service")])) 502 (jsonHeaders cors).

(** The [try] block from the point where [fetch] has settled; every
    exception in it ends in the [catch] clause. *)
Definition afterFetch (cors : list (string * string)) (rateCheck : RateCheck)
    (outcome : FetchOutcome) : Outcome :=
  match outcome with
  | Rejected _ => unreachableResponse cors
  | Resolved openaiRes =>
      if negb (ok openaiRes) then
        let err := default (JObj []) (upstreamJson openaiRes) in
        match getProp err "error" with
        | None => unreachableResponse cors
        | Some e =>
            let message :=
              jsOr (getPropOpt e "message")
                   (JStr ("OpenAI error: " +:+ pretty (upstreamStatus openaiRes))) in
            match newResponse (Some (JObj [("error", message)]))
                    (upstreamStatus openaiRes) (jsonHeaders cors) with
            | Some r => Returned r
            | None => unreachableResponse cors
            end
        end
      else
        match upstreamJson openaiRes with
        | None => unreachableResponse cors
        | Some data =>
            match firstCompletionContent data with
            | None => unreachableResponse cors
            | Some content =>
                respond (Some (JObj [("content", content);
                                     ("remaining", JInt (remaining rateCheck))]))
                        200 (jsonHeaders cors)
            end
        end
  end.

(** The body of the upstream request, for the parsed request [body]
    (not [null]) and its [messages]. *)
#[warnings="-inexact-float"]
Definition upstreamBody (body messages : JSValue) : JSValue :=
  JObj [("model", jsOr (getPropOpt body "model") (JStr "gpt-4o-mini"));
        ("messages", messages);
        ("max_tokens", jsOr (getPropOpt body "max_tokens") (JNum 1500%float));
        ("temperature", jsNullish (getPropOpt body "temperature") (JNum 0.85%float))].

(** [handler(req)], with the environment variable [OPENAI_API_KEY]
    ([None]: not set), the value [now] of [Date.now()] in [checkRateLimit],
    and the rate-limit map before and after. *)
Definition handler (OPENAI_API_KEY : option string) (now : Z) (req : Request)
    (rateLimitMap : gmap string RateRecord) : Run * gmap string RateRecord :=
  let cors := corsHeaders req in
  if String.eqb (method req) "OPTIONS" then
    (Done (respond None 204 cors), rateLimitMap)
  else if negb (String.eqb (method req) "POST") then
    (Done (respond (Some (JObj [("error", JStr "Method not allowed")])) 405 (jsonHeaders cors)),
     rateLimitMap)
  else
    let clientKey := getRateLimitKey req in
    let '(rateCheck, rateLimitMap') := checkRateLimit now clientKey rateLimitMap in
    if negb (allowed rateCheck) then
      let resetText := from_option pretty "undefined" (resetIn rateCheck) in
      (Done (respond
               (Some (JObj [("error", JStr ("Rate limited. Try again in " +:+ resetText +:+ "s."));
                            ("resetIn", from_option JInt JUndefined (resetIn rateCheck))]))
               429
               (jsonHeaders cors ++ [("Retry-After", resetText)])),
       rateLimitMap')
    else
      match json req with
      | None =>
          (Done (respond (Some (JObj [("error", JStr "Invalid JSON")])) 400 (jsonHeaders cors)),
           rateLimitMap')
      | Some body =>
          match getProp body "messages" with
          | None => (Done Thrown, rateLimitMap')
          | Some messages =>
              if negb (isArray messages) then
                (Done (respond (Some (JObj [("error", JStr "messages array required")]))
                               400 (jsonHeaders cors)),
                 rateLimitMap')
              else
                match truthyString OPENAI_API_KEY with
                | None =>
                    (Done (respond (Some (JObj [("error", JStr "Server misconfigured")]))
                                   500 (jsonHeaders cors)),
                     rateLimitMap')
                | Some OPENAI_KEY =>
                    (Fetch {| url := "https://api.openai.com/v1/chat/completions";
                              fetchMethod := "POST";
                              fetchHeaders := [("Content-Type", "application/json");
                                               ("Authorization", "Bearer " +:+ OPENAI_KEY)];
                              fetchBody := upstreamBody body messages |}
                           (afterFetch cors rateCheck),
                     rateLimitMap')
                end
          end
      end.

End Edge.

(** ** [src/unnamed/part_000] *)

Module Serverless.

Definition RATE_LIMIT : Z := 100.
Definition RATE_WINDOW : Z := 60 * 60 * 1000.

Record RateRecord := { start : Z; count : Z }.

Definition checkRateLimit (now : Z) (ip : string)
    (rateLimitMap : gmap string RateRecord) : bool * gmap string RateRecord :=
  match rateLimitMap !! ip with
  | None => (true, <[ip := {| start := now; count := 1 |}]> rateLimitMap)
  | Some record =>
      if RATE_WINDOW <? now - start record then
        (true, <[ip := {| start := now; count := 1 |}]> rateLimitMap)
      else if RATE_LIMIT <=? count record then (false, rateLimitMap)
      else (true, <[ip := {| start := start record; count := count record + 1 |}]> rateLimitMap)
  end.

(** [req]: its method, the object [req.headers] ([None]: the property is
    [undefined]) and [body], the value that reading [req.body] gives.  The
    handler reads [req.body] outside its [try] block; a request for which
    that read itself throws is not described by this record, so nothing is
    said here about requests that the platform cannot parse. *)
Record Request := {
  method : string;
  headers : gmap string string;
  body : JSValue;
}.

(** The constant [ip] of the handler:
    [(req.headers["x-forwarded-for"] || "unknown").split(",")[0].trim()]. *)
Definition clientIp (req : Request) : string :=
  trim (beforeComma (default "unknown" (truthyString (headers req !! "x-forwarded-for")))).

(** The three [res.setHeader] calls that open the handler. *)
Definition corsHeaders : list (string * string) :=
  [("Access-Control-Allow-Origin", "*");
   ("Access-Control-Allow-Methods", "POST, OPTIONS");
   ("Access-Control-Allow-Headers", "Content-Type")].

(** [res.status(s).json(o)]; the headers of the model are the ones the
    handler sets itself. *)
Definition sendJson (s : Z) (o : JSValue) : Outcome :=
  Returned {| status := s; responseHeaders := corsHeaders; responseBody := Some o |}.

(** The [catch (e)] clause of the handler. *)
Definition unreachableResponse : Outcome :=
  sendJson 502 (JObj [("error", JStr "Failed to reach AI service")]).

Definition afterFetch (outcome : FetchOutcome) : Outcome :=
  match outcome with
  | Rejected _ => unreachableResponse
  | Resolved openaiRes =>
      if negb (ok openaiRes) then
        let err := default (JObj []) (upstreamJson openaiRes) in
        match getProp err "error" with
        | None => unreachableResponse
        | Some e =>
            sendJson (upstreamStatus openaiRes)
              (JObj [("error", jsOr (getPropOpt e "message") (JStr "OpenAI error"))])
        end
      else
        match upstreamJson openaiRes with
        | None => unreachableResponse
        | Some data =>
            match firstCompletionContent data with
            | None => unreachableResponse
            | Some content => sendJson 200 (JObj [("content", content)])
            end
        end
  end.

#[warnings="-inexact-float"]
Definition upstreamBody (messages max_tokens temperature : JSValue) : JSValue :=
  JObj [("model", JStr "gpt-4o-mini");
        ("messages", messages);
        ("max_tokens", jsOr max_tokens (JNum 2500%float));
        ("temperature", jsNullish temperature (JNum 0.85%float))].

Definition handler (OPENAI_API_KEY : option string) (now : Z) (req : Request)
    (rateLimitMap : gmap string RateRecord) : Run * gmap string RateRecord :=
  if String.eqb (method req) "OPTIONS" then
    (Done (Returned {| status := 204; responseHeaders := corsHeaders; responseBody := None |}),
     rateLimitMap)
  else if negb (String.eqb (method req) "POST") then
    (Done (sendJson 405 (JObj [("error", JStr "Method not allowed")])), rateLimitMap)
  else
    let ip := clientIp req in
    let '(admitted, rateLimitMap') := checkRateLimit now ip rateLimitMap in
    if negb admitted then
      (Done (sendJson 429 (JObj [("error", JStr "Rate limited. Try again later.")])),
       rateLimitMap')
    else
      let payload := jsOr (body req) (JObj []) in
      let messages := getPropOpt payload "messages" in
      let max_tokens := getPropOpt payload "max_tokens" in
      let temperature := getPropOpt payload "temperature" in
      if negb (isArray messages) then
        (Done (sendJson 400 (JObj [("error", JStr "messages array required")])), rateLimitMap')
      else
        match truthyString OPENAI_API_KEY with
        | None =>
            (Done (sendJson 500 (JObj [("error", JStr "Server misconfigured")])), rateLimitMap')
        | Some OPENAI_KEY =>
            (Fetch {| url := "https://api.openai.com/v1/chat/completions";
                      fetchMethod := "POST";
                      fetchHeaders := [("Content-Type", "application/json");
                                       ("Authorization", "Bearer " +:+ OPENAI_KEY)];
                      fetchBody := upstreamBody messages max_tokens temperature |}
                   afterFetch,
             rateLimitMap')
        end.

End Serverless.

(** ** Handler runs *)

(** The upstream request of a run, when it makes one. *)
Definition upstreamCall (r : Run) : option UpstreamRequest :=
  match r with
  | Fetch call _ => Some call
  | Done _ => None
  end.

(** A POST request to either handler, from the client [forwardedFor]. *)
Definition edge_post (forwardedFor : string) (payload : option JSValue) : Edge.Request :=
  {| Edge.method := "POST";
     Edge.headers := {[ "x-forwarded-for" := forwardedFor ]};
     Edge.json := payload |}.

Definition serverless_post (forwardedFor : string) (payload : JSValue) : Serverless.Request :=
  {| Serverless.method := "POST";
     Serverless.headers := {[ "x-forwarded-for" := forwardedFor ]};
     Serverless.body := payload |}.

(** An upstream that answers every request with the same outcome. *)
Definition always (o : FetchOutcome) : UpstreamRequest -> FetchOutcome := fun _ => o.

(** The value of the header [name] of an upstream request ([""] when the
    request has no such header). *)
Definition fetchHeader (name : string) (call : UpstreamRequest) : string :=
  default "" (snd <$> List.find (fun h => String.eqb (fst h) name) (fetchHeaders call)).

(** An upstream that refuses every request with status 401 and repeats, in
    the message of the error, the [Authorization] header it was sent. *)
Definition echoAuthorization (call : UpstreamRequest) : FetchOutcome :=
  Resolved {| upstreamStatus := 401;
              upstreamJson :=
                Some (JObj [("error",
                             JObj [("message", JStr (fetchHeader "Authorization" call))])]) |}.

(** Whether a string begins with a character that [trim] removes. *)
Definition startsWithWhiteSpace (s : string) : bool :=
  match s with
  | EmptyString => false
  | String c _ => isWhiteSpace c
  end.

(** A request that passes the validation of [src/chat.js]: its body parses
    to a value whose [messages] is an array. *)
Definition edge_valid (req : Edge.Request) : Prop :=
  exists body messages,
    Edge.json req = Some body
    /\ getProp body "messages" = Some messages
    /\ isArray messages = true.

(** The response of [src/chat.js] to a served request. *)
Definition edge_success (req : Edge.Request) (content : JSValue) (remaining : Z) : Outcome :=
  Returned {| status := 200;
              responseHeaders := Edge.jsonHeaders (Edge.corsHeaders req);
              responseBody :=
                Some (JObj [("content", content); ("remaining", JInt remaining)]) |}.

(** Requests served one after the other, each with the value of
    [Date.now()] at its rate-limit check: the outcomes, and the map at the
    end.  (The map is only touched before the handler awaits the upstream,
    so requests in flight at the same time see it the same way.) *)
Fixpoint edge_serve (apiKey : option string) (fetch : UpstreamRequest -> FetchOutcome)
    (reqs : list (Z * Edge.Request)) (m : gmap string Edge.RateRecord)
    : list Outcome * gmap string Edge.RateRecord :=
  match reqs with
  | [] => ([], m)
  | (now, req) :: rest =>
      let '(run, m') := Edge.handler apiKey now req m in
      let '(os, m'') := edge_serve apiKey fetch rest m' in
      (complete fetch run :: os, m'')
  end.

Fixpoint serverless_serve (apiKey : option string) (fetch : UpstreamRequest -> FetchOutcome)
    (reqs : list (Z * Serverless.Request)) (m : gmap string Serverless.RateRecord)
    : list Outcome * gmap string Serverless.RateRecord :=
  match reqs with
  | [] => ([], m)
  | (now, req) :: rest =>
      let '(run, m') := Serverless.handler apiKey now req m in
      let '(os, m'') := serverless_serve apiKey fetch rest m' in
      (complete fetch run :: os, m'')
  end.

(** ** Runs of the rate limiter *)

(** The states of [rateLimitMap] in the life of a process: empty at start,
    then changed by [checkRateLimit] only. *)
Inductive edge_reachable : gmap string Edge.RateRecord -> Prop :=
| edge_reachable_start : edge_reachable ∅
| edge_reachable_check now key m :
    edge_reachable m -> edge_reachable (Edge.checkRateLimit now key m).2.

Inductive serverless_reachable : gmap string Serverless.RateRecord -> Prop :=
| serverless_reachable_start : serverless_reachable ∅
| serverless_reachable_check now ip m :
    serverless_reachable m -> serverless_reachable (Serverless.checkRateLimit now ip m).2.

(** Successive calls for one key, at the times [ts]: the decisions, and the
    map at the end. *)
Fixpoint edge_calls (key : string) (ts : list Z) (m : gmap string Edge.RateRecord)
    : list Edge.RateCheck * gmap string Edge.RateRecord :=
  match ts with
  | [] => ([], m)
  | t :: ts' =>
      let '(d, m') := Edge.checkRateLimit t key m in
      let '(ds, m'') := edge_calls key ts' m' in
      (d :: ds, m'')
  end.

Fixpoint serverless_calls (ip : string) (ts : list Z) (m : gmap string Serverless.RateRecord)
    : list bool * gmap string Serverless.RateRecord :=
  match ts with
  | [] => ([], m)
  | t :: ts' =>
      let '(d, m') := Serverless.checkRateLimit t ip m in
      let '(ds, m'') := serverless_calls ip ts' m' in
      (d :: ds, m'')
  end.

(** Turns the boolean comparisons met in a hypothesis into inequalities. *)
Ltac zify_tests :=
  repeat match goal with
  | H : (_ <? _) = true |- _ => apply Z.ltb_lt in H
  | H : (_ <? _) = false |- _ => apply Z.ltb_ge in H
  | H : (_ <=? _) = true |- _ => apply Z.leb_le in H
  | H : (_ <=? _) = false |- _ => apply Z.leb_gt in H
  end.

(** * Properties *)

(** ** Sanity checks of the embedding *)

Example edge_first_call :
  Edge.checkRateLimit 5 "a" ∅ =
  ({| Edge.allowed := true; Edge.remaining := 19; Edge.resetIn := None |},
   {[ "a" := {| Edge.windowStart := 5; Edge.count := 1 |} ]}).
Proof. reflexivity. Qed.

Example float_zero_falsy :
  toBoolean (JNum 0%float) = false /\ toBoolean (JNum (-0)%float) = false
  /\ toBoolean (JInt 1500) = true.
Proof. repeat split; vm_compute; reflexivity. Qed.

Example ceil_div_examples :
  ceil_div 3600000 1000 = 3600 /\ ceil_div 1 1000 = 1 /\ ceil_div 0 1000 = 0
  /\ ceil_div 1001 1000 = 2.
Proof. repeat split. Qed.

Example key_of_forwarded_header :
  Edge.getRateLimitKey
    {| Edge.method := "POST";
       Edge.headers := {[ "x-forwarded-for" := " 203.0.113.9 , 10.0.0.1" ]};
       Edge.json := None |} = "203.0.113.9".
Proof. vm_compute. reflexivity. Qed.

Example cors_origin_echoed_when_allowed :
  let req origin := {| Edge.method := "OPTIONS";
                       Edge.headers := {[ "origin" := origin ]};
                       Edge.json := None |} in
  Edge.corsHeaders (req "chrome-extension://abcdef") !! 0%nat =
    Some ("Access-Control-Allow-Origin", "chrome-extension://abcdef")
  /\ Edge.corsHeaders (req "https://example.org") !! 0%nat =
       Some ("Access-Control-Allow-Origin", "https://www.propertyfinder.ae").
Proof. split; vm_compute; reflexivity. Qed.

Example preflight_answers_204 :
  let req := {| Edge.method := "OPTIONS"; Edge.headers := ∅; Edge.json := None |} in
  Edge.handler None 0 req ∅ =
    (Done (Returned {| status := 204;
                       responseHeaders := Edge.corsHeaders req;
                       responseBody := None |}), ∅).
Proof. reflexivity. Qed.

(** ** The rate limiter of [src/chat.js] *)

Section EdgeLimiter.
Import Edge.

Lemma RATE_LIMIT_pos : 1 <= RATE_LIMIT.
Proof. unfold RATE_LIMIT. lia. Qed.

Lemma ceil_div_nonneg x d : 0 < d -> 0 <= x -> 0 <= ceil_div x d.
Proof.
  intros Hd Hx. unfold ceil_div.
  assert (- x / d <= 0) by (apply Z.div_le_upper_bound; lia). lia.
Qed.

Lemma ceil_div_pos x d : 0 < d -> 0 < x -> 0 < ceil_div x d.
Proof.
  intros Hd Hx. unfold ceil_div.
  assert (- x / d < 0) by (apply Z.div_lt_upper_bound; lia). lia.
Qed.

Lemma ceil_div_spec x d : 0 < d -> d * (ceil_div x d - 1) < x <= d * ceil_div x d.
Proof.
  intros Hd. unfold ceil_div.
  pose proof (Z.mul_div_le (- x) d Hd).
  pose proof (Z.mul_succ_div_gt (- x) d Hd). lia.
Qed.

(** The three branches of [checkRateLimit], one equation each. *)

Lemma edge_checkRateLimit_no_record now key (m : gmap string RateRecord) :
  m !! key = None ->
  checkRateLimit now key m =
  ({| allowed := true; remaining := RATE_LIMIT - 1; resetIn := None |},
   <[key := {| windowStart := now; count := 1 |}]> m).
Proof. intros Hm. unfold checkRateLimit. by rewrite Hm. Qed.

Lemma edge_checkRateLimit_expired now key (m : gmap string RateRecord) r :
  m !! key = Some r -> RATE_WINDOW * 1000 < now - windowStart r ->
  checkRateLimit now key m =
  ({| allowed := true; remaining := RATE_LIMIT - 1; resetIn := None |},
   <[key := {| windowStart := now; count := 1 |}]> m).
Proof.
  intros Hm Hexp. unfold checkRateLimit. rewrite Hm.
  by apply Z.ltb_lt in Hexp as ->.
Qed.

Lemma edge_checkRateLimit_full now key (m : gmap string RateRecord) r :
  m !! key = Some r -> now - windowStart r <= RATE_WINDOW * 1000 ->
  RATE_LIMIT <= count r ->
  checkRateLimit now key m =
  ({| allowed := false; remaining := 0;
      resetIn := Some (ceil_div (windowStart r + RATE_WINDOW * 1000 - now) 1000) |}, m).
Proof.
  intros Hm Hwin Hfull. unfold checkRateLimit. rewrite Hm.
  apply Z.ltb_ge in Hwin as ->. by apply Z.leb_le in Hfull as ->.
Qed.

Lemma edge_checkRateLimit_under now key (m : gmap string RateRecord) r :
  m !! key = Some r -> now - windowStart r <= RATE_WINDOW * 1000 ->
  count r < RATE_LIMIT ->
  checkRateLimit now key m =
  ({| allowed := true; remaining := RATE_LIMIT - (count r + 1); resetIn := None |},
   <[key := {| windowStart := windowStart r; count := count r + 1 |}]> m).
Proof.
  intros Hm Hwin Hunder. unfold checkRateLimit. rewrite Hm.
  apply Z.ltb_ge in Hwin as ->. by apply Z.leb_gt in Hunder as ->.
Qed.

(** A run of calls inside one window, all under the limit: the [i]-th of
    them is allowed with [remaining] one less than the call before, and the
    record ends with as many requests counted as were made. *)
Lemma edge_calls_under key ts : forall (m : gmap string RateRecord) r,
  m !! key = Some r ->
  Forall (fun t => t - windowStart r <= RATE_WINDOW * 1000) ts ->
  count r + Z.of_nat (length ts) <= RATE_LIMIT ->
  (edge_calls key ts m).1 =
    imap (fun i _ => {| allowed := true;
                        remaining := RATE_LIMIT - (count r + 1 + Z.of_nat i);
                        resetIn := None |}) ts
  /\ (edge_calls key ts m).2 !! key =
       Some {| windowStart := windowStart r; count := count r + Z.of_nat (length ts) |}.
Proof.
  induction ts as [|t ts IH]; intros m r Hm Hwin Hlen; simpl in *.
  - split; [done|]. rewrite Hm. destruct r; simpl. do 2 f_equal. lia.
  - apply Forall_cons in Hwin as [Ht Hwin].
    rewrite (edge_checkRateLimit_under t key m r) by (done || lia).
    set (r' := {| windowStart := windowStart r; count := count r + 1 |}).
    destruct (IH (<[key := r']> m) r') as [IH1 IH2].
    + apply lookup_insert_eq.
    + done.
    + simpl. lia.
    + destruct (edge_calls key ts (<[key := r']> m)) as [ds m''] eqn:Hcalls.
      simpl in *. split.
      * f_equal; [do 2 f_equal; lia|]. rewrite IH1.
        apply imap_ext. intros i x _. simpl. do 2 f_equal. lia.
      * rewrite IH2. do 2 f_equal. lia.
Qed.

(** One window from its first call on: the call at [t0] finds no record
    (or an expired one), the calls at [ts] stay inside the window opened at
    [t0] and under the limit. *)
Lemma edge_window_run key t0 ts (m : gmap string RateRecord) :
  (m !! key = None \/
   exists r, m !! key = Some r /\ RATE_WINDOW * 1000 < t0 - windowStart r) ->
  Forall (fun t => t - t0 <= RATE_WINDOW * 1000) ts ->
  Z.of_nat (length ts) < RATE_LIMIT ->
  (edge_calls key (t0 :: ts) m).1 =
    imap (fun i _ => {| allowed := true;
                        remaining := RATE_LIMIT - 1 - Z.of_nat i;
                        resetIn := None |}) (t0 :: ts)
  /\ (edge_calls key (t0 :: ts) m).2 !! key =
       Some {| windowStart := t0; count := 1 + Z.of_nat (length ts) |}.
Proof.
  intros Hfresh Hwin Hlen. simpl.
  assert (checkRateLimit t0 key m =
          ({| allowed := true; remaining := RATE_LIMIT - 1; resetIn := None |},
           <[key := {| windowStart := t0; count := 1 |}]> m)) as ->.
  { destruct Hfresh as [Hnone | (r & Hr & Hexp)].
    - by apply edge_checkRateLimit_no_record.
    - by apply edge_checkRateLimit_expired with r. }
  set (r0 := {| windowStart := t0; count := 1 |}).
  destruct (edge_calls_under key ts (<[key := r0]> m) r0) as [H1 H2].
  - apply lookup_insert_eq.
  - done.
  - simpl. lia.
  - destruct (edge_calls key ts (<[key := r0]> m)) as [ds m'].
    cbn [fst snd imap length] in *. split.
    + rewrite H1. f_equal.
      apply imap_ext. intros i x _. unfold compose. f_equal. simpl count. lia.
    + done.
Qed.

(** The call that follows [RATE_LIMIT] calls of one window, the window not
    yet over, is denied. *)
Lemma edge_call_after_limit_denied key t0 ts t (m : gmap string RateRecord) :
  (m !! key = None \/
   exists r, m !! key = Some r /\ RATE_WINDOW * 1000 < t0 - windowStart r) ->
  Z.of_nat (length (t0 :: ts)) = RATE_LIMIT ->
  Forall (fun t' => t' - t0 <= RATE_WINDOW * 1000) (ts ++ [t]) ->
  checkRateLimit t key (edge_calls key (t0 :: ts) m).2 =
  ({| allowed := false; remaining := 0;
      resetIn := Some (ceil_div (t0 + RATE_WINDOW * 1000 - t) 1000) |},
   (edge_calls key (t0 :: ts) m).2).
Proof.
  intros Hfresh Hlen Hwin. apply Forall_app in Hwin as [Hts Ht].
  rewrite Forall_singleton in Ht.
  destruct (edge_window_run key t0 ts m Hfresh Hts) as [_ Hrec].
  { simpl length in Hlen. lia. }
  rewrite (edge_checkRateLimit_full t key _ _ Hrec); simpl; [done|lia|].
  simpl length in Hlen. lia.
Qed.

(** [checkRateLimit] keeps every count between 1 and the limit. *)
Lemma edge_checkRateLimit_preserves_bounds now key (m : gmap string RateRecord) :
  (forall k r, m !! k = Some r -> 1 <= count r <= RATE_LIMIT) ->
  forall k r, (checkRateLimit now key m).2 !! k = Some r -> 1 <= count r <= RATE_LIMIT.
Proof.
  intros Hinv k r. pose proof RATE_LIMIT_pos. unfold checkRateLimit.
  destruct (m !! key) as [rec|] eqn:Hm; repeat case_match; zify_tests; simpl.
  all: try apply Hinv.
  all: destruct (decide (key = k)) as [->|Hne].
  all: try (rewrite lookup_insert_ne by done; apply Hinv).
  all: rewrite lookup_insert_eq; intros [= <-]; simpl.
  all: try (specialize (Hinv _ _ Hm)); lia.
Qed.

End EdgeLimiter.

(** ** The rate limiter of [src/unnamed/part_000]

    The same fixed-window counter with 100 requests per hour; the decision
    is a boolean, without [remaining] or [resetIn]. *)

Section ServerlessLimiter.
Import Serverless.

Lemma serverless_checkRateLimit_opens_window now ip (m : gmap string RateRecord) :
  (m !! ip = None \/ exists r, m !! ip = Some r /\ RATE_WINDOW < now - start r) ->
  checkRateLimit now ip m = (true, <[ip := {| start := now; count := 1 |}]> m).
Proof.
  unfold checkRateLimit. intros [-> | (r & -> & Hexp)]; [done|].
  by apply Z.ltb_lt in Hexp as ->.
Qed.

Lemma serverless_checkRateLimit_denies now ip (m : gmap string RateRecord) r :
  m !! ip = Some r -> now - start r <= RATE_WINDOW -> RATE_LIMIT <= count r ->
  checkRateLimit now ip m = (false, m).
Proof.
  intros Hm Hwin Hfull. unfold checkRateLimit. rewrite Hm.
  apply Z.ltb_ge in Hwin as ->. by apply Z.leb_le in Hfull as ->.
Qed.

Lemma serverless_checkRateLimit_counts now ip (m : gmap string RateRecord) r :
  m !! ip = Some r -> now - start r <= RATE_WINDOW -> count r < RATE_LIMIT ->
  checkRateLimit now ip m =
  (true, <[ip := {| start := start r; count := count r + 1 |}]> m).
Proof.
  intros Hm Hwin Hunder. unfold checkRateLimit. rewrite Hm.
  apply Z.ltb_ge in Hwin as ->. by apply Z.leb_gt in Hunder as ->.
Qed.

Lemma serverless_checkRateLimit_preserves_bounds now ip (m : gmap string RateRecord) :
  (forall k r, m !! k = Some r -> 1 <= count r <= RATE_LIMIT) ->
  forall k r, (checkRateLimit now ip m).2 !! k = Some r -> 1 <= count r <= RATE_LIMIT.
Proof.
  intros Hinv k r. unfold checkRateLimit.
  destruct (m !! ip) as [rec|] eqn:Hm; repeat case_match; zify_tests; simpl.
  all: try apply Hinv.
  all: destruct (decide (ip = k)) as [->|Hne].
  all: try (rewrite lookup_insert_ne by done; apply Hinv).
  all: rewrite lookup_insert_eq; intros [= <-]; simpl.
  all: try (specialize (Hinv _ _ Hm)); unfold RATE_LIMIT in *; lia.
Qed.

Lemma serverless_calls_under ip ts : forall (m : gmap string RateRecord) r,
  m !! ip = Some r ->
  Forall (fun t => t - start r <= RATE_WINDOW) ts ->
  count r + Z.of_nat (length ts) <= RATE_LIMIT ->
  (serverless_calls ip ts m).1 = replicate (length ts) true
  /\ (serverless_calls ip ts m).2 !! ip =
       Some {| start := start r; count := count r + Z.of_nat (length ts) |}.
Proof.
  induction ts as [|t ts IH]; intros m r Hm Hwin Hlen; simpl in *.
  - split; [done|]. rewrite Hm. destruct r; simpl. do 2 f_equal. lia.
  - apply Forall_cons in Hwin as [Ht Hwin].
    rewrite (serverless_checkRateLimit_counts t ip m r) by (done || lia).
    set (r' := {| start := start r; count := count r + 1 |}).
    destruct (IH (<[ip := r']> m) r') as [IH1 IH2].
    + apply lookup_insert_eq.
    + done.
    + simpl. lia.
    + destruct (serverless_calls ip ts (<[ip := r']> m)) as [ds m''].
      cbn [fst snd] in *. split; [by rewrite IH1|].
      rewrite IH2. simpl. do 2 f_equal. lia.
Qed.

(** One window from its first call on, as [edge_window_run]. *)
Lemma serverless_window_run ip t0 ts (m : gmap string RateRecord) :
  (m !! ip = None \/ exists r, m !! ip = Some r /\ RATE_WINDOW < t0 - start r) ->
  Forall (fun t => t - t0 <= RATE_WINDOW) ts ->
  Z.of_nat (length ts) < RATE_LIMIT ->
  (serverless_calls ip (t0 :: ts) m).1 = replicate (length (t0 :: ts)) true
  /\ (serverless_calls ip (t0 :: ts) m).2 !! ip =
       Some {| start := t0; count := 1 + Z.of_nat (length ts) |}.
Proof.
  intros Hfresh Hwin Hlen. simpl.
  rewrite (serverless_checkRateLimit_opens_window t0 ip m Hfresh).
  set (r0 := {| start := t0; count := 1 |}).
  destruct (serverless_calls_under ip ts (<[ip := r0]> m) r0) as [H1 H2].
  - apply lookup_insert_eq.
  - done.
  - simpl. lia.
  - destruct (serverless_calls ip ts (<[ip := r0]> m)) as [ds m'].
    cbn [fst snd] in *. split; [by rewrite H1|done].
Qed.

(** The 101st call of a window that is not over is refused. *)
Lemma serverless_call_after_limit_denied ip t0 ts t (m : gmap string RateRecord) :
  (m !! ip = None \/ exists r, m !! ip = Some r /\ RATE_WINDOW < t0 - start r) ->
  Z.of_nat (length (t0 :: ts)) = RATE_LIMIT ->
  Forall (fun t' => t' - t0 <= RATE_WINDOW) (ts ++ [t]) ->
  checkRateLimit t ip (serverless_calls ip (t0 :: ts) m).2 =
    (false, (serverless_calls ip (t0 :: ts) m).2).
Proof.
  intros Hfresh Hlen Hwin. apply Forall_app in Hwin as [Hts Ht].
  rewrite Forall_singleton in Ht. simpl length in Hlen.
  destruct (serverless_window_run ip t0 ts m Hfresh Hts) as [_ Hrec]; [lia|].
  apply (serverless_checkRateLimit_denies t ip _ _ Hrec); simpl; lia.
Qed.

End ServerlessLimiter.

(** ** The handler of [src/chat.js] *)

Section EdgeHandler.
Import Edge.

(** The response of the [catch] clause, spelled out. *)
Lemma edge_unreachableResponse_eq cors :
  unreachableResponse cors =
  Returned {| status := 502;
              responseHeaders := jsonHeaders cors;
              responseBody := Some (JObj [("error", JStr "Failed to reach AI service")]) |}.
Proof. reflexivity. Qed.

(** The requests that reach the upstream call: POST requests, admitted by the
    rate limiter, whose body parses to a value with an array [messages],
    on a server with a credential. *)
Lemma edge_handler_forwards apiKey now req (m : gmap string RateRecord)
    body messages OPENAI_KEY :
  method req = "POST" ->
  allowed (checkRateLimit now (getRateLimitKey req) m).1 = true ->
  json req = Some body ->
  getProp body "messages" = Some messages ->
  isArray messages = true ->
  truthyString apiKey = Some OPENAI_KEY ->
  handler apiKey now req m =
  (Fetch {| url := "https://api.openai.com/v1/chat/completions";
            fetchMethod := "POST";
            fetchHeaders := [("Content-Type", "application/json");
                             ("Authorization", "Bearer " +:+ OPENAI_KEY)];
            fetchBody := upstreamBody body messages |}
         (afterFetch (corsHeaders req) (checkRateLimit now (getRateLimitKey req) m).1),
   (checkRateLimit now (getRateLimitKey req) m).2).
Proof.
  intros Hmeth Hallow Hjson Hmsgs Harr Hkey. unfold handler.
  rewrite Hmeth. simpl.
  destruct (checkRateLimit now (getRateLimitKey req) m) as [rc m'].
  simpl in Hallow. rewrite Hallow, Hjson, Hmsgs, Harr, Hkey. done.
Qed.

Lemma edge_handler_fetch_inv apiKey now req (m m' : gmap string RateRecord) call k :
  handler apiKey now req m = (Fetch call k, m') ->
  method req = "POST"
  /\ allowed (checkRateLimit now (getRateLimitKey req) m).1 = true
  /\ m' = (checkRateLimit now (getRateLimitKey req) m).2
  /\ k = afterFetch (corsHeaders req) (checkRateLimit now (getRateLimitKey req) m).1
  /\ exists body messages OPENAI_KEY,
       json req = Some body
       /\ getProp body "messages" = Some messages
       /\ isArray messages = true
       /\ truthyString apiKey = Some OPENAI_KEY
       /\ call = {| url := "https://api.openai.com/v1/chat/completions";
                    fetchMethod := "POST";
                    fetchHeaders := [("Content-Type", "application/json");
                                     ("Authorization", "Bearer " +:+ OPENAI_KEY)];
                    fetchBody := upstreamBody body messages |}.
Proof.
  unfold handler.
  destruct (String.eqb (method req) "OPTIONS") eqn:Hopt; [done|].
  destruct (String.eqb (method req) "POST") eqn:Hpost; [|done]. simpl.
  apply String.eqb_eq in Hpost.
  destruct (checkRateLimit now (getRateLimitKey req) m) as [rc m1]. simpl.
  destruct (allowed rc) eqn:Hallow; [|done]. simpl.
  destruct (json req) as [body|]; [|done].
  destruct (getProp body "messages") as [messages|] eqn:Hmsgs; [|done].
  destruct (isArray messages) eqn:Harr; [|done]. simpl.
  destruct (truthyString apiKey) as [key|] eqn:Hkey; [|done].
  intros [= <- <- <-]. repeat split; try done. by exists body, messages, key.
Qed.

(** What [afterFetch] answers to an upstream reply with a non-success
    status whose body is not the JSON value [null], when the [Response]
    constructor accepts the status. *)
Lemma edge_afterFetch_upstream_error cors rc res :
  ok res = false ->
  upstreamJson res <> Some JNull -> upstreamJson res <> Some JUndefined ->
  200 <= upstreamStatus res <= 599 -> nullBodyStatus (upstreamStatus res) = false ->
  exists message,
    afterFetch cors rc (Resolved res) =
    Returned {| status := upstreamStatus res;
                responseHeaders := jsonHeaders cors;
                responseBody := Some (JObj [("error", message)]) |}
    /\ message =
       jsOr (getPropOpt (getPropOpt (default (JObj []) (upstreamJson res)) "error") "message")
            (JStr ("OpenAI error: " +:+ pretty (upstreamStatus res))).
Proof.
  intros Hok Hnull Hundef Hrange Hnb. unfold afterFetch. rewrite Hok. simpl.
  destruct (getProp _ "error") as [e|] eqn:He.
  - unfold newResponse. rewrite Hnb.
    destruct Hrange as [->%Z.leb_le ->%Z.leb_le]. simpl.
    eexists. split; [reflexivity|].
    assert (getPropOpt (default (JObj []) (upstreamJson res)) "error" = e) as ->; [|done].
    unfold getPropOpt. by rewrite He.
  - exfalso. destruct (upstreamJson res) as [[]|]; simpl in He; congruence.
Qed.

(** The status of every response the handler can give: the fixed codes, or
    the status of a non-success upstream reply. *)
Lemma edge_handler_status apiKey now req (m : gmap string RateRecord) fetch r :
  complete fetch (handler apiKey now req m).1 = Returned r ->
  status r ∈ [204; 405; 429; 400; 500; 200; 502]
  \/ exists call res, fetch call = Resolved res /\ ok res = false
                      /\ status r = upstreamStatus res.
Proof.
  unfold handler.
  destruct (String.eqb (method req) "OPTIONS"); simpl.
  { intros [= <-]. left. simpl. set_solver. }
  destruct (String.eqb (method req) "POST"); simpl.
  2: { intros [= <-]. left. simpl. set_solver. }
  destruct (checkRateLimit now (getRateLimitKey req) m) as [rc m1]. simpl.
  destruct (allowed rc); simpl.
  2: { intros [= <-]. left. simpl. set_solver. }
  destruct (json req) as [body|]; simpl.
  2: { intros [= <-]. left. simpl. set_solver. }
  destruct (getProp body "messages") as [messages|]; simpl; [|done].
  destruct (isArray messages); simpl.
  2: { intros [= <-]. left. simpl. set_solver. }
  destruct (truthyString apiKey) as [key|]; simpl.
  2: { intros [= <-]. left. simpl. set_solver. }
  unfold afterFetch.
  match goal with |- context [fetch ?c] => destruct (fetch c) as [reason|res] eqn:Hf end.
  { intros [= <-]. left. simpl. set_solver. }
  destruct (ok res) eqn:Hok; simpl.
  - destruct (upstreamJson res) as [data|].
    2: { intros [= <-]. left. simpl. set_solver. }
    destruct (firstCompletionContent data).
    all: intros [= <-]; left; simpl; set_solver.
  - destruct (getProp _ "error").
    2: { intros [= <-]. left. simpl. set_solver. }
    destruct (newResponse _ _ _) as [r'|] eqn:Hr.
    2: { intros [= <-]. left. simpl. set_solver. }
    intros [= <-]. right. eexists _, res. repeat split; [done..|].
    unfold newResponse in Hr. repeat case_match; simplify_eq. done.
Qed.

End EdgeHandler.

(** ** The handler of [src/unnamed/part_000] *)

Section ServerlessHandler.
Import Serverless.

Lemma serverless_handler_forwards apiKey now req (m : gmap string RateRecord) OPENAI_KEY :
  method req = "POST" ->
  (checkRateLimit now (clientIp req) m).1 = true ->
  isArray (getPropOpt (jsOr (body req) (JObj [])) "messages") = true ->
  truthyString apiKey = Some OPENAI_KEY ->
  handler apiKey now req m =
  (Fetch {| url := "https://api.openai.com/v1/chat/completions";
            fetchMethod := "POST";
            fetchHeaders := [("Content-Type", "application/json");
                             ("Authorization", "Bearer " +:+ OPENAI_KEY)];
            fetchBody :=
              upstreamBody (getPropOpt (jsOr (body req) (JObj [])) "messages")
                           (getPropOpt (jsOr (body req) (JObj [])) "max_tokens")
                           (getPropOpt (jsOr (body req) (JObj [])) "temperature") |}
         afterFetch,
   (checkRateLimit now (clientIp req) m).2).
Proof.
  intros Hmeth Hallow Harr Hkey. unfold handler.
  rewrite Hmeth. simpl.
  destruct (checkRateLimit now (clientIp req) m) as [d m'].
  simpl in Hallow. rewrite Hallow, Harr, Hkey. done.
Qed.

Lemma serverless_handler_fetch_inv apiKey now req (m m' : gmap string RateRecord) call k :
  handler apiKey now req m = (Fetch call k, m') ->
  method req = "POST"
  /\ (checkRateLimit now (clientIp req) m).1 = true
  /\ m' = (checkRateLimit now (clientIp req) m).2
  /\ k = afterFetch
  /\ isArray (getPropOpt (jsOr (body req) (JObj [])) "messages") = true
  /\ exists OPENAI_KEY,
       truthyString apiKey = Some OPENAI_KEY
       /\ call = {| url := "https://api.openai.com/v1/chat/completions";
                    fetchMethod := "POST";
                    fetchHeaders := [("Content-Type", "application/json");
                                     ("Authorization", "Bearer " +:+ OPENAI_KEY)];
                    fetchBody :=
                      upstreamBody (getPropOpt (jsOr (body req) (JObj [])) "messages")
                                   (getPropOpt (jsOr (body req) (JObj [])) "max_tokens")
                                   (getPropOpt (jsOr (body req) (JObj [])) "temperature") |}.
Proof.
  unfold handler.
  destruct (String.eqb (method req) "OPTIONS") eqn:Hopt; [done|].
  destruct (String.eqb (method req) "POST") eqn:Hpost; [|done]. simpl.
  apply String.eqb_eq in Hpost.
  destruct (checkRateLimit now (clientIp req) m) as [d m1]. simpl.
  destruct d; [|done]. simpl.
  destruct (isArray _) eqn:Harr; [|done]. simpl.
  destruct (truthyString apiKey) as [key|] eqn:Hkey; [|done].
  intros [= <- <- <-]. repeat split; try done. by exists key.
Qed.

Lemma serverless_afterFetch_upstream_error res :
  ok res = false ->
  upstreamJson res <> Some JNull -> upstreamJson res <> Some JUndefined ->
  afterFetch (Resolved res) =
  sendJson (upstreamStatus res)
    (JObj [("error",
            jsOr (getPropOpt (getPropOpt (default (JObj []) (upstreamJson res)) "error")
                             "message")
                 (JStr "OpenAI error"))]).
Proof.
  intros Hok Hnull Hundef. unfold afterFetch. rewrite Hok. simpl.
  destruct (getProp _ "error") as [e|] eqn:He.
  - assert (getPropOpt (default (JObj []) (upstreamJson res)) "error" = e) as ->; [|done].
    unfold getPropOpt. by rewrite He.
  - exfalso. destruct (upstreamJson res) as [[]|]; simpl in He; congruence.
Qed.

Lemma serverless_handler_status apiKey now req (m : gmap string RateRecord) fetch r :
  complete fetch (handler apiKey now req m).1 = Returned r ->
  status r ∈ [204; 405; 429; 400; 500; 200; 502]
  \/ exists call res, fetch call = Resolved res /\ ok res = false
                      /\ status r = upstreamStatus res.
Proof.
  unfold handler.
  destruct (String.eqb (method req) "OPTIONS"); simpl.
  { intros [= <-]. left. simpl. set_solver. }
  destruct (String.eqb (method req) "POST"); simpl.
  2: { intros [= <-]. left. simpl. set_solver. }
  destruct (checkRateLimit now (clientIp req) m) as [d m1]. simpl.
  destruct d; simpl.
  2: { intros [= <-]. left. simpl. set_solver. }
  destruct (isArray _); simpl.
  2: { intros [= <-]. left. simpl. set_solver. }
  destruct (truthyString apiKey) as [key|]; simpl.
  2: { intros [= <-]. left. simpl. set_solver. }
  unfold afterFetch.
  match goal with |- context [fetch ?c] => destruct (fetch c) as [reason|res] eqn:Hf end.
  { intros [= <-]. left. simpl. set_solver. }
  destruct (ok res) eqn:Hok; simpl.
  - destruct (upstreamJson res) as [data|].
    2: { intros [= <-]. left. simpl. set_solver. }
    destruct (firstCompletionContent data).
    all: intros [= <-]; left; simpl; set_solver.
  - destruct (getProp _ "error").
    2: { intros [= <-]. left. simpl. set_solver. }
    intros [= <-]. right. eexists _, res. done.
Qed.

End ServerlessHandler.

(** * The claims, for both variants *)

(** C1 (amended): a record with [count >= RATE_LIMIT] whose window is not
    over (the current time minus the window start does not exceed the
    window duration) makes [checkRateLimit] deny the request and leave the
    map alone.  In [src/chat.js] the answer carries [allowed = false] and
    [resetIn], the ceiling in seconds of [windowStart + RATE_WINDOW * 1000 -
    now] milliseconds; that [resetIn] is never negative, and it is strictly
    positive whenever the window has time left ([now - windowStart <
    RATE_WINDOW * 1000]).  In [src/unnamed/part_000] the answer is [false].
    In particular the call that follows [RATE_LIMIT] calls of one window,
    that window not being over, is denied. *)
Theorem checkRateLimit_denies_full_window :
  (forall now key (m : gmap string Edge.RateRecord) r,
      m !! key = Some r ->
      Edge.RATE_LIMIT <= Edge.count r ->
      now - Edge.windowStart r <= Edge.RATE_WINDOW * 1000 ->
      Edge.checkRateLimit now key m =
        ({| Edge.allowed := false; Edge.remaining := 0;
            Edge.resetIn :=
              Some (ceil_div (Edge.windowStart r + Edge.RATE_WINDOW * 1000 - now) 1000) |},
         m)
      /\ 1000 * (ceil_div (Edge.windowStart r + Edge.RATE_WINDOW * 1000 - now) 1000 - 1)
           < Edge.windowStart r + Edge.RATE_WINDOW * 1000 - now
           <= 1000 * ceil_div (Edge.windowStart r + Edge.RATE_WINDOW * 1000 - now) 1000
      /\ 0 <= ceil_div (Edge.windowStart r + Edge.RATE_WINDOW * 1000 - now) 1000
      /\ (now - Edge.windowStart r < Edge.RATE_WINDOW * 1000 ->
          0 < ceil_div (Edge.windowStart r + Edge.RATE_WINDOW * 1000 - now) 1000))
  /\ (forall key t0 ts t (m : gmap string Edge.RateRecord),
      (m !! key = None \/
       exists r, m !! key = Some r /\ Edge.RATE_WINDOW * 1000 < t0 - Edge.windowStart r) ->
      Z.of_nat (length (t0 :: ts)) = Edge.RATE_LIMIT ->
      Forall (fun t' => t' - t0 <= Edge.RATE_WINDOW * 1000) (ts ++ [t]) ->
      Edge.allowed (Edge.checkRateLimit t key (edge_calls key (t0 :: ts) m).2).1 = false)
  /\ (forall now ip (m : gmap string Serverless.RateRecord) r,
      m !! ip = Some r ->
      Serverless.RATE_LIMIT <= Serverless.count r ->
      now - Serverless.start r <= Serverless.RATE_WINDOW ->
      Serverless.checkRateLimit now ip m = (false, m))
  /\ (forall ip t0 ts t (m : gmap string Serverless.RateRecord),
      (m !! ip = None \/
       exists r, m !! ip = Some r /\ Serverless.RATE_WINDOW < t0 - Serverless.start r) ->
      Z.of_nat (length (t0 :: ts)) = Serverless.RATE_LIMIT ->
      Forall (fun t' => t' - t0 <= Serverless.RATE_WINDOW) (ts ++ [t]) ->
      (Serverless.checkRateLimit t ip (serverless_calls ip (t0 :: ts) m).2).1 = false).
Proof.
  split; [|split; [|split]].
  - intros now key m r Hm Hfull Hwin.
    split; [by apply edge_checkRateLimit_full|].
    split; [apply ceil_div_spec; lia|].
    split; [apply ceil_div_nonneg; lia|].
    intros Hleft. apply ceil_div_pos; lia.
  - intros key t0 ts t m Hfresh Hlen Hwin.
    by rewrite edge_call_after_limit_denied.
  - intros now ip m r Hm Hfull Hwin. by apply serverless_checkRateLimit_denies with r.
  - intros ip t0 ts t m Hfresh Hlen Hwin.
    by rewrite serverless_call_after_limit_denied.
Qed.

Lemma checkRateLimit_denies_full_window_witness :
  (let r := {| Edge.windowStart := 1000; Edge.count := 20 |} in
   let m : gmap string Edge.RateRecord := {[ "203.0.113.9" := r ]} in
   m !! "203.0.113.9" = Some r
   /\ Edge.RATE_LIMIT <= Edge.count r
   /\ 2500 - Edge.windowStart r <= Edge.RATE_WINDOW * 1000
   /\ Edge.checkRateLimit 2500 "203.0.113.9" m =
        ({| Edge.allowed := false; Edge.remaining := 0; Edge.resetIn := Some 3599 |}, m))
  /\ (let m : gmap string Edge.RateRecord := ∅ in
      let ts := replicate 19 1200 in
      (m !! "203.0.113.9" = None \/
       exists r, m !! "203.0.113.9" = Some r
                 /\ Edge.RATE_WINDOW * 1000 < 1000 - Edge.windowStart r)
      /\ Z.of_nat (length (1000 :: ts)) = Edge.RATE_LIMIT
      /\ Forall (fun t' => t' - 1000 <= Edge.RATE_WINDOW * 1000) (ts ++ [2500])
      /\ Edge.allowed
           (Edge.checkRateLimit 2500 "203.0.113.9"
              (edge_calls "203.0.113.9" (1000 :: ts) m).2).1 = false)
  /\ (let r := {| Serverless.start := 1000; Serverless.count := 100 |} in
      let m : gmap string Serverless.RateRecord := {[ "203.0.113.9" := r ]} in
      m !! "203.0.113.9" = Some r
      /\ Serverless.RATE_LIMIT <= Serverless.count r
      /\ 2500 - Serverless.start r <= Serverless.RATE_WINDOW
      /\ Serverless.checkRateLimit 2500 "203.0.113.9" m = (false, m))
  /\ (let m : gmap string Serverless.RateRecord := ∅ in
      let ts := replicate 99 1200 in
      (m !! "203.0.113.9" = None \/
       exists r, m !! "203.0.113.9" = Some r
                 /\ Serverless.RATE_WINDOW < 1000 - Serverless.start r)
      /\ Z.of_nat (length (1000 :: ts)) = Serverless.RATE_LIMIT
      /\ Forall (fun t' => t' - 1000 <= Serverless.RATE_WINDOW) (ts ++ [2500])
      /\ (Serverless.checkRateLimit 2500 "203.0.113.9"
            (serverless_calls "203.0.113.9" (1000 :: ts) m).2).1 = false).
Proof.
  split; [|split; [|split]].
  - intros r m.
    assert (H1 : m !! "203.0.113.9" = Some r) by reflexivity.
    assert (H2 : Edge.RATE_LIMIT <= Edge.count r) by (vm_compute; discriminate).
    assert (H3 : 2500 - Edge.windowStart r <= Edge.RATE_WINDOW * 1000)
      by (vm_compute; discriminate).
    exact (conj H1 (conj H2 (conj H3
             (proj1 (proj1 checkRateLimit_denies_full_window
                       2500 "203.0.113.9" m r H1 H2 H3))))).
  - intros m ts.
    assert (H1 : m !! "203.0.113.9" = None \/
                 exists r, m !! "203.0.113.9" = Some r
                           /\ Edge.RATE_WINDOW * 1000 < 1000 - Edge.windowStart r)
      by (left; reflexivity).
    assert (H2 : Z.of_nat (length (1000 :: ts)) = Edge.RATE_LIMIT) by reflexivity.
    assert (H3 : Forall (fun t' => t' - 1000 <= Edge.RATE_WINDOW * 1000) (ts ++ [2500]))
      by (repeat constructor; vm_compute; discriminate).
    exact (conj H1 (conj H2 (conj H3
             (proj1 (proj2 checkRateLimit_denies_full_window)
                    "203.0.113.9" 1000 ts 2500 m H1 H2 H3)))).
  - intros r m.
    assert (H1 : m !! "203.0.113.9" = Some r) by reflexivity.
    assert (H2 : Serverless.RATE_LIMIT <= Serverless.count r) by (vm_compute; discriminate).
    assert (H3 : 2500 - Serverless.start r <= Serverless.RATE_WINDOW)
      by (vm_compute; discriminate).
    exact (conj H1 (conj H2 (conj H3
             (proj1 (proj2 (proj2 checkRateLimit_denies_full_window))
                    2500 "203.0.113.9" m r H1 H2 H3)))).
  - intros m ts.
    assert (H1 : m !! "203.0.113.9" = None \/
                 exists r, m !! "203.0.113.9" = Some r
                           /\ Serverless.RATE_WINDOW < 1000 - Serverless.start r)
      by (left; reflexivity).
    assert (H2 : Z.of_nat (length (1000 :: ts)) = Serverless.RATE_LIMIT) by reflexivity.
    assert (H3 : Forall (fun t' => t' - 1000 <= Serverless.RATE_WINDOW) (ts ++ [2500]))
      by (repeat constructor; vm_compute; discriminate).
    exact (conj H1 (conj H2 (conj H3
             (proj2 (proj2 (proj2 checkRateLimit_denies_full_window))
                    "203.0.113.9" 1000 ts 2500 m H1 H2 H3)))).
Defined.

(** C1 (as stated) fails at the last millisecond of the window: after 20
    calls at time 1000, a call at time 1000 + 3600000 finds the window not
    over and the record full, and is denied with [resetIn = 0], which is not
    strictly positive. *)
Lemma resetIn_zero_at_window_end :
  let m := (edge_calls "203.0.113.9" (replicate 20 1000) ∅).2 in
  let r := {| Edge.windowStart := 1000; Edge.count := 20 |} in
  m !! "203.0.113.9" = Some r
  /\ Edge.RATE_LIMIT <= Edge.count r
  /\ 3601000 - Edge.windowStart r <= Edge.RATE_WINDOW * 1000
  /\ Edge.checkRateLimit 3601000 "203.0.113.9" m =
       ({| Edge.allowed := false; Edge.remaining := 0; Edge.resetIn := Some 0 |}, m)
  /\ ~ (0 < 0).
Proof. vm_compute. repeat split; discriminate. Qed.

(** C2 (amended): for a key whose window is running ([now - windowStart <=
    RATE_WINDOW * 1000]) and whose count is strictly below [RATE_LIMIT],
    [checkRateLimit] counts the request (the record keeps its window start,
    the other keys keep their records) and allows it.  In [src/chat.js] it
    returns [allowed = true] with [remaining = RATE_LIMIT - count], [count]
    being the incremented one, and over the calls of one window, all under
    the limit, [remaining] goes down by exactly 1 from one call to the next.
    In [src/unnamed/part_000] it returns the boolean [true] and nothing
    else: every call of such a window returns the same value. *)
Theorem checkRateLimit_counts_under_limit :
  (forall now key (m : gmap string Edge.RateRecord) r,
      m !! key = Some r ->
      now - Edge.windowStart r <= Edge.RATE_WINDOW * 1000 ->
      Edge.count r < Edge.RATE_LIMIT ->
      (Edge.checkRateLimit now key m).1 =
        {| Edge.allowed := true;
           Edge.remaining := Edge.RATE_LIMIT - (Edge.count r + 1);
           Edge.resetIn := None |}
      /\ (Edge.checkRateLimit now key m).2 !! key =
           Some {| Edge.windowStart := Edge.windowStart r; Edge.count := Edge.count r + 1 |}
      /\ (forall k, k <> key -> (Edge.checkRateLimit now key m).2 !! k = m !! k)
      /\ (forall now',
            now' - Edge.windowStart r <= Edge.RATE_WINDOW * 1000 ->
            Edge.count r + 1 < Edge.RATE_LIMIT ->
            Edge.allowed (Edge.checkRateLimit now' key (Edge.checkRateLimit now key m).2).1
              = true
            /\ Edge.remaining (Edge.checkRateLimit now' key (Edge.checkRateLimit now key m).2).1
               = Edge.remaining (Edge.checkRateLimit now key m).1 - 1))
  /\ (forall key t0 ts (m : gmap string Edge.RateRecord),
      (m !! key = None \/
       exists r, m !! key = Some r /\ Edge.RATE_WINDOW * 1000 < t0 - Edge.windowStart r) ->
      Forall (fun t => t - t0 <= Edge.RATE_WINDOW * 1000) ts ->
      Z.of_nat (length ts) < Edge.RATE_LIMIT ->
      (edge_calls key (t0 :: ts) m).1 =
        imap (fun i _ => {| Edge.allowed := true;
                            Edge.remaining := Edge.RATE_LIMIT - 1 - Z.of_nat i;
                            Edge.resetIn := None |}) (t0 :: ts))
  /\ (forall now ip (m : gmap string Serverless.RateRecord) r,
      m !! ip = Some r ->
      now - Serverless.start r <= Serverless.RATE_WINDOW ->
      Serverless.count r < Serverless.RATE_LIMIT ->
      Serverless.checkRateLimit now ip m =
        (true, <[ip := {| Serverless.start := Serverless.start r;
                          Serverless.count := Serverless.count r + 1 |}]> m))
  /\ (forall ip t0 ts (m : gmap string Serverless.RateRecord),
      (m !! ip = None \/
       exists r, m !! ip = Some r /\ Serverless.RATE_WINDOW < t0 - Serverless.start r) ->
      Forall (fun t => t - t0 <= Serverless.RATE_WINDOW) ts ->
      Z.of_nat (length ts) < Serverless.RATE_LIMIT ->
      (serverless_calls ip (t0 :: ts) m).1 = replicate (length (t0 :: ts)) true).
Proof.
  split; [|split; [|split]].
  - intros now key m r Hm Hwin Hunder.
    rewrite (edge_checkRateLimit_under now key m r) by done. simpl.
    split; [done|]. split; [apply lookup_insert_eq|].
    split; [intros k Hk; by apply lookup_insert_ne|].
    intros now' Hwin' Hunder'.
    rewrite (edge_checkRateLimit_under now' key _
               {| Edge.windowStart := Edge.windowStart r; Edge.count := Edge.count r + 1 |});
      simpl; try done; [|apply lookup_insert_eq].
    split; [done|lia].
  - intros key t0 ts m Hfresh Hwin Hlen.
    by destruct (edge_window_run key t0 ts m Hfresh Hwin Hlen) as [-> _].
  - intros now ip m r Hm Hwin Hunder. by apply serverless_checkRateLimit_counts.
  - intros ip t0 ts m Hfresh Hwin Hlen.
    by destruct (serverless_window_run ip t0 ts m Hfresh Hwin Hlen) as [-> _].
Qed.

Lemma checkRateLimit_counts_under_limit_witness :
  (let r := {| Edge.windowStart := 1000; Edge.count := 7 |} in
   let m : gmap string Edge.RateRecord := {[ "203.0.113.9" := r ]} in
   m !! "203.0.113.9" = Some r
   /\ 2500 - Edge.windowStart r <= Edge.RATE_WINDOW * 1000
   /\ Edge.count r < Edge.RATE_LIMIT
   /\ (Edge.checkRateLimit 2500 "203.0.113.9" m).1 =
        {| Edge.allowed := true; Edge.remaining := 12; Edge.resetIn := None |})
  /\ (let m : gmap string Edge.RateRecord := ∅ in
      (m !! "203.0.113.9" = None \/
       exists r, m !! "203.0.113.9" = Some r
                 /\ Edge.RATE_WINDOW * 1000 < 1000 - Edge.windowStart r)
      /\ Forall (fun t => t - 1000 <= Edge.RATE_WINDOW * 1000) [1001; 1500]
      /\ Z.of_nat (length [1001; 1500]) < Edge.RATE_LIMIT
      /\ Edge.remaining <$> (edge_calls "203.0.113.9" [1000; 1001; 1500] m).1 = [19; 18; 17])
  /\ (let r := {| Serverless.start := 1000; Serverless.count := 7 |} in
      let m : gmap string Serverless.RateRecord := {[ "203.0.113.9" := r ]} in
      m !! "203.0.113.9" = Some r
      /\ 2500 - Serverless.start r <= Serverless.RATE_WINDOW
      /\ Serverless.count r < Serverless.RATE_LIMIT
      /\ Serverless.checkRateLimit 2500 "203.0.113.9" m =
           (true, {[ "203.0.113.9" := {| Serverless.start := 1000; Serverless.count := 8 |} ]}))
  /\ (let m : gmap string Serverless.RateRecord := ∅ in
      (m !! "203.0.113.9" = None \/
       exists r, m !! "203.0.113.9" = Some r
                 /\ Serverless.RATE_WINDOW < 1000 - Serverless.start r)
      /\ Forall (fun t => t - 1000 <= Serverless.RATE_WINDOW) [1001; 1500]
      /\ Z.of_nat (length [1001; 1500]) < Serverless.RATE_LIMIT
      /\ (serverless_calls "203.0.113.9" [1000; 1001; 1500] m).1 = [true; true; true]).
Proof.
  split; [|split; [|split]].
  - intros r m.
    assert (H1 : m !! "203.0.113.9" = Some r) by reflexivity.
    assert (H2 : 2500 - Edge.windowStart r <= Edge.RATE_WINDOW * 1000)
      by (vm_compute; discriminate).
    assert (H3 : Edge.count r < Edge.RATE_LIMIT) by reflexivity.
    exact (conj H1 (conj H2 (conj H3
             (proj1 (proj1 checkRateLimit_counts_under_limit
                       2500 "203.0.113.9" m r H1 H2 H3))))).
  - intros m.
    assert (H0 : m !! "203.0.113.9" = None \/
                 exists r, m !! "203.0.113.9" = Some r
                           /\ Edge.RATE_WINDOW * 1000 < 1000 - Edge.windowStart r)
      by (left; reflexivity).
    assert (H1 : Forall (fun t => t - 1000 <= Edge.RATE_WINDOW * 1000) [1001; 1500])
      by (repeat constructor; vm_compute; discriminate).
    assert (H2 : Z.of_nat (length [1001; 1500]) < Edge.RATE_LIMIT) by reflexivity.
    refine (conj H0 (conj H1 (conj H2 _))).
    exact (f_equal (fmap Edge.remaining)
             (proj1 (proj2 checkRateLimit_counts_under_limit)
                    "203.0.113.9" 1000 [1001; 1500] m H0 H1 H2)).
  - intros r m.
    assert (H1 : m !! "203.0.113.9" = Some r) by reflexivity.
    assert (H2 : 2500 - Serverless.start r <= Serverless.RATE_WINDOW)
      by (vm_compute; discriminate).
    assert (H3 : Serverless.count r < Serverless.RATE_LIMIT) by reflexivity.
    exact (conj H1 (conj H2 (conj H3
             (proj1 (proj2 (proj2 checkRateLimit_counts_under_limit))
                    2500 "203.0.113.9" m r H1 H2 H3)))).
  - intros m.
    assert (H0 : m !! "203.0.113.9" = None \/
                 exists r, m !! "203.0.113.9" = Some r
                           /\ Serverless.RATE_WINDOW < 1000 - Serverless.start r)
      by (left; reflexivity).
    assert (H1 : Forall (fun t => t - 1000 <= Serverless.RATE_WINDOW) [1001; 1500])
      by (repeat constructor; vm_compute; discriminate).
    assert (H2 : Z.of_nat (length [1001; 1500]) < Serverless.RATE_LIMIT) by reflexivity.
    exact (conj H0 (conj H1 (conj H2
             (proj2 (proj2 (proj2 checkRateLimit_counts_under_limit))
                    "203.0.113.9" 1000 [1001; 1500] m H0 H1 H2)))).
Defined.

(** C2 (as stated) fails in [src/unnamed/part_000], where [checkRateLimit]
    returns a boolean.  After 7 calls at time 1000 the key's record has
    count 7; the call at time 2500 is inside the window and under the limit,
    it sets the count to 8 and returns [true].  The value [true] has no
    [remaining]: reading the property gives [undefined], not
    [RATE_LIMIT - 8 = 92]; and the calls of the window all return the same
    [true], so nothing goes down from one call to the next. *)
Lemma part_000_counted_call_reports_no_remaining :
  let m := (serverless_calls "203.0.113.9" (replicate 7 1000) ∅).2 in
  let r := {| Serverless.start := 1000; Serverless.count := 7 |} in
  m !! "203.0.113.9" = Some r
  /\ 2500 - Serverless.start r <= Serverless.RATE_WINDOW
  /\ Serverless.count r < Serverless.RATE_LIMIT
  /\ Serverless.checkRateLimit 2500 "203.0.113.9" m =
       (true, {[ "203.0.113.9" := {| Serverless.start := 1000; Serverless.count := 8 |} ]})
  /\ getProp (JBool (Serverless.checkRateLimit 2500 "203.0.113.9" m).1) "remaining" =
       Some JUndefined
  /\ JUndefined <> JInt (Serverless.RATE_LIMIT - 8)
  /\ (serverless_calls "203.0.113.9" [2500; 2501; 2502] m).1 = [true; true; true].
Proof.
  intros m r.
  split; [reflexivity|]. split; [vm_compute; discriminate|]. split; [reflexivity|].
  split; [reflexivity|]. split; [reflexivity|]. split; [discriminate|reflexivity].
Qed.

(** C3 (amended): for a key without record, or whose record's window start
    lies more than the window duration before [now], [checkRateLimit] stores
    for the key the record with window start [now] and count 1 (the other
    keys keep their records) and allows the request: [src/chat.js] returns
    [allowed = true] with [remaining = RATE_LIMIT - 1], and
    [src/unnamed/part_000] returns the boolean [true] and nothing else.  So
    once the window duration has elapsed the key's next call is allowed
    again. *)
Theorem checkRateLimit_opens_window :
  (forall now key (m : gmap string Edge.RateRecord),
      (m !! key = None \/
       exists r, m !! key = Some r /\ Edge.RATE_WINDOW * 1000 < now - Edge.windowStart r) ->
      Edge.checkRateLimit now key m =
        ({| Edge.allowed := true; Edge.remaining := Edge.RATE_LIMIT - 1;
            Edge.resetIn := None |},
         <[key := {| Edge.windowStart := now; Edge.count := 1 |}]> m)
      /\ (Edge.checkRateLimit now key m).2 !! key =
           Some {| Edge.windowStart := now; Edge.count := 1 |}
      /\ (forall k, k <> key -> (Edge.checkRateLimit now key m).2 !! k = m !! k))
  /\ (forall now ip (m : gmap string Serverless.RateRecord),
      (m !! ip = None \/
       exists r, m !! ip = Some r /\ Serverless.RATE_WINDOW < now - Serverless.start r) ->
      Serverless.checkRateLimit now ip m =
        (true, <[ip := {| Serverless.start := now; Serverless.count := 1 |}]> m)
      /\ (Serverless.checkRateLimit now ip m).2 !! ip =
           Some {| Serverless.start := now; Serverless.count := 1 |}
      /\ (forall k, k <> ip -> (Serverless.checkRateLimit now ip m).2 !! k = m !! k)).
Proof.
  split.
  - intros now key m Hfresh.
    assert (Edge.checkRateLimit now key m =
            ({| Edge.allowed := true; Edge.remaining := Edge.RATE_LIMIT - 1;
                Edge.resetIn := None |},
             <[key := {| Edge.windowStart := now; Edge.count := 1 |}]> m)) as ->.
    { destruct Hfresh as [Hnone | (r & Hr & Hexp)].
      - by apply edge_checkRateLimit_no_record.
      - by apply edge_checkRateLimit_expired with r. }
    simpl. split; [done|]. split; [apply lookup_insert_eq|].
    intros k Hk. by apply lookup_insert_ne.
  - intros now ip m Hfresh.
    rewrite (serverless_checkRateLimit_opens_window now ip m Hfresh). simpl.
    split; [done|]. split; [apply lookup_insert_eq|].
    intros k Hk. by apply lookup_insert_ne.
Qed.

Lemma checkRateLimit_opens_window_witness :
  (let r := {| Edge.windowStart := 1000; Edge.count := 20 |} in
   let m : gmap string Edge.RateRecord := {[ "203.0.113.9" := r ]} in
   (m !! "203.0.113.9" = None \/
    exists r', m !! "203.0.113.9" = Some r'
               /\ Edge.RATE_WINDOW * 1000 < 3601001 - Edge.windowStart r')
   /\ Edge.checkRateLimit 3601001 "203.0.113.9" m =
        ({| Edge.allowed := true; Edge.remaining := 19; Edge.resetIn := None |},
         {[ "203.0.113.9" := {| Edge.windowStart := 3601001; Edge.count := 1 |} ]}))
  /\ (let m : gmap string Serverless.RateRecord := ∅ in
      (m !! "203.0.113.9" = None \/
       exists r', m !! "203.0.113.9" = Some r'
                  /\ Serverless.RATE_WINDOW < 5 - Serverless.start r')
      /\ Serverless.checkRateLimit 5 "203.0.113.9" m =
           (true, {[ "203.0.113.9" := {| Serverless.start := 5; Serverless.count := 1 |} ]})).
Proof.
  split.
  - intros r m.
    assert (H : m !! "203.0.113.9" = None \/
                exists r', m !! "203.0.113.9" = Some r'
                           /\ Edge.RATE_WINDOW * 1000 < 3601001 - Edge.windowStart r').
    { right. exists r. split; reflexivity. }
    exact (conj H (proj1 (proj1 checkRateLimit_opens_window 3601001 "203.0.113.9" m H))).
  - intros m.
    assert (H : m !! "203.0.113.9" = None \/
                exists r', m !! "203.0.113.9" = Some r'
                           /\ Serverless.RATE_WINDOW < 5 - Serverless.start r').
    { left. reflexivity. }
    exact (conj H (proj1 (proj2 checkRateLimit_opens_window 5 "203.0.113.9" m H))).
Defined.

(** C3 (as stated) fails in [src/unnamed/part_000], where [checkRateLimit]
    returns a boolean.  The first call of a key, at time 5, stores the
    record with start 5 and count 1 and returns [true]; so does the call at
    time 3600001 after 100 calls at time 0, whose window is over.  The value
    [true] has no [remaining]: reading the property gives [undefined], not
    [RATE_LIMIT - 1 = 99]. *)
Lemma part_000_opening_call_reports_no_remaining :
  let m0 : gmap string Serverless.RateRecord := ∅ in
  let m := (serverless_calls "203.0.113.9" (replicate 100 0) ∅).2 in
  m0 !! "203.0.113.9" = None
  /\ Serverless.checkRateLimit 5 "203.0.113.9" m0 =
       (true, {[ "203.0.113.9" := {| Serverless.start := 5; Serverless.count := 1 |} ]})
  /\ getProp (JBool (Serverless.checkRateLimit 5 "203.0.113.9" m0).1) "remaining" =
       Some JUndefined
  /\ m !! "203.0.113.9" = Some {| Serverless.start := 0; Serverless.count := 100 |}
  /\ Serverless.RATE_WINDOW < 3600001 - 0
  /\ Serverless.checkRateLimit 3600001 "203.0.113.9" m =
       (true,
        {[ "203.0.113.9" := {| Serverless.start := 3600001; Serverless.count := 1 |} ]})
  /\ getProp (JBool (Serverless.checkRateLimit 3600001 "203.0.113.9" m).1) "remaining" =
       Some JUndefined
  /\ JUndefined <> JInt (Serverless.RATE_LIMIT - 1).
Proof.
  intros m0 m.
  assert (Hm : m = {[ "203.0.113.9" := {| Serverless.start := 0; Serverless.count := 100 |} ]})
    by (vm_compute; reflexivity).
  split; [reflexivity|]. split; [reflexivity|]. split; [reflexivity|].
  rewrite Hm.
  split; [reflexivity|]. split; [reflexivity|]. split; [reflexivity|].
  split; [reflexivity|discriminate].
Qed.

(** C9: in every state of [rateLimitMap] that a process can reach, each
    stored record has [1 <= count <= RATE_LIMIT]. *)
Theorem count_between_one_and_limit :
  (forall (m : gmap string Edge.RateRecord) key r,
      edge_reachable m -> m !! key = Some r -> 1 <= Edge.count r <= Edge.RATE_LIMIT)
  /\ (forall (m : gmap string Serverless.RateRecord) ip r,
      serverless_reachable m -> m !! ip = Some r ->
      1 <= Serverless.count r <= Serverless.RATE_LIMIT).
Proof.
  split.
  - intros m key r Hreach. revert key r.
    induction Hreach as [|now k m Hreach IH]; intros key r.
    + by rewrite lookup_empty.
    + by apply edge_checkRateLimit_preserves_bounds.
  - intros m ip r Hreach. revert ip r.
    induction Hreach as [|now k m Hreach IH]; intros ip r.
    + by rewrite lookup_empty.
    + by apply serverless_checkRateLimit_preserves_bounds.
Qed.

Lemma count_between_one_and_limit_witness :
  (let m := (Edge.checkRateLimit 7 "203.0.113.9"
               (Edge.checkRateLimit 5 "203.0.113.9" ∅).2).2 in
   edge_reachable m
   /\ m !! "203.0.113.9" = Some {| Edge.windowStart := 5; Edge.count := 2 |}
   /\ 1 <= 2 <= Edge.RATE_LIMIT)
  /\ (let m := (Serverless.checkRateLimit 7 "203.0.113.9"
                  (Serverless.checkRateLimit 5 "203.0.113.9" ∅).2).2 in
      serverless_reachable m
      /\ m !! "203.0.113.9" = Some {| Serverless.start := 5; Serverless.count := 2 |}
      /\ 1 <= 2 <= Serverless.RATE_LIMIT).
Proof.
  split.
  - intros m.
    assert (H1 : edge_reachable m)
      by (do 2 apply edge_reachable_check; apply edge_reachable_start).
    assert (H2 : m !! "203.0.113.9" = Some {| Edge.windowStart := 5; Edge.count := 2 |})
      by reflexivity.
    exact (conj H1 (conj H2 (proj1 count_between_one_and_limit m "203.0.113.9" _ H1 H2))).
  - intros m.
    assert (H1 : serverless_reachable m)
      by (do 2 apply serverless_reachable_check; apply serverless_reachable_start).
    assert (H2 : m !! "203.0.113.9" = Some {| Serverless.start := 5; Serverless.count := 2 |})
      by reflexivity.
    exact (conj H1 (conj H2 (proj2 count_between_one_and_limit m "203.0.113.9" _ H1 H2))).
Defined.

(** C10: a denied check leaves [rateLimitMap] as it was: no record is
    added, and every key, the denied one included, keeps the record (window
    start and count) it had. *)
Theorem denied_check_keeps_map :
  (forall now key (m : gmap string Edge.RateRecord),
      Edge.allowed (Edge.checkRateLimit now key m).1 = false ->
      (Edge.checkRateLimit now key m).2 = m
      /\ forall k, (Edge.checkRateLimit now key m).2 !! k = m !! k)
  /\ (forall now ip (m : gmap string Serverless.RateRecord),
      (Serverless.checkRateLimit now ip m).1 = false ->
      (Serverless.checkRateLimit now ip m).2 = m
      /\ forall k, (Serverless.checkRateLimit now ip m).2 !! k = m !! k).
Proof.
  split.
  - intros now key m Hdenied.
    assert ((Edge.checkRateLimit now key m).2 = m) as ->; [|done].
    revert Hdenied. unfold Edge.checkRateLimit.
    destruct (m !! key) as [rec|]; repeat case_match; simpl; done.
  - intros now ip m Hdenied.
    assert ((Serverless.checkRateLimit now ip m).2 = m) as ->; [|done].
    revert Hdenied. unfold Serverless.checkRateLimit.
    destruct (m !! ip) as [rec|]; repeat case_match; simpl; done.
Qed.

Lemma denied_check_keeps_map_witness :
  (let m : gmap string Edge.RateRecord :=
     {[ "203.0.113.9" := {| Edge.windowStart := 1000; Edge.count := 20 |} ]} in
   Edge.allowed (Edge.checkRateLimit 2500 "203.0.113.9" m).1 = false
   /\ (Edge.checkRateLimit 2500 "203.0.113.9" m).2 = m)
  /\ (let m : gmap string Serverless.RateRecord :=
        {[ "203.0.113.9" := {| Serverless.start := 1000; Serverless.count := 100 |} ]} in
      (Serverless.checkRateLimit 2500 "203.0.113.9" m).1 = false
      /\ (Serverless.checkRateLimit 2500 "203.0.113.9" m).2 = m).
Proof.
  split.
  - intros m.
    assert (H : Edge.allowed (Edge.checkRateLimit 2500 "203.0.113.9" m).1 = false)
      by reflexivity.
    exact (conj H (proj1 (proj1 denied_check_keeps_map 2500 "203.0.113.9" m H))).
  - intros m.
    assert (H : (Serverless.checkRateLimit 2500 "203.0.113.9" m).1 = false)
      by reflexivity.
    exact (conj H (proj1 (proj2 denied_check_keeps_map 2500 "203.0.113.9" m H))).
Defined.

(** C4 (amended): a request that reaches the upstream call has passed
    validation, and the body of that one call holds [messages] unchanged,
    [temperature] equal to the request's value unless that is missing or
    [null] (0.85 then; a zero is passed on), and [max_tokens] equal to the
    request's value when that is truthy and to the default otherwise (1500
    in [src/chat.js], 2500 in [src/unnamed/part_000]): a missing field and a
    zero both get the default.  [model] is the request's value when truthy,
    else ["gpt-4o-mini"], in [src/chat.js]; it is always ["gpt-4o-mini"] in
    [src/unnamed/part_000]. *)
#[warnings="-inexact-float"]
Theorem upstream_call_body :
  (forall apiKey now req (m m' : gmap string Edge.RateRecord) call k,
      Edge.handler apiKey now req m = (Fetch call k, m') ->
      exists body messages,
        Edge.json req = Some body
        /\ getProp body "messages" = Some messages
        /\ isArray messages = true
        /\ fetchBody call =
           JObj [("model",
                  if toBoolean (getPropOpt body "model") then getPropOpt body "model"
                  else JStr "gpt-4o-mini");
                 ("messages", messages);
                 ("max_tokens",
                  if toBoolean (getPropOpt body "max_tokens") then getPropOpt body "max_tokens"
                  else JNum 1500%float);
                 ("temperature",
                  match getPropOpt body "temperature" with
                  | JUndefined | JNull => JNum 0.85%float
                  | _ => getPropOpt body "temperature"
                  end)])
  /\ (forall apiKey now req (m m' : gmap string Serverless.RateRecord) call k,
      Serverless.handler apiKey now req m = (Fetch call k, m') ->
      exists messages max_tokens temperature,
        messages = getPropOpt (jsOr (Serverless.body req) (JObj [])) "messages"
        /\ max_tokens = getPropOpt (jsOr (Serverless.body req) (JObj [])) "max_tokens"
        /\ temperature = getPropOpt (jsOr (Serverless.body req) (JObj [])) "temperature"
        /\ isArray messages = true
        /\ fetchBody call =
           JObj [("model", JStr "gpt-4o-mini");
                 ("messages", messages);
                 ("max_tokens", if toBoolean max_tokens then max_tokens else JNum 2500%float);
                 ("temperature",
                  match temperature with
                  | JUndefined | JNull => JNum 0.85%float
                  | _ => temperature
                  end)]).
Proof.
  split.
  - intros apiKey now req m m' call k Hrun.
    apply edge_handler_fetch_inv in Hrun
      as (_ & _ & _ & _ & body & messages & key & Hjson & Hmsgs & Harr & _ & ->).
    exists body, messages. repeat split; try done.
  - intros apiKey now req m m' call k Hrun.
    apply serverless_handler_fetch_inv in Hrun as (_ & _ & _ & _ & Harr & key & _ & ->).
    eexists _, _, _. repeat split; try done.
Qed.

#[warnings="-inexact-float"]
Lemma upstream_call_body_witness :
  let messages := JArr [JObj [("role", JStr "user"); ("content", JStr "hi")]] in
  let body := JObj [("messages", messages); ("temperature", JNum 0%float)] in
  let sent default_max_tokens :=
    {| url := "https://api.openai.com/v1/chat/completions";
       fetchMethod := "POST";
       fetchHeaders := [("Content-Type", "application/json");
                        ("Authorization", "Bearer sk-test")];
       fetchBody := JObj [("model", JStr "gpt-4o-mini"); ("messages", messages);
                          ("max_tokens", JNum default_max_tokens);
                          ("temperature", JNum 0%float)] |} in
  (let req := edge_post "203.0.113.9" (Some body) in
   Edge.handler (Some "sk-test") 0 req ∅ =
     (Fetch (sent 1500%float)
        (Edge.afterFetch (Edge.corsHeaders req)
           {| Edge.allowed := true; Edge.remaining := 19; Edge.resetIn := None |}),
      {[ "203.0.113.9" := {| Edge.windowStart := 0; Edge.count := 1 |} ]})
   /\ exists body' messages',
        Edge.json req = Some body'
        /\ getProp body' "messages" = Some messages'
        /\ isArray messages' = true)
  /\ (let req := serverless_post "203.0.113.9" body in
      Serverless.handler (Some "sk-test") 0 req ∅ =
        (Fetch (sent 2500%float) Serverless.afterFetch,
         {[ "203.0.113.9" := {| Serverless.start := 0; Serverless.count := 1 |} ]})
      /\ exists messages',
           messages' = getPropOpt (jsOr (Serverless.body req) (JObj [])) "messages"
           /\ isArray messages' = true).
Proof.
  intros messages body sent. split.
  - intros req.
    assert (H : Edge.handler (Some "sk-test") 0 req ∅ =
      (Fetch (sent 1500%float)
         (Edge.afterFetch (Edge.corsHeaders req)
            {| Edge.allowed := true; Edge.remaining := 19; Edge.resetIn := None |}),
       {[ "203.0.113.9" := {| Edge.windowStart := 0; Edge.count := 1 |} ]}))
      by reflexivity.
    split; [exact H|].
    destruct (proj1 upstream_call_body _ _ _ _ _ _ _ H)
      as (body' & messages' & Hjson & Hmsgs & Harr & _).
    exists body', messages'. exact (conj Hjson (conj Hmsgs Harr)).
  - intros req.
    assert (H : Serverless.handler (Some "sk-test") 0 req ∅ =
      (Fetch (sent 2500%float) Serverless.afterFetch,
       {[ "203.0.113.9" := {| Serverless.start := 0; Serverless.count := 1 |} ]}))
      by reflexivity.
    split; [exact H|].
    destruct (proj2 upstream_call_body _ _ _ _ _ _ _ H)
      as (messages' & max_tokens & temperature & Hmsgs & _ & _ & Harr & _).
    exists messages'. exact (conj Hmsgs Harr).
Defined.

(** C4 (as stated) fails for a present zero [max_tokens]: the upstream body
    of [src/chat.js] then holds the default 1500, not the request's 0.  And
    [src/unnamed/part_000] sends ["gpt-4o-mini"] whatever model the request
    names. *)
Lemma zero_max_tokens_gets_default :
  let body := JObj [("model", JStr "gpt-4o"); ("messages", JArr []);
                    ("max_tokens", JNum 0%float); ("temperature", JNum 0%float)] in
  getProp body "max_tokens" = Some (JNum 0%float)
  /\ fetchBody <$> upstreamCall
       (Edge.handler (Some "sk-test") 0 (edge_post "203.0.113.9" (Some body)) ∅).1 =
     Some (JObj [("model", JStr "gpt-4o"); ("messages", JArr []);
                 ("max_tokens", JNum 1500%float); ("temperature", JNum 0%float)])
  /\ JNum 1500%float <> JNum 0%float
  /\ fetchBody <$> upstreamCall
       (Serverless.handler (Some "sk-test") 0 (serverless_post "203.0.113.9" body) ∅).1 =
     Some (JObj [("model", JStr "gpt-4o-mini"); ("messages", JArr []);
                 ("max_tokens", JNum 2500%float); ("temperature", JNum 0%float)]).
Proof.
  repeat split; try (vm_compute; reflexivity).
  intros H. apply (f_equal toBoolean) in H. vm_compute in H. discriminate.
Qed.

(** C5: when the upstream call is made and cannot be completed ([fetch]
    throws or rejects), the handler answers with status 502 and the body
    [{error: "Failed to reach AI service"}]; the response is the same
    whatever the transport error, which appears nowhere in it. *)
Theorem unreachable_upstream_answers_502 :
  (forall apiKey now req (m m' : gmap string Edge.RateRecord) call k fetch reason,
      Edge.handler apiKey now req m = (Fetch call k, m') ->
      fetch call = Rejected reason ->
      complete fetch (Edge.handler apiKey now req m).1 =
        Returned {| status := 502;
                    responseHeaders := Edge.jsonHeaders (Edge.corsHeaders req);
                    responseBody :=
                      Some (JObj [("error", JStr "Failed to reach AI service")]) |})
  /\ (forall apiKey now req (m m' : gmap string Serverless.RateRecord) call k fetch reason,
      Serverless.handler apiKey now req m = (Fetch call k, m') ->
      fetch call = Rejected reason ->
      complete fetch (Serverless.handler apiKey now req m).1 =
        Returned {| status := 502;
                    responseHeaders := Serverless.corsHeaders;
                    responseBody :=
                      Some (JObj [("error", JStr "Failed to reach AI service")]) |}).
Proof.
  split.
  - intros apiKey now req m m' call k fetch reason Hrun Hfetch.
    pose proof (edge_handler_fetch_inv _ _ _ _ _ _ _ Hrun) as (_ & _ & _ & -> & _).
    rewrite Hrun. simpl. by rewrite Hfetch.
  - intros apiKey now req m m' call k fetch reason Hrun Hfetch.
    pose proof (serverless_handler_fetch_inv _ _ _ _ _ _ _ Hrun) as (_ & _ & _ & -> & _).
    rewrite Hrun. simpl. by rewrite Hfetch.
Qed.

#[warnings="-inexact-float"]
Lemma unreachable_upstream_answers_502_witness :
  let body := JObj [("messages", JArr [])] in
  let call default_max_tokens :=
    {| url := "https://api.openai.com/v1/chat/completions";
       fetchMethod := "POST";
       fetchHeaders := [("Content-Type", "application/json");
                        ("Authorization", "Bearer sk-test")];
       fetchBody := JObj [("model", JStr "gpt-4o-mini"); ("messages", JArr []);
                          ("max_tokens", JNum default_max_tokens);
                          ("temperature", JNum 0.85%float)] |} in
  let fetch := always (Rejected (JStr "ECONNRESET")) in
  (let req := edge_post "203.0.113.9" (Some body) in
   Edge.handler (Some "sk-test") 0 req ∅ =
     (Fetch (call 1500%float)
        (Edge.afterFetch (Edge.corsHeaders req)
           {| Edge.allowed := true; Edge.remaining := 19; Edge.resetIn := None |}),
      {[ "203.0.113.9" := {| Edge.windowStart := 0; Edge.count := 1 |} ]})
   /\ fetch (call 1500%float) = Rejected (JStr "ECONNRESET")
   /\ complete fetch (Edge.handler (Some "sk-test") 0 req ∅).1 =
        Returned {| status := 502;
                    responseHeaders := Edge.jsonHeaders (Edge.corsHeaders req);
                    responseBody :=
                      Some (JObj [("error", JStr "Failed to reach AI service")]) |})
  /\ (let req := serverless_post "203.0.113.9" body in
      Serverless.handler (Some "sk-test") 0 req ∅ =
        (Fetch (call 2500%float) Serverless.afterFetch,
         {[ "203.0.113.9" := {| Serverless.start := 0; Serverless.count := 1 |} ]})
      /\ fetch (call 2500%float) = Rejected (JStr "ECONNRESET")
      /\ complete fetch (Serverless.handler (Some "sk-test") 0 req ∅).1 =
           Returned {| status := 502;
                       responseHeaders := Serverless.corsHeaders;
                       responseBody :=
                         Some (JObj [("error", JStr "Failed to reach AI service")]) |}).
Proof.
  intros body call fetch. split.
  - intros req.
    assert (H1 : Edge.handler (Some "sk-test") 0 req ∅ =
      (Fetch (call 1500%float)
         (Edge.afterFetch (Edge.corsHeaders req)
            {| Edge.allowed := true; Edge.remaining := 19; Edge.resetIn := None |}),
       {[ "203.0.113.9" := {| Edge.windowStart := 0; Edge.count := 1 |} ]}))
      by reflexivity.
    assert (H2 : fetch (call 1500%float) = Rejected (JStr "ECONNRESET")) by reflexivity.
    exact (conj H1 (conj H2
             (proj1 unreachable_upstream_answers_502 _ _ _ _ _ _ _ fetch _ H1 H2))).
  - intros req.
    assert (H1 : Serverless.handler (Some "sk-test") 0 req ∅ =
      (Fetch (call 2500%float) Serverless.afterFetch,
       {[ "203.0.113.9" := {| Serverless.start := 0; Serverless.count := 1 |} ]}))
      by reflexivity.
    assert (H2 : fetch (call 2500%float) = Rejected (JStr "ECONNRESET")) by reflexivity.
    exact (conj H1 (conj H2
             (proj2 unreachable_upstream_answers_502 _ _ _ _ _ _ _ fetch _ H1 H2))).
Defined.

(** C6 (amended): a POST request that the rate limiter admits and whose
    [messages] is missing or not an array is answered with status 400 and
    the body [{error: "messages array required"}], whatever the other fields
    of the body, and whether or not a credential is configured.  In
    [src/chat.js] this is for a body that parses to a JSON value other than
    [null]; in [src/unnamed/part_000] for every [req.body]. *)
Theorem non_array_messages_answers_400 :
  (forall apiKey now req (m : gmap string Edge.RateRecord) body,
      Edge.method req = "POST" ->
      Edge.allowed (Edge.checkRateLimit now (Edge.getRateLimitKey req) m).1 = true ->
      Edge.json req = Some body ->
      body <> JNull -> body <> JUndefined ->
      isArray (getPropOpt body "messages") = false ->
      (Edge.handler apiKey now req m).1 =
        Done (Returned {| status := 400;
                          responseHeaders := Edge.jsonHeaders (Edge.corsHeaders req);
                          responseBody :=
                            Some (JObj [("error", JStr "messages array required")]) |}))
  /\ (forall apiKey now req (m : gmap string Serverless.RateRecord),
      Serverless.method req = "POST" ->
      (Serverless.checkRateLimit now (Serverless.clientIp req) m).1 = true ->
      isArray (getPropOpt (jsOr (Serverless.body req) (JObj [])) "messages") = false ->
      (Serverless.handler apiKey now req m).1 =
        Done (Returned {| status := 400;
                          responseHeaders := Serverless.corsHeaders;
                          responseBody :=
                            Some (JObj [("error", JStr "messages array required")]) |})).
Proof.
  split.
  - intros apiKey now req m body Hmeth Hallow Hjson Hnull Hundef Harr.
    unfold Edge.handler. rewrite Hmeth. simpl.
    destruct (Edge.checkRateLimit now (Edge.getRateLimitKey req) m) as [rc m'].
    simpl in Hallow. rewrite Hallow, Hjson. simpl.
    unfold getPropOpt in Harr.
    destruct (getProp body "messages") as [messages|] eqn:Hmsgs.
    + by rewrite Harr.
    + destruct body; simpl in Hmsgs; congruence.
  - intros apiKey now req m Hmeth Hallow Harr.
    unfold Serverless.handler. rewrite Hmeth. simpl.
    destruct (Serverless.checkRateLimit now (Serverless.clientIp req) m) as [d m'].
    simpl in Hallow. by rewrite Hallow, Harr.
Qed.

Lemma non_array_messages_answers_400_witness :
  let body := JObj [("messages", JStr "hello"); ("model", JStr "gpt-4o")] in
  (let req := edge_post "203.0.113.9" (Some body) in
   Edge.method req = "POST"
   /\ Edge.allowed (Edge.checkRateLimit 0 (Edge.getRateLimitKey req) ∅).1 = true
   /\ Edge.json req = Some body
   /\ body <> JNull /\ body <> JUndefined
   /\ isArray (getPropOpt body "messages") = false
   /\ (Edge.handler None 0 req ∅).1 =
        Done (Returned {| status := 400;
                          responseHeaders := Edge.jsonHeaders (Edge.corsHeaders req);
                          responseBody :=
                            Some (JObj [("error", JStr "messages array required")]) |}))
  /\ (let req := serverless_post "203.0.113.9" JUndefined in
      Serverless.method req = "POST"
      /\ (Serverless.checkRateLimit 0 (Serverless.clientIp req) ∅).1 = true
      /\ isArray (getPropOpt (jsOr (Serverless.body req) (JObj [])) "messages") = false
      /\ (Serverless.handler None 0 req ∅).1 =
           Done (Returned {| status := 400;
                             responseHeaders := Serverless.corsHeaders;
                             responseBody :=
                               Some (JObj [("error", JStr "messages array required")]) |})).
Proof.
  intros body. split.
  - intros req.
    assert (H1 : Edge.method req = "POST") by reflexivity.
    assert (H2 : Edge.allowed (Edge.checkRateLimit 0 (Edge.getRateLimitKey req) ∅).1 = true)
      by reflexivity.
    assert (H3 : Edge.json req = Some body) by reflexivity.
    assert (H4 : body <> JNull) by discriminate.
    assert (H5 : body <> JUndefined) by discriminate.
    assert (H6 : isArray (getPropOpt body "messages") = false) by reflexivity.
    exact (conj H1 (conj H2 (conj H3 (conj H4 (conj H5 (conj H6
             (proj1 non_array_messages_answers_400
                    None 0 req ∅ body H1 H2 H3 H4 H5 H6))))))).
  - intros req.
    assert (H1 : Serverless.method req = "POST") by reflexivity.
    assert (H2 : (Serverless.checkRateLimit 0 (Serverless.clientIp req) ∅).1 = true)
      by reflexivity.
    assert (H3 : isArray (getPropOpt (jsOr (Serverless.body req) (JObj [])) "messages")
                 = false) by reflexivity.
    exact (conj H1 (conj H2 (conj H3
             (proj2 non_array_messages_answers_400 None 0 req ∅ H1 H2 H3)))).
Defined.

(** C6 (as stated) fails for a client over its limit: the POST request has
    a string for [messages], and the answer is the 429 of the rate limiter,
    which runs before the validation. *)
Lemma rate_limited_non_array_messages_answers_429 :
  let body := JObj [("messages", JStr "hello")] in
  let req := edge_post "203.0.113.9" (Some body) in
  let m := (edge_calls "203.0.113.9" (replicate 20 0) ∅).2 in
  Edge.method req = "POST"
  /\ Edge.json req = Some body
  /\ isArray (getPropOpt body "messages") = false
  /\ (Edge.handler (Some "sk-test") 1000 req m).1 =
       Done (Returned
         {| status := 429;
            responseHeaders :=
              Edge.jsonHeaders (Edge.corsHeaders req) ++ [("Retry-After", "3599")];
            responseBody :=
              Some (JObj [("error", JStr "Rate limited. Try again in 3599s.");
                          ("resetIn", JInt 3599)]) |})
  /\ 429 <> 400.
Proof. repeat split; try (vm_compute; reflexivity). discriminate. Qed.

(** C7, at the input where the code departs from it: the upstream answers
    with status 500 and the JSON body [null].  Reading [err.error] throws,
    the [catch] clause takes over, and both handlers answer 502 with
    [{error: "Failed to reach AI service"}] instead of passing on the status
    500. *)
Theorem null_error_body_answers_502 :
  let upstream := always (Resolved {| upstreamStatus := 500; upstreamJson := Some JNull |}) in
  let body := JObj [("messages", JArr [])] in
  complete upstream
    (Edge.handler (Some "sk-test") 0 (edge_post "203.0.113.9" (Some body)) ∅).1 =
    Returned {| status := 502;
                responseHeaders :=
                  Edge.jsonHeaders (Edge.corsHeaders (edge_post "203.0.113.9" (Some body)));
                responseBody :=
                  Some (JObj [("error", JStr "Failed to reach AI service")]) |}
  /\ complete upstream
       (Serverless.handler (Some "sk-test") 0 (serverless_post "203.0.113.9" body) ∅).1 =
       Returned {| status := 502;
                   responseHeaders := Serverless.corsHeaders;
                   responseBody :=
                     Some (JObj [("error", JStr "Failed to reach AI service")]) |}.
Proof. split; vm_compute; reflexivity. Qed.

(** Away from that input the status is passed on: a non-success reply whose
    body is not [null] (an unparseable body included) is answered with the
    upstream's status, and with the upstream's [error.message] when that is
    truthy, a generic message otherwise. *)
Lemma upstream_error_status_passed_on :
  (forall apiKey now req (m m' : gmap string Edge.RateRecord) call k fetch res,
      Edge.handler apiKey now req m = (Fetch call k, m') ->
      fetch call = Resolved res ->
      ok res = false ->
      upstreamJson res <> Some JNull -> upstreamJson res <> Some JUndefined ->
      200 <= upstreamStatus res <= 599 -> nullBodyStatus (upstreamStatus res) = false ->
      complete fetch (Edge.handler apiKey now req m).1 =
        Returned {| status := upstreamStatus res;
                    responseHeaders := Edge.jsonHeaders (Edge.corsHeaders req);
                    responseBody :=
                      Some (JObj [("error",
                        jsOr (getPropOpt (getPropOpt (default (JObj []) (upstreamJson res))
                                                     "error") "message")
                             (JStr ("OpenAI error: " +:+ pretty (upstreamStatus res))))]) |})
  /\ (forall apiKey now req (m m' : gmap string Serverless.RateRecord) call k fetch res,
      Serverless.handler apiKey now req m = (Fetch call k, m') ->
      fetch call = Resolved res ->
      ok res = false ->
      upstreamJson res <> Some JNull -> upstreamJson res <> Some JUndefined ->
      complete fetch (Serverless.handler apiKey now req m).1 =
        Returned {| status := upstreamStatus res;
                    responseHeaders := Serverless.corsHeaders;
                    responseBody :=
                      Some (JObj [("error",
                        jsOr (getPropOpt (getPropOpt (default (JObj []) (upstreamJson res))
                                                     "error") "message")
                             (JStr "OpenAI error"))]) |}).
Proof.
  split.
  - intros apiKey now req m m' call k fetch res Hrun Hfetch Hok Hnull Hundef Hrange Hnb.
    pose proof (edge_handler_fetch_inv _ _ _ _ _ _ _ Hrun) as (_ & _ & _ & -> & _).
    rewrite Hrun. simpl. rewrite Hfetch.
    destruct (edge_afterFetch_upstream_error (Edge.corsHeaders req)
                (Edge.checkRateLimit now (Edge.getRateLimitKey req) m).1 res)
      as (message & -> & ->); done.
  - intros apiKey now req m m' call k fetch res Hrun Hfetch Hok Hnull Hundef.
    pose proof (serverless_handler_fetch_inv _ _ _ _ _ _ _ Hrun) as (_ & _ & _ & -> & _).
    rewrite Hrun. simpl. rewrite Hfetch.
    by rewrite serverless_afterFetch_upstream_error.
Qed.

Example upstream_error_message_extracted :
  let upstream :=
    always (Resolved {| upstreamStatus := 401;
                        upstreamJson :=
                          Some (JObj [("error",
                                       JObj [("message", JStr "Incorrect API key")])]) |}) in
  let body := JObj [("messages", JArr [])] in
  complete upstream
    (Edge.handler (Some "sk-test") 0 (edge_post "203.0.113.9" (Some body)) ∅).1 =
    Returned {| status := 401;
                responseHeaders :=
                  Edge.jsonHeaders (Edge.corsHeaders (edge_post "203.0.113.9" (Some body)));
                responseBody := Some (JObj [("error", JStr "Incorrect API key")]) |}.
Proof. vm_compute. reflexivity. Qed.

Example upstream_error_message_synthesized :
  let upstream := always (Resolved {| upstreamStatus := 503; upstreamJson := None |}) in
  let body := JObj [("messages", JArr [])] in
  complete upstream
    (Edge.handler (Some "sk-test") 0 (edge_post "203.0.113.9" (Some body)) ∅).1 =
    Returned {| status := 503;
                responseHeaders :=
                  Edge.jsonHeaders (Edge.corsHeaders (edge_post "203.0.113.9" (Some body)));
                responseBody := Some (JObj [("error", JStr "OpenAI error: 503")]) |}.
Proof. vm_compute. reflexivity. Qed.

(** C8 (amended): when the upstream call completes with a success status
    and a JSON body [data] in which [data.choices[0].message.content] can be
    read, the handler answers with status 200 and a body whose [content] is
    that value; [src/chat.js] adds [remaining], the value computed by
    [checkRateLimit] for this request, [src/unnamed/part_000] adds nothing. *)
Theorem success_answers_first_completion :
  (forall apiKey now req (m m' : gmap string Edge.RateRecord) call k fetch res
          data choices choice message content,
      Edge.handler apiKey now req m = (Fetch call k, m') ->
      fetch call = Resolved res ->
      ok res = true ->
      upstreamJson res = Some data ->
      getProp data "choices" = Some choices ->
      getIndex0 choices = Some choice ->
      getProp choice "message" = Some message ->
      getProp message "content" = Some content ->
      complete fetch (Edge.handler apiKey now req m).1 =
        Returned {| status := 200;
                    responseHeaders := Edge.jsonHeaders (Edge.corsHeaders req);
                    responseBody :=
                      Some (JObj [("content", content);
                                  ("remaining",
                                   JInt (Edge.remaining
                                           (Edge.checkRateLimit now
                                              (Edge.getRateLimitKey req) m).1))]) |})
  /\ (forall apiKey now req (m m' : gmap string Serverless.RateRecord) call k fetch res
          data choices choice message content,
      Serverless.handler apiKey now req m = (Fetch call k, m') ->
      fetch call = Resolved res ->
      ok res = true ->
      upstreamJson res = Some data ->
      getProp data "choices" = Some choices ->
      getIndex0 choices = Some choice ->
      getProp choice "message" = Some message ->
      getProp message "content" = Some content ->
      complete fetch (Serverless.handler apiKey now req m).1 =
        Returned {| status := 200;
                    responseHeaders := Serverless.corsHeaders;
                    responseBody := Some (JObj [("content", content)]) |}).
Proof.
  split.
  - intros apiKey now req m m' call k fetch res data choices choice message content
           Hrun Hfetch Hok Hjson Hchoices Hchoice Hmessage Hcontent.
    pose proof (edge_handler_fetch_inv _ _ _ _ _ _ _ Hrun) as (_ & _ & _ & -> & _).
    rewrite Hrun. simpl. rewrite Hfetch. unfold Edge.afterFetch.
    rewrite Hok, Hjson. simpl. unfold firstCompletionContent.
    rewrite Hchoices. simpl. rewrite Hchoice. simpl. rewrite Hmessage. simpl.
    by rewrite Hcontent.
  - intros apiKey now req m m' call k fetch res data choices choice message content
           Hrun Hfetch Hok Hjson Hchoices Hchoice Hmessage Hcontent.
    pose proof (serverless_handler_fetch_inv _ _ _ _ _ _ _ Hrun) as (_ & _ & _ & -> & _).
    rewrite Hrun. simpl. rewrite Hfetch. unfold Serverless.afterFetch.
    rewrite Hok, Hjson. simpl. unfold firstCompletionContent.
    rewrite Hchoices. simpl. rewrite Hchoice. simpl. rewrite Hmessage. simpl.
    by rewrite Hcontent.
Qed.

Lemma success_answers_first_completion_witness :
  let message := JObj [("role", JStr "assistant"); ("content", JStr "hello")] in
  let choice := JObj [("index", JInt 0); ("message", message)] in
  let data := JObj [("id", JStr "chatcmpl-1"); ("choices", JArr [choice])] in
  let res := {| upstreamStatus := 200; upstreamJson := Some data |} in
  let body := JObj [("messages", JArr [])] in
  (ok res = true
   /\ getProp data "choices" = Some (JArr [choice])
   /\ getIndex0 (JArr [choice]) = Some choice
   /\ getProp choice "message" = Some message
   /\ getProp message "content" = Some (JStr "hello"))
  /\ (let req := edge_post "203.0.113.9" (Some body) in
      upstreamCall (Edge.handler (Some "sk-test") 0 req ∅).1 <> None
      /\ complete (always (Resolved res)) (Edge.handler (Some "sk-test") 0 req ∅).1 =
           Returned {| status := 200;
                       responseHeaders := Edge.jsonHeaders (Edge.corsHeaders req);
                       responseBody :=
                         Some (JObj [("content", JStr "hello"); ("remaining", JInt 19)]) |})
  /\ (let req := serverless_post "203.0.113.9" body in
      upstreamCall (Serverless.handler (Some "sk-test") 0 req ∅).1 <> None
      /\ complete (always (Resolved res)) (Serverless.handler (Some "sk-test") 0 req ∅).1 =
           Returned {| status := 200;
                       responseHeaders := Serverless.corsHeaders;
                       responseBody := Some (JObj [("content", JStr "hello")]) |}).
Proof.
  intros message choice data res body.
  assert (H1 : ok res = true) by reflexivity.
  assert (H2 : getProp data "choices" = Some (JArr [choice])) by reflexivity.
  assert (H3 : getIndex0 (JArr [choice]) = Some choice) by reflexivity.
  assert (H4 : getProp choice "message" = Some message) by reflexivity.
  assert (H5 : getProp message "content" = Some (JStr "hello")) by reflexivity.
  split; [exact (conj H1 (conj H2 (conj H3 (conj H4 H5))))|]. split.
  - intros req. split; [discriminate|].
    exact (proj1 success_answers_first_completion (Some "sk-test") 0 req ∅ _ _ _
             (always (Resolved res)) res data _ _ _ _
             eq_refl eq_refl H1 eq_refl H2 H3 H4 H5).
  - intros req. split; [discriminate|].
    exact (proj2 success_answers_first_completion (Some "sk-test") 0 req ∅ _ _ _
             (always (Resolved res)) res data _ _ _ _
             eq_refl eq_refl H1 eq_refl H2 H3 H4 H5).
Defined.

(** C8 (as stated) fails for a success reply without completions: the
    upstream answers 200 with the JSON body [{}], reading
    [data.choices[0]] throws, and the handlers answer 502. *)
Lemma success_without_choices_answers_502 :
  let res := {| upstreamStatus := 200; upstreamJson := Some (JObj []) |} in
  let body := JObj [("messages", JArr [])] in
  ok res = true
  /\ Edge.allowed (Edge.checkRateLimit 0 "203.0.113.9" ∅).1 = true
  /\ complete (always (Resolved res))
       (Edge.handler (Some "sk-test") 0 (edge_post "203.0.113.9" (Some body)) ∅).1 =
     Returned {| status := 502;
                 responseHeaders :=
                   Edge.jsonHeaders (Edge.corsHeaders (edge_post "203.0.113.9" (Some body)));
                 responseBody :=
                   Some (JObj [("error", JStr "Failed to reach AI service")]) |}
  /\ complete (always (Resolved res))
       (Serverless.handler (Some "sk-test") 0 (serverless_post "203.0.113.9" body) ∅).1 =
     Returned {| status := 502;
                 responseHeaders := Serverless.corsHeaders;
                 responseBody :=
                   Some (JObj [("error", JStr "Failed to reach AI service")]) |}
  /\ 502 <> 200.
Proof. repeat split; try (vm_compute; reflexivity). discriminate. Qed.

(** The reply of the specification's example. *)
Example hello_reply :
  let data := JObj [("choices", JArr [JObj [("message", JObj [("content", JStr "hello")])]])] in
  let res := {| upstreamStatus := 200; upstreamJson := Some data |} in
  let body := JObj [("messages", JArr [])] in
  complete (always (Resolved res))
    (Serverless.handler (Some "sk-test") 0 (serverless_post "203.0.113.9" body) ∅).1 =
    Returned {| status := 200;
                responseHeaders := Serverless.corsHeaders;
                responseBody := Some (JObj [("content", JStr "hello")]) |}.
Proof. vm_compute. reflexivity. Qed.

(** * Further properties of the rate limiter *)

Section EdgeLimiterRuns.
Import Edge.

Lemma ceil_div_mono x y d : 0 < d -> x <= y -> ceil_div x d <= ceil_div y d.
Proof.
  intros Hd Hxy. unfold ceil_div.
  assert (- y / d <= - x / d) by (apply Z.div_le_mono; lia). lia.
Qed.

(** A run over [ts1 ++ ts2] is the run over [ts1] followed by the run over
    [ts2] from the map the first one leaves. *)
Lemma edge_calls_app key ts1 ts2 : forall (m : gmap string RateRecord),
  edge_calls key (ts1 ++ ts2) m =
  (((edge_calls key ts1 m).1 ++ (edge_calls key ts2 (edge_calls key ts1 m).2).1)%list,
   (edge_calls key ts2 (edge_calls key ts1 m).2).2).
Proof.
  induction ts1 as [|t ts1 IH]; intros m; simpl.
  - by destruct (edge_calls key ts2 m).
  - destruct (checkRateLimit t key m) as [d m1]. rewrite IH.
    by destruct (edge_calls key ts1 m1) as [ds m2].
Qed.

(** With a full record, the calls of the rest of the window are all denied
    and the map stays as it is. *)
Lemma edge_calls_full key ts (m : gmap string RateRecord) r :
  m !! key = Some r ->
  RATE_LIMIT <= count r ->
  Forall (fun t => t - windowStart r <= RATE_WINDOW * 1000) ts ->
  edge_calls key ts m =
  ((fun t => {| allowed := false; remaining := 0;
                resetIn := Some (ceil_div (windowStart r + RATE_WINDOW * 1000 - t) 1000) |})
     <$> ts, m).
Proof.
  intros Hm Hfull. induction ts as [|t ts IH]; intros Hwin; simpl; [done|].
  apply Forall_cons in Hwin as [Ht Hwin].
  rewrite (edge_checkRateLimit_full t key m r) by done.
  by rewrite (IH Hwin).
Qed.

(** The decision for a key and the record it leaves depend on that key's
    record only; the records of the other keys are not touched. *)
Lemma edge_check_lookup_other now key k (m : gmap string RateRecord) :
  k <> key -> (checkRateLimit now key m).2 !! k = m !! k.
Proof.
  intros Hk. unfold checkRateLimit.
  destruct (m !! key); repeat case_match; simpl; by rewrite ?lookup_insert_ne.
Qed.

Lemma edge_check_local now key (m1 m2 : gmap string RateRecord) :
  m1 !! key = m2 !! key ->
  (checkRateLimit now key m1).1 = (checkRateLimit now key m2).1
  /\ (checkRateLimit now key m1).2 !! key = (checkRateLimit now key m2).2 !! key.
Proof.
  intros Heq. unfold checkRateLimit. rewrite <- Heq.
  destruct (m1 !! key) eqn:Hm; repeat case_match; simpl;
    rewrite ?lookup_insert_eq; (split; [done|congruence]).
Qed.

End EdgeLimiterRuns.

Section ServerlessLimiterRuns.
Import Serverless.

Lemma serverless_calls_app ip ts1 ts2 : forall (m : gmap string RateRecord),
  serverless_calls ip (ts1 ++ ts2) m =
  (((serverless_calls ip ts1 m).1
    ++ (serverless_calls ip ts2 (serverless_calls ip ts1 m).2).1)%list,
   (serverless_calls ip ts2 (serverless_calls ip ts1 m).2).2).
Proof.
  induction ts1 as [|t ts1 IH]; intros m; simpl.
  - by destruct (serverless_calls ip ts2 m).
  - destruct (checkRateLimit t ip m) as [d m1]. rewrite IH.
    by destruct (serverless_calls ip ts1 m1) as [ds m2].
Qed.

Lemma serverless_calls_full ip ts (m : gmap string RateRecord) r :
  m !! ip = Some r ->
  RATE_LIMIT <= count r ->
  Forall (fun t => t - start r <= RATE_WINDOW) ts ->
  serverless_calls ip ts m = (replicate (length ts) false, m).
Proof.
  intros Hm Hfull. induction ts as [|t ts IH]; intros Hwin; simpl; [done|].
  apply Forall_cons in Hwin as [Ht Hwin].
  rewrite (serverless_checkRateLimit_denies t ip m r) by done.
  by rewrite (IH Hwin).
Qed.

Lemma serverless_check_lookup_other now ip k (m : gmap string RateRecord) :
  k <> ip -> (checkRateLimit now ip m).2 !! k = m !! k.
Proof.
  intros Hk. unfold checkRateLimit.
  destruct (m !! ip); repeat case_match; simpl; by rewrite ?lookup_insert_ne.
Qed.

Lemma serverless_check_local now ip (m1 m2 : gmap string RateRecord) :
  m1 !! ip = m2 !! ip ->
  (checkRateLimit now ip m1).1 = (checkRateLimit now ip m2).1
  /\ (checkRateLimit now ip m1).2 !! ip = (checkRateLimit now ip m2).2 !! ip.
Proof.
  intros Heq. unfold checkRateLimit. rewrite <- Heq.
  destruct (m1 !! ip) eqn:Hm; repeat case_match; simpl;
    rewrite ?lookup_insert_eq; (split; [done|congruence]).
Qed.

End ServerlessLimiterRuns.

(** ** At most [RATE_LIMIT] requests per window *)

Lemma edge_allowed_imap {A} (f : nat -> A -> Edge.RateCheck) (l : list A) :
  (forall i x, Edge.allowed (f i x) = true) ->
  Edge.allowed <$> imap f l = replicate (length l) true.
Proof.
  revert f. induction l as [|x l IH]; intros f Hf; simpl; [done|].
  rewrite Hf. f_equal. apply IH. intros i y. apply Hf.
Qed.

(** X1: from the call that opens a window on, and as long as the window is
    not over, exactly the first [RATE_LIMIT] calls of a key are admitted and
    every later one is refused. *)
Theorem at_most_limit_admitted_per_window :
  (forall key t0 ts (m : gmap string Edge.RateRecord),
      (m !! key = None \/
       exists r, m !! key = Some r /\ Edge.RATE_WINDOW * 1000 < t0 - Edge.windowStart r) ->
      Forall (fun t => t - t0 <= Edge.RATE_WINDOW * 1000) ts ->
      Edge.allowed <$> (edge_calls key (t0 :: ts) m).1 =
        (replicate (Nat.min (length (t0 :: ts)) (Z.to_nat Edge.RATE_LIMIT)) true
         ++ replicate (length (t0 :: ts) - Z.to_nat Edge.RATE_LIMIT) false)%list)
  /\ (forall ip t0 ts (m : gmap string Serverless.RateRecord),
      (m !! ip = None \/
       exists r, m !! ip = Some r /\ Serverless.RATE_WINDOW < t0 - Serverless.start r) ->
      Forall (fun t => t - t0 <= Serverless.RATE_WINDOW) ts ->
      (serverless_calls ip (t0 :: ts) m).1 =
        (replicate (Nat.min (length (t0 :: ts)) (Z.to_nat Serverless.RATE_LIMIT)) true
         ++ replicate (length (t0 :: ts) - Z.to_nat Serverless.RATE_LIMIT) false)%list).
Proof.
  split.
  - intros key t0 ts m Hfresh Hwin.
    set (n := 19%nat).
    assert (Hn : Z.to_nat Edge.RATE_LIMIT = S n) by reflexivity.
    rewrite Hn, <- (take_drop n ts), app_comm_cons, edge_calls_app. cbn [fst].
    destruct (edge_window_run key t0 (take n ts) m Hfresh) as [Hds Hrec].
    { by apply Forall_take. }
    { rewrite length_take. unfold Edge.RATE_LIMIT. lia. }
    rewrite fmap_app, Hds, edge_allowed_imap by done.
    destruct (decide (length ts <= n)%nat) as [Hshort|Hlong].
    + rewrite drop_ge by done. rewrite !app_nil_r.
      cbn [length]. rewrite !length_take.
      replace (S (n `min` length ts) `min` S n)%nat with (S (n `min` length ts)) by lia.
      replace (S (n `min` length ts) - S n)%nat with 0%nat by lia.
      by rewrite app_nil_r.
    + rewrite (edge_calls_full key (drop n ts) _ _ Hrec).
      * cbn [fst]. rewrite <- list_fmap_compose.
        rewrite (const_fmap _ (drop n ts) false) by done.
        rewrite !length_app. cbn [length]. rewrite !length_take, !length_drop.
        f_equal; f_equal; lia.
      * simpl. rewrite length_take. unfold Edge.RATE_LIMIT. lia.
      * simpl. rewrite <- (take_drop n ts) in Hwin. by apply Forall_app in Hwin as [_ ?].
  - intros ip t0 ts m Hfresh Hwin.
    set (n := 99%nat).
    assert (Hn : Z.to_nat Serverless.RATE_LIMIT = S n) by reflexivity.
    rewrite Hn, <- (take_drop n ts), app_comm_cons, serverless_calls_app. cbn [fst].
    destruct (serverless_window_run ip t0 (take n ts) m Hfresh) as [Hds Hrec].
    { by apply Forall_take. }
    { rewrite length_take. unfold Serverless.RATE_LIMIT. lia. }
    rewrite Hds.
    destruct (decide (length ts <= n)%nat) as [Hshort|Hlong].
    + rewrite drop_ge by done. rewrite !app_nil_r.
      cbn [length]. rewrite !length_take.
      replace (S (n `min` length ts) `min` S n)%nat with (S (n `min` length ts)) by lia.
      replace (S (n `min` length ts) - S n)%nat with 0%nat by lia.
      by rewrite app_nil_r.
    + rewrite (serverless_calls_full ip (drop n ts) _ _ Hrec).
      * cbn [fst].
        rewrite !length_app. cbn [length]. rewrite !length_take, !length_drop.
        f_equal; f_equal; lia.
      * simpl. rewrite length_take. unfold Serverless.RATE_LIMIT. lia.
      * simpl. rewrite <- (take_drop n ts) in Hwin. by apply Forall_app in Hwin as [_ ?].
Qed.

Lemma at_most_limit_admitted_per_window_witness :
  (let m : gmap string Edge.RateRecord := ∅ in
   let ts := replicate 25 1200 in
   (m !! "203.0.113.9" = None \/
    exists r, m !! "203.0.113.9" = Some r
              /\ Edge.RATE_WINDOW * 1000 < 1000 - Edge.windowStart r)
   /\ Forall (fun t => t - 1000 <= Edge.RATE_WINDOW * 1000) ts
   /\ Edge.allowed <$> (edge_calls "203.0.113.9" (1000 :: ts) m).1 =
        (replicate 20 true ++ replicate 6 false)%list)
  /\ (let m : gmap string Serverless.RateRecord := ∅ in
      let ts := replicate 102 1200 in
      (m !! "203.0.113.9" = None \/
       exists r, m !! "203.0.113.9" = Some r
                 /\ Serverless.RATE_WINDOW < 1000 - Serverless.start r)
      /\ Forall (fun t => t - 1000 <= Serverless.RATE_WINDOW) ts
      /\ (serverless_calls "203.0.113.9" (1000 :: ts) m).1 =
           (replicate 100 true ++ replicate 3 false)%list).
Proof.
  split.
  - intros m ts.
    assert (H1 : m !! "203.0.113.9" = None \/
                 exists r, m !! "203.0.113.9" = Some r
                           /\ Edge.RATE_WINDOW * 1000 < 1000 - Edge.windowStart r)
      by (left; reflexivity).
    assert (H2 : Forall (fun t => t - 1000 <= Edge.RATE_WINDOW * 1000) ts)
      by (repeat constructor; vm_compute; discriminate).
    exact (conj H1 (conj H2
             (proj1 at_most_limit_admitted_per_window "203.0.113.9" 1000 ts m H1 H2))).
  - intros m ts.
    assert (H1 : m !! "203.0.113.9" = None \/
                 exists r, m !! "203.0.113.9" = Some r
                           /\ Serverless.RATE_WINDOW < 1000 - Serverless.start r)
      by (left; reflexivity).
    assert (H2 : Forall (fun t => t - 1000 <= Serverless.RATE_WINDOW) ts)
      by (repeat constructor; vm_compute; discriminate).
    exact (conj H1 (conj H2
             (proj2 at_most_limit_admitted_per_window "203.0.113.9" 1000 ts m H1 H2))).
Defined.

(** ** Successive windows *)



(** ** A denied client *)

(** X3: once a key is denied, it stays denied at every later time of the
    same window, and in [src/chat.js] the announced [resetIn] never grows
    as time advances. *)
Theorem denied_until_window_ends :
  (forall now now' key (m : gmap string Edge.RateRecord) r s,
      m !! key = Some r ->
      Edge.RATE_LIMIT <= Edge.count r ->
      now <= now' ->
      now' - Edge.windowStart r <= Edge.RATE_WINDOW * 1000 ->
      Edge.resetIn (Edge.checkRateLimit now key m).1 = Some s ->
      exists s',
        Edge.checkRateLimit now' key (Edge.checkRateLimit now key m).2 =
          ({| Edge.allowed := false; Edge.remaining := 0; Edge.resetIn := Some s' |}, m)
        /\ 0 <= s' <= s)
  /\ (forall now now' ip (m : gmap string Serverless.RateRecord) r,
      m !! ip = Some r ->
      Serverless.RATE_LIMIT <= Serverless.count r ->
      now <= now' ->
      now' - Serverless.start r <= Serverless.RATE_WINDOW ->
      Serverless.checkRateLimit now' ip (Serverless.checkRateLimit now ip m).2 = (false, m)).
Proof.
  split.
  - intros now now' key m r s Hm Hfull Hle Hwin Hs.
    rewrite (edge_checkRateLimit_full now key m r) in * by (done || lia).
    simpl in Hs. injection Hs as <-. cbn [snd].
    rewrite (edge_checkRateLimit_full now' key m r) by done.
    eexists. split; [reflexivity|]. split.
    + apply ceil_div_nonneg; lia.
    + apply ceil_div_mono; lia.
  - intros now now' ip m r Hm Hfull Hle Hwin.
    rewrite (serverless_checkRateLimit_denies now ip m r) by (done || lia).
    by apply serverless_checkRateLimit_denies with r.
Qed.

Lemma denied_until_window_ends_witness :
  (let r := {| Edge.windowStart := 1000; Edge.count := 20 |} in
   let m : gmap string Edge.RateRecord := {[ "203.0.113.9" := r ]} in
   m !! "203.0.113.9" = Some r
   /\ Edge.RATE_LIMIT <= Edge.count r
   /\ 2500 <= 900000
   /\ 900000 - Edge.windowStart r <= Edge.RATE_WINDOW * 1000
   /\ Edge.resetIn (Edge.checkRateLimit 2500 "203.0.113.9" m).1 = Some 3599
   /\ exists s',
        Edge.checkRateLimit 900000 "203.0.113.9"
          (Edge.checkRateLimit 2500 "203.0.113.9" m).2 =
          ({| Edge.allowed := false; Edge.remaining := 0; Edge.resetIn := Some s' |}, m)
        /\ 0 <= s' <= 3599)
  /\ (let r := {| Serverless.start := 1000; Serverless.count := 100 |} in
      let m : gmap string Serverless.RateRecord := {[ "203.0.113.9" := r ]} in
      m !! "203.0.113.9" = Some r
      /\ Serverless.RATE_LIMIT <= Serverless.count r
      /\ 2500 <= 900000
      /\ 900000 - Serverless.start r <= Serverless.RATE_WINDOW
      /\ Serverless.checkRateLimit 900000 "203.0.113.9"
           (Serverless.checkRateLimit 2500 "203.0.113.9" m).2 = (false, m)).
Proof.
  split.
  - intros r m.
    assert (H1 : m !! "203.0.113.9" = Some r) by reflexivity.
    assert (H2 : Edge.RATE_LIMIT <= Edge.count r) by (vm_compute; discriminate).
    assert (H3 : 2500 <= 900000) by (vm_compute; discriminate).
    assert (H4 : 900000 - Edge.windowStart r <= Edge.RATE_WINDOW * 1000)
      by (vm_compute; discriminate).
    assert (H5 : Edge.resetIn (Edge.checkRateLimit 2500 "203.0.113.9" m).1 = Some 3599)
      by reflexivity.
    exact (conj H1 (conj H2 (conj H3 (conj H4 (conj H5
             (proj1 denied_until_window_ends
                    2500 900000 "203.0.113.9" m r 3599 H1 H2 H3 H4 H5)))))).
  - intros r m.
    assert (H1 : m !! "203.0.113.9" = Some r) by reflexivity.
    assert (H2 : Serverless.RATE_LIMIT <= Serverless.count r) by (vm_compute; discriminate).
    assert (H3 : 2500 <= 900000) by (vm_compute; discriminate).
    assert (H4 : 900000 - Serverless.start r <= Serverless.RATE_WINDOW)
      by (vm_compute; discriminate).
    exact (conj H1 (conj H2 (conj H3 (conj H4
             (proj2 denied_until_window_ends
                    2500 900000 "203.0.113.9" m r H1 H2 H3 H4))))).
Defined.

(** X4: the [resetIn] of a denial is a sufficient wait.  When the clock has
    not run backwards since the window opened, it is at most [RATE_WINDOW]
    seconds; and a call made more than [resetIn] seconds after the denial
    opens a new window and is allowed with [remaining = RATE_LIMIT - 1]. *)
Theorem retry_after_resetIn_is_admitted now key (m : gmap string Edge.RateRecord) r s :
  m !! key = Some r ->
  Edge.RATE_LIMIT <= Edge.count r ->
  now - Edge.windowStart r <= Edge.RATE_WINDOW * 1000 ->
  Edge.resetIn (Edge.checkRateLimit now key m).1 = Some s ->
  (Edge.windowStart r <= now -> s <= Edge.RATE_WINDOW)
  /\ forall now',
       now + 1000 * s < now' ->
       Edge.checkRateLimit now' key (Edge.checkRateLimit now key m).2 =
         ({| Edge.allowed := true; Edge.remaining := Edge.RATE_LIMIT - 1;
             Edge.resetIn := None |},
          <[key := {| Edge.windowStart := now'; Edge.count := 1 |}]> m).
Proof.
  intros Hm Hfull Hwin Hs.
  rewrite (edge_checkRateLimit_full now key m r) in * by done.
  simpl in Hs. injection Hs as <-. cbn [snd].
  pose proof (ceil_div_spec (Edge.windowStart r + Edge.RATE_WINDOW * 1000 - now) 1000)
    as Hceil.
  split.
  - intros Hclock. unfold Edge.RATE_WINDOW in *. lia.
  - intros now' Hlater.
    apply edge_checkRateLimit_expired with r; [done|]. lia.
Qed.

Lemma retry_after_resetIn_is_admitted_witness :
  let r := {| Edge.windowStart := 1000; Edge.count := 20 |} in
  let m : gmap string Edge.RateRecord := {[ "203.0.113.9" := r ]} in
  m !! "203.0.113.9" = Some r
  /\ Edge.RATE_LIMIT <= Edge.count r
  /\ 2500 - Edge.windowStart r <= Edge.RATE_WINDOW * 1000
  /\ Edge.resetIn (Edge.checkRateLimit 2500 "203.0.113.9" m).1 = Some 3599
  /\ (Edge.windowStart r <= 2500 -> 3599 <= Edge.RATE_WINDOW)
  /\ forall now',
       2500 + 1000 * 3599 < now' ->
       Edge.checkRateLimit now' "203.0.113.9" (Edge.checkRateLimit 2500 "203.0.113.9" m).2 =
         ({| Edge.allowed := true; Edge.remaining := Edge.RATE_LIMIT - 1;
             Edge.resetIn := None |},
          <["203.0.113.9" := {| Edge.windowStart := now'; Edge.count := 1 |}]> m).
Proof.
  intros r m.
  assert (H1 : m !! "203.0.113.9" = Some r) by reflexivity.
  assert (H2 : Edge.RATE_LIMIT <= Edge.count r) by (vm_compute; discriminate).
  assert (H3 : 2500 - Edge.windowStart r <= Edge.RATE_WINDOW * 1000)
    by (vm_compute; discriminate).
  assert (H4 : Edge.resetIn (Edge.checkRateLimit 2500 "203.0.113.9" m).1 = Some 3599)
    by reflexivity.
  exact (conj H1 (conj H2 (conj H3 (conj H4
           (retry_after_resetIn_is_admitted 2500 "203.0.113.9" m r 3599 H1 H2 H3 H4))))).
Defined.

(** ** Independent keys *)

(** X5: clients do not share quota.  A call for one key leaves the decision
    for any other key as it would have been, and calls for two different
    keys can be made in either order with the same resulting map. *)
Theorem keys_are_independent :
  (forall t1 k1 t2 k2 (m : gmap string Edge.RateRecord),
      k1 <> k2 ->
      (Edge.checkRateLimit t2 k2 (Edge.checkRateLimit t1 k1 m).2).1 =
        (Edge.checkRateLimit t2 k2 m).1
      /\ (Edge.checkRateLimit t2 k2 (Edge.checkRateLimit t1 k1 m).2).2 =
         (Edge.checkRateLimit t1 k1 (Edge.checkRateLimit t2 k2 m).2).2)
  /\ (forall t1 k1 t2 k2 (m : gmap string Serverless.RateRecord),
      k1 <> k2 ->
      (Serverless.checkRateLimit t2 k2 (Serverless.checkRateLimit t1 k1 m).2).1 =
        (Serverless.checkRateLimit t2 k2 m).1
      /\ (Serverless.checkRateLimit t2 k2 (Serverless.checkRateLimit t1 k1 m).2).2 =
         (Serverless.checkRateLimit t1 k1 (Serverless.checkRateLimit t2 k2 m).2).2).
Proof.
  split.
  - intros t1 k1 t2 k2 m Hne.
    assert (H12 : (Edge.checkRateLimit t1 k1 m).2 !! k2 = m !! k2)
      by (by apply edge_check_lookup_other).
    assert (H21 : (Edge.checkRateLimit t2 k2 m).2 !! k1 = m !! k1)
      by (by apply edge_check_lookup_other).
    split; [by apply edge_check_local|].
    apply map_eq. intros j.
    destruct (decide (j = k2)) as [->|Hj2]; [|destruct (decide (j = k1)) as [->|Hj1]].
    + rewrite (edge_check_lookup_other t1 k1 k2) by done.
      by apply edge_check_local.
    + rewrite (edge_check_lookup_other t2 k2 k1) by done.
      symmetry. by apply edge_check_local.
    + by rewrite !edge_check_lookup_other.
  - intros t1 k1 t2 k2 m Hne.
    assert (H12 : (Serverless.checkRateLimit t1 k1 m).2 !! k2 = m !! k2)
      by (by apply serverless_check_lookup_other).
    assert (H21 : (Serverless.checkRateLimit t2 k2 m).2 !! k1 = m !! k1)
      by (by apply serverless_check_lookup_other).
    split; [by apply serverless_check_local|].
    apply map_eq. intros j.
    destruct (decide (j = k2)) as [->|Hj2]; [|destruct (decide (j = k1)) as [->|Hj1]].
    + rewrite (serverless_check_lookup_other t1 k1 k2) by done.
      by apply serverless_check_local.
    + rewrite (serverless_check_lookup_other t2 k2 k1) by done.
      symmetry. by apply serverless_check_local.
    + by rewrite !serverless_check_lookup_other.
Qed.

Lemma keys_are_independent_witness :
  let m : gmap string Edge.RateRecord :=
    {[ "203.0.113.9" := {| Edge.windowStart := 1000; Edge.count := 20 |} ]} in
  "203.0.113.9" <> "198.51.100.4"
  /\ (Edge.checkRateLimit 2600 "198.51.100.4"
        (Edge.checkRateLimit 2500 "203.0.113.9" m).2).1 =
     (Edge.checkRateLimit 2600 "198.51.100.4" m).1.
Proof.
  intros m.
  assert (H : "203.0.113.9" <> "198.51.100.4") by discriminate.
  exact (conj H (proj1 (proj1 keys_are_independent
                          2500 "203.0.113.9" 2600 "198.51.100.4" m H))).
Defined.

(** * Further properties of the handlers *)

(** ** What a request does to the rate-limit map *)

(** X6: a POST request changes [rateLimitMap] exactly as one
    [checkRateLimit] call for its client key does, whatever its body, the
    credential and the answer (an invalid or unanswerable request uses up
    quota like a served one); a request with any other method, the OPTIONS
    preflight included, leaves the map alone. *)
Theorem handler_map_effect :
  (forall apiKey now req (m : gmap string Edge.RateRecord),
      (Edge.handler apiKey now req m).2 =
        if String.eqb (Edge.method req) "POST"
        then (Edge.checkRateLimit now (Edge.getRateLimitKey req) m).2
        else m)
  /\ (forall apiKey now req (m : gmap string Serverless.RateRecord),
      (Serverless.handler apiKey now req m).2 =
        if String.eqb (Serverless.method req) "POST"
        then (Serverless.checkRateLimit now (Serverless.clientIp req) m).2
        else m).
Proof.
  split.
  - intros apiKey now req m. unfold Edge.handler.
    destruct (String.eqb (Edge.method req) "OPTIONS") eqn:Hopt.
    { apply String.eqb_eq in Hopt. by rewrite Hopt. }
    destruct (String.eqb (Edge.method req) "POST"); simpl; [|done].
    destruct (Edge.checkRateLimit now (Edge.getRateLimitKey req) m) as [rc m'].
    repeat case_match; done.
  - intros apiKey now req m. unfold Serverless.handler.
    destruct (String.eqb (Serverless.method req) "OPTIONS") eqn:Hopt.
    { apply String.eqb_eq in Hopt. by rewrite Hopt. }
    destruct (String.eqb (Serverless.method req) "POST"); simpl; [|done].
    destruct (Serverless.checkRateLimit now (Serverless.clientIp req) m) as [d m'].
    repeat case_match; done.
Qed.

(** ** The method gate *)

(** X7: a request that is not a POST never reaches the rate limiter, the
    validation or the upstream.  OPTIONS is answered 204 without body, any
    other method 405 with [{error: "Method not allowed"}], in both cases
    with the CORS headers, whatever the client's quota and whether or not a
    credential is configured. *)
Theorem non_post_is_answered_at_once :
  (forall apiKey now req (m : gmap string Edge.RateRecord),
      Edge.method req <> "POST" ->
      Edge.handler apiKey now req m =
        (Done (Returned
           (if String.eqb (Edge.method req) "OPTIONS"
            then {| status := 204;
                    responseHeaders := Edge.corsHeaders req;
                    responseBody := None |}
            else {| status := 405;
                    responseHeaders := Edge.jsonHeaders (Edge.corsHeaders req);
                    responseBody := Some (JObj [("error", JStr "Method not allowed")]) |})),
         m))
  /\ (forall apiKey now req (m : gmap string Serverless.RateRecord),
      Serverless.method req <> "POST" ->
      Serverless.handler apiKey now req m =
        (Done (Returned
           (if String.eqb (Serverless.method req) "OPTIONS"
            then {| status := 204;
                    responseHeaders := Serverless.corsHeaders;
                    responseBody := None |}
            else {| status := 405;
                    responseHeaders := Serverless.corsHeaders;
                    responseBody := Some (JObj [("error", JStr "Method not allowed")]) |})),
         m)).
Proof.
  split.
  - intros apiKey now req m Hmeth. unfold Edge.handler.
    destruct (String.eqb (Edge.method req) "OPTIONS"); [done|].
    destruct (String.eqb (Edge.method req) "POST") eqn:Hpost; [|done].
    by apply String.eqb_eq in Hpost.
  - intros apiKey now req m Hmeth. unfold Serverless.handler.
    destruct (String.eqb (Serverless.method req) "OPTIONS"); [done|].
    destruct (String.eqb (Serverless.method req) "POST") eqn:Hpost; [|done].
    by apply String.eqb_eq in Hpost.
Qed.

Lemma non_post_is_answered_at_once_witness :
  (let req := {| Edge.method := "OPTIONS";
                 Edge.headers := {[ "x-forwarded-for" := "203.0.113.9" ]};
                 Edge.json := None |} in
   let m := (edge_calls "203.0.113.9" (replicate 20 0) ∅).2 in
   Edge.method req <> "POST"
   /\ Edge.handler None 1000 req m =
        (Done (Returned {| status := 204;
                           responseHeaders := Edge.corsHeaders req;
                           responseBody := None |}), m))
  /\ (let req := {| Serverless.method := "GET";
                    Serverless.headers := ∅;
                    Serverless.body := JUndefined |} in
      Serverless.method req <> "POST"
      /\ Serverless.handler None 1000 req ∅ =
           (Done (Returned
              {| status := 405;
                 responseHeaders := Serverless.corsHeaders;
                 responseBody := Some (JObj [("error", JStr "Method not allowed")]) |}),
            ∅)).
Proof.
  split.
  - intros req m.
    assert (H : Edge.method req <> "POST") by discriminate.
    exact (conj H (proj1 non_post_is_answered_at_once None 1000 req m H)).
  - intros req.
    assert (H : Serverless.method req <> "POST") by discriminate.
    exact (conj H (proj2 non_post_is_answered_at_once None 1000 req ∅ H)).
Defined.

(** ** The rate-limit gate *)

(** X8: a POST from a client whose record is full and whose window is not
    over is answered 429 before its body is looked at: no upstream call, the
    map unchanged, whatever the body and the credential.  In [src/chat.js]
    the seconds to wait are given three times and agree: in the message, in
    the [resetIn] field and in the [Retry-After] header. *)
Theorem rate_limited_post_answers_429 :
  (forall apiKey now req (m : gmap string Edge.RateRecord) r,
      Edge.method req = "POST" ->
      m !! Edge.getRateLimitKey req = Some r ->
      Edge.RATE_LIMIT <= Edge.count r ->
      now - Edge.windowStart r <= Edge.RATE_WINDOW * 1000 ->
      Edge.handler apiKey now req m =
        (Done (Returned
           {| status := 429;
              responseHeaders :=
                Edge.jsonHeaders (Edge.corsHeaders req)
                ++ [("Retry-After",
                     pretty (ceil_div (Edge.windowStart r + Edge.RATE_WINDOW * 1000 - now)
                                      1000))];
              responseBody :=
                Some (JObj
                  [("error",
                    JStr ("Rate limited. Try again in "
                          +:+ pretty (ceil_div (Edge.windowStart r
                                                + Edge.RATE_WINDOW * 1000 - now) 1000)
                          +:+ "s."));
                   ("resetIn",
                    JInt (ceil_div (Edge.windowStart r + Edge.RATE_WINDOW * 1000 - now)
                                   1000))]) |}),
         m))
  /\ (forall apiKey now req (m : gmap string Serverless.RateRecord) r,
      Serverless.method req = "POST" ->
      m !! Serverless.clientIp req = Some r ->
      Serverless.RATE_LIMIT <= Serverless.count r ->
      now - Serverless.start r <= Serverless.RATE_WINDOW ->
      Serverless.handler apiKey now req m =
        (Done (Returned
           {| status := 429;
              responseHeaders := Serverless.corsHeaders;
              responseBody :=
                Some (JObj [("error", JStr "Rate limited. Try again later.")]) |}),
         m)).
Proof.
  split.
  - intros apiKey now req m r Hmeth Hm Hfull Hwin. unfold Edge.handler.
    rewrite Hmeth. simpl.
    by rewrite (edge_checkRateLimit_full now _ m r).
  - intros apiKey now req m r Hmeth Hm Hfull Hwin. unfold Serverless.handler.
    rewrite Hmeth. simpl.
    by rewrite (serverless_checkRateLimit_denies now _ m r).
Qed.

Lemma rate_limited_post_answers_429_witness :
  (let req := edge_post "203.0.113.9" None in
   let r := {| Edge.windowStart := 1000; Edge.count := 20 |} in
   let m : gmap string Edge.RateRecord := {[ "203.0.113.9" := r ]} in
   Edge.method req = "POST"
   /\ m !! Edge.getRateLimitKey req = Some r
   /\ Edge.RATE_LIMIT <= Edge.count r
   /\ 2500 - Edge.windowStart r <= Edge.RATE_WINDOW * 1000
   /\ Edge.handler None 2500 req m =
        (Done (Returned
           {| status := 429;
              responseHeaders :=
                Edge.jsonHeaders (Edge.corsHeaders req) ++ [("Retry-After", "3599")];
              responseBody :=
                Some (JObj [("error", JStr "Rate limited. Try again in 3599s.");
                            ("resetIn", JInt 3599)]) |}), m))
  /\ (let req := serverless_post "203.0.113.9" JUndefined in
      let r := {| Serverless.start := 1000; Serverless.count := 100 |} in
      let m : gmap string Serverless.RateRecord := {[ "203.0.113.9" := r ]} in
      Serverless.method req = "POST"
      /\ m !! Serverless.clientIp req = Some r
      /\ Serverless.RATE_LIMIT <= Serverless.count r
      /\ 2500 - Serverless.start r <= Serverless.RATE_WINDOW
      /\ Serverless.handler None 2500 req m =
           (Done (Returned
              {| status := 429;
                 responseHeaders := Serverless.corsHeaders;
                 responseBody :=
                   Some (JObj [("error", JStr "Rate limited. Try again later.")]) |}),
            m)).
Proof.
  split.
  - intros req r m.
    assert (H1 : Edge.method req = "POST") by reflexivity.
    assert (H2 : m !! Edge.getRateLimitKey req = Some r) by reflexivity.
    assert (H3 : Edge.RATE_LIMIT <= Edge.count r) by (vm_compute; discriminate).
    assert (H4 : 2500 - Edge.windowStart r <= Edge.RATE_WINDOW * 1000)
      by (vm_compute; discriminate).
    exact (conj H1 (conj H2 (conj H3 (conj H4
             (proj1 rate_limited_post_answers_429 None 2500 req m r H1 H2 H3 H4))))).
  - intros req r m.
    assert (H1 : Serverless.method req = "POST") by reflexivity.
    assert (H2 : m !! Serverless.clientIp req = Some r) by reflexivity.
    assert (H3 : Serverless.RATE_LIMIT <= Serverless.count r) by (vm_compute; discriminate).
    assert (H4 : 2500 - Serverless.start r <= Serverless.RATE_WINDOW)
      by (vm_compute; discriminate).
    exact (conj H1 (conj H2 (conj H3 (conj H4
             (proj2 rate_limited_post_answers_429 None 2500 req m r H1 H2 H3 H4))))).
Defined.

(** ** The gates behind the rate limiter *)

(** X9: in [src/chat.js], an admitted POST whose body does not parse as JSON
    is answered 400 with [{error: "Invalid JSON"}], whether or not a
    credential is configured; no upstream call is made. *)
Theorem unparseable_body_answers_400 apiKey now req (m : gmap string Edge.RateRecord) :
  Edge.method req = "POST" ->
  Edge.allowed (Edge.checkRateLimit now (Edge.getRateLimitKey req) m).1 = true ->
  Edge.json req = None ->
  (Edge.handler apiKey now req m).1 =
    Done (Returned {| status := 400;
                      responseHeaders := Edge.jsonHeaders (Edge.corsHeaders req);
                      responseBody := Some (JObj [("error", JStr "Invalid JSON")]) |}).
Proof.
  intros Hmeth Hallow Hjson. unfold Edge.handler. rewrite Hmeth. simpl.
  destruct (Edge.checkRateLimit now (Edge.getRateLimitKey req) m) as [rc m'].
  simpl in Hallow. by rewrite Hallow, Hjson.
Qed.

Lemma unparseable_body_answers_400_witness :
  let req := edge_post "203.0.113.9" None in
  Edge.method req = "POST"
  /\ Edge.allowed (Edge.checkRateLimit 0 (Edge.getRateLimitKey req) ∅).1 = true
  /\ Edge.json req = None
  /\ (Edge.handler (Some "sk-test") 0 req ∅).1 =
       Done (Returned {| status := 400;
                         responseHeaders := Edge.jsonHeaders (Edge.corsHeaders req);
                         responseBody := Some (JObj [("error", JStr "Invalid JSON")]) |}).
Proof.
  intros req.
  assert (H1 : Edge.method req = "POST") by reflexivity.
  assert (H2 : Edge.allowed (Edge.checkRateLimit 0 (Edge.getRateLimitKey req) ∅).1 = true)
    by reflexivity.
  assert (H3 : Edge.json req = None) by reflexivity.
  exact (conj H1 (conj H2 (conj H3
           (unparseable_body_answers_400 (Some "sk-test") 0 req ∅ H1 H2 H3)))).
Defined.

(** X10: an admitted POST with an array [messages] on a server whose
    [OPENAI_API_KEY] is not set, or is the empty string, is answered 500
    with [{error: "Server misconfigured"}]; no upstream call is made. *)
Theorem missing_credential_answers_500 :
  (forall apiKey now req (m : gmap string Edge.RateRecord) body messages,
      Edge.method req = "POST" ->
      Edge.allowed (Edge.checkRateLimit now (Edge.getRateLimitKey req) m).1 = true ->
      Edge.json req = Some body ->
      getProp body "messages" = Some messages ->
      isArray messages = true ->
      apiKey = None \/ apiKey = Some "" ->
      (Edge.handler apiKey now req m).1 =
        Done (Returned {| status := 500;
                          responseHeaders := Edge.jsonHeaders (Edge.corsHeaders req);
                          responseBody :=
                            Some (JObj [("error", JStr "Server misconfigured")]) |}))
  /\ (forall apiKey now req (m : gmap string Serverless.RateRecord),
      Serverless.method req = "POST" ->
      (Serverless.checkRateLimit now (Serverless.clientIp req) m).1 = true ->
      isArray (getPropOpt (jsOr (Serverless.body req) (JObj [])) "messages") = true ->
      apiKey = None \/ apiKey = Some "" ->
      (Serverless.handler apiKey now req m).1 =
        Done (Returned {| status := 500;
                          responseHeaders := Serverless.corsHeaders;
                          responseBody :=
                            Some (JObj [("error", JStr "Server misconfigured")]) |})).
Proof.
  split.
  - intros apiKey now req m body messages Hmeth Hallow Hjson Hmsgs Harr Hkey.
    unfold Edge.handler. rewrite Hmeth. simpl.
    destruct (Edge.checkRateLimit now (Edge.getRateLimitKey req) m) as [rc m'].
    simpl in Hallow. rewrite Hallow, Hjson, Hmsgs, Harr. simpl.
    by destruct Hkey as [-> | ->].
  - intros apiKey now req m Hmeth Hallow Harr Hkey.
    unfold Serverless.handler. rewrite Hmeth. simpl.
    destruct (Serverless.checkRateLimit now (Serverless.clientIp req) m) as [d m'].
    simpl in Hallow. rewrite Hallow, Harr. simpl.
    by destruct Hkey as [-> | ->].
Qed.

Lemma missing_credential_answers_500_witness :
  let body := JObj [("messages", JArr [])] in
  (let req := edge_post "203.0.113.9" (Some body) in
   Edge.method req = "POST"
   /\ Edge.allowed (Edge.checkRateLimit 0 (Edge.getRateLimitKey req) ∅).1 = true
   /\ Edge.json req = Some body
   /\ getProp body "messages" = Some (JArr [])
   /\ isArray (JArr []) = true
   /\ (Some "" = None \/ Some "" = Some "")
   /\ (Edge.handler (Some "") 0 req ∅).1 =
        Done (Returned {| status := 500;
                          responseHeaders := Edge.jsonHeaders (Edge.corsHeaders req);
                          responseBody :=
                            Some (JObj [("error", JStr "Server misconfigured")]) |}))
  /\ (let req := serverless_post "203.0.113.9" body in
      Serverless.method req = "POST"
      /\ (Serverless.checkRateLimit 0 (Serverless.clientIp req) ∅).1 = true
      /\ isArray (getPropOpt (jsOr (Serverless.body req) (JObj [])) "messages") = true
      /\ (@None string = None \/ @None string = Some "")
      /\ (Serverless.handler None 0 req ∅).1 =
           Done (Returned {| status := 500;
                             responseHeaders := Serverless.corsHeaders;
                             responseBody :=
                               Some (JObj [("error", JStr "Server misconfigured")]) |})).
Proof.
  intros body. split.
  - intros req.
    assert (H1 : Edge.method req = "POST") by reflexivity.
    assert (H2 : Edge.allowed (Edge.checkRateLimit 0 (Edge.getRateLimitKey req) ∅).1 = true)
      by reflexivity.
    assert (H3 : Edge.json req = Some body) by reflexivity.
    assert (H4 : getProp body "messages" = Some (JArr [])) by reflexivity.
    assert (H5 : isArray (JArr []) = true) by reflexivity.
    assert (H6 : Some "" = None \/ Some "" = Some "") by (right; reflexivity).
    exact (conj H1 (conj H2 (conj H3 (conj H4 (conj H5 (conj H6
             (proj1 missing_credential_answers_500
                    (Some "") 0 req ∅ body (JArr []) H1 H2 H3 H4 H5 H6))))))).
  - intros req.
    assert (H1 : Serverless.method req = "POST") by reflexivity.
    assert (H2 : (Serverless.checkRateLimit 0 (Serverless.clientIp req) ∅).1 = true)
      by reflexivity.
    assert (H3 : isArray (getPropOpt (jsOr (Serverless.body req) (JObj [])) "messages")
                 = true) by reflexivity.
    assert (H4 : @None string = None \/ @None string = Some "") by (left; reflexivity).
    exact (conj H1 (conj H2 (conj H3 (conj H4
             (proj2 missing_credential_answers_500 None 0 req ∅ H1 H2 H3 H4))))).
Defined.

(** ** The credential stays on the server *)

Lemma truthyString_nonempty key : key <> "" -> truthyString (Some key) = Some key.
Proof. intros Hkey. simpl. destruct key; [done|reflexivity]. Qed.

(** X11: the handler's own code uses the credential for one thing, the
    [Authorization] header of the upstream request, which is ["Bearer "]
    followed by the credential.  With two non-empty credentials the map is
    the same; a request answered without an upstream call gets the same
    answer; otherwise the two upstream requests differ in that header only
    and, whatever the upstream does, the two responses are the same as soon
    as the upstream's outcome for the two requests is the same.  So the
    upstream's reply is the only way by which the credential can reach the
    client.  That way is open: the [message] of an upstream error is passed
    on as it is, and an upstream that answers 401 with the [Authorization]
    header it was sent as [error.message] has the client receive ["Bearer "]
    followed by the credential. *)
Theorem credential_reaches_client_only_through_upstream :
  (forall key1 key2 now req (m : gmap string Edge.RateRecord) fetch,
      key1 <> "" -> key2 <> "" ->
      (Edge.handler (Some key1) now req m).2 = (Edge.handler (Some key2) now req m).2
      /\ (upstreamCall (Edge.handler (Some key1) now req m).1 = None ->
          (Edge.handler (Some key1) now req m).1 = (Edge.handler (Some key2) now req m).1)
      /\ forall call1,
           upstreamCall (Edge.handler (Some key1) now req m).1 = Some call1 ->
           let call2 := {| url := url call1;
                           fetchMethod := fetchMethod call1;
                           fetchHeaders := [("Content-Type", "application/json");
                                            ("Authorization", "Bearer " +:+ key2)];
                           fetchBody := fetchBody call1 |} in
           fetchHeaders call1 = [("Content-Type", "application/json");
                                 ("Authorization", "Bearer " +:+ key1)]
           /\ upstreamCall (Edge.handler (Some key2) now req m).1 = Some call2
           /\ (fetch call1 = fetch call2 ->
               complete fetch (Edge.handler (Some key1) now req m).1 =
                 complete fetch (Edge.handler (Some key2) now req m).1))
  /\ (forall key now req (m : gmap string Edge.RateRecord) call,
      key <> "" ->
      upstreamCall (Edge.handler (Some key) now req m).1 = Some call ->
      complete echoAuthorization (Edge.handler (Some key) now req m).1 =
        Returned {| status := 401;
                    responseHeaders := Edge.jsonHeaders (Edge.corsHeaders req);
                    responseBody := Some (JObj [("error", JStr ("Bearer " +:+ key))]) |})
  /\ (forall key1 key2 now req (m : gmap string Serverless.RateRecord) fetch,
      key1 <> "" -> key2 <> "" ->
      (Serverless.handler (Some key1) now req m).2 =
        (Serverless.handler (Some key2) now req m).2
      /\ (upstreamCall (Serverless.handler (Some key1) now req m).1 = None ->
          (Serverless.handler (Some key1) now req m).1 =
            (Serverless.handler (Some key2) now req m).1)
      /\ forall call1,
           upstreamCall (Serverless.handler (Some key1) now req m).1 = Some call1 ->
           let call2 := {| url := url call1;
                           fetchMethod := fetchMethod call1;
                           fetchHeaders := [("Content-Type", "application/json");
                                            ("Authorization", "Bearer " +:+ key2)];
                           fetchBody := fetchBody call1 |} in
           fetchHeaders call1 = [("Content-Type", "application/json");
                                 ("Authorization", "Bearer " +:+ key1)]
           /\ upstreamCall (Serverless.handler (Some key2) now req m).1 = Some call2
           /\ (fetch call1 = fetch call2 ->
               complete fetch (Serverless.handler (Some key1) now req m).1 =
                 complete fetch (Serverless.handler (Some key2) now req m).1))
  /\ (forall key now req (m : gmap string Serverless.RateRecord) call,
      key <> "" ->
      upstreamCall (Serverless.handler (Some key) now req m).1 = Some call ->
      complete echoAuthorization (Serverless.handler (Some key) now req m).1 =
        Returned {| status := 401;
                    responseHeaders := Serverless.corsHeaders;
                    responseBody := Some (JObj [("error", JStr ("Bearer " +:+ key))]) |}).
Proof.
  split; [|split; [|split]].
  - intros key1 key2 now req m fetch Hk1 Hk2. unfold Edge.handler.
    rewrite !truthyString_nonempty by done.
    destruct (String.eqb (Edge.method req) "OPTIONS"); [done|].
    destruct (String.eqb (Edge.method req) "POST"); simpl; [|done].
    destruct (Edge.checkRateLimit now (Edge.getRateLimitKey req) m) as [rc m'].
    destruct (Edge.allowed rc); simpl; [|done].
    destruct (Edge.json req) as [body|]; [|done].
    destruct (getProp body "messages") as [messages|]; [|done].
    destruct (isArray messages); simpl; [|done].
    split; [done|]. split; [done|].
    intros call1 [= <-]. simpl. split; [done|]. split; [done|]. by intros ->.
  - intros key now req m call Hk. unfold Edge.handler.
    rewrite truthyString_nonempty by done.
    destruct (String.eqb (Edge.method req) "OPTIONS"); [done|].
    destruct (String.eqb (Edge.method req) "POST"); simpl; [|done].
    destruct (Edge.checkRateLimit now (Edge.getRateLimitKey req) m) as [rc m'].
    destruct (Edge.allowed rc); simpl; [|done].
    destruct (Edge.json req) as [body|]; [|done].
    destruct (getProp body "messages") as [messages|]; [|done].
    destruct (isArray messages); simpl; [|done].
    intros _. reflexivity.
  - intros key1 key2 now req m fetch Hk1 Hk2. unfold Serverless.handler.
    rewrite !truthyString_nonempty by done.
    destruct (String.eqb (Serverless.method req) "OPTIONS"); [done|].
    destruct (String.eqb (Serverless.method req) "POST"); simpl; [|done].
    destruct (Serverless.checkRateLimit now (Serverless.clientIp req) m) as [d m'].
    destruct d; simpl; [|done].
    destruct (isArray _); simpl; [|done].
    split; [done|]. split; [done|].
    intros call1 [= <-]. simpl. split; [done|]. split; [done|]. by intros ->.
  - intros key now req m call Hk. unfold Serverless.handler.
    rewrite truthyString_nonempty by done.
    destruct (String.eqb (Serverless.method req) "OPTIONS"); [done|].
    destruct (String.eqb (Serverless.method req) "POST"); simpl; [|done].
    destruct (Serverless.checkRateLimit now (Serverless.clientIp req) m) as [d m'].
    destruct d; simpl; [|done].
    destruct (isArray _); simpl; [|done].
    intros _. reflexivity.
Qed.

Lemma credential_reaches_client_only_through_upstream_witness :
  let body := JObj [("messages", JArr [])] in
  (let req := edge_post "203.0.113.9" (Some body) in
   "sk-one" <> ""
   /\ upstreamCall (Edge.handler (Some "sk-one") 0 req ∅).1 <> None
   /\ complete echoAuthorization (Edge.handler (Some "sk-one") 0 req ∅).1 =
        Returned {| status := 401;
                    responseHeaders := Edge.jsonHeaders (Edge.corsHeaders req);
                    responseBody := Some (JObj [("error", JStr "Bearer sk-one")]) |})
  /\ (let req := serverless_post "203.0.113.9" body in
      "sk-one" <> "" /\ "sk-two" <> ""
      /\ upstreamCall (Serverless.handler (Some "sk-one") 0 req ∅).1 <> None
      /\ complete (always (Rejected JNull)) (Serverless.handler (Some "sk-one") 0 req ∅).1 =
           complete (always (Rejected JNull)) (Serverless.handler (Some "sk-two") 0 req ∅).1).
Proof.
  intros body.
  assert (H1 : "sk-one" <> "") by discriminate.
  assert (H2 : "sk-two" <> "") by discriminate.
  split.
  - intros req. split; [exact H1|]. split; [discriminate|].
    exact (proj1 (proj2 credential_reaches_client_only_through_upstream)
             "sk-one" 0 req ∅ _ H1 eq_refl).
  - intros req. split; [exact H1|]. split; [exact H2|]. split; [discriminate|].
    exact (proj2 (proj2 (proj2 (proj2 (proj1 (proj2 (proj2
             credential_reaches_client_only_through_upstream))
             "sk-one" "sk-two" 0 req ∅ (always (Rejected JNull)) H1 H2)) _ eq_refl))
             eq_refl).
Defined.

(** ** CORS headers *)

Lemma prefix_app_self s rest : String.prefix s (s +:+ rest) = true.
Proof.
  induction s as [|a s IH]; simpl.
  - by destruct rest.
  - change (String a s +:+ rest) with (String a (s +:+ rest)).
    destruct (ascii_dec a a); [exact IH|done].
Qed.




(** X13: [Access-Control-Allow-Origin] in [src/chat.js].  The request's
    [Origin] is echoed when it starts with
    ["https://www.propertyfinder.ae"] or with ["chrome-extension://"]; the
    test is on the prefix only, so whatever follows the prefix is echoed
    with it.  Without an [Origin], or with one that starts with neither, the
    header is ["https://www.propertyfinder.ae"].  It is never the wildcard
    ["*"]. *)
Theorem allow_origin_is_prefix_matched :
  (forall req rest,
      Edge.headers req !! "origin" = Some ("https://www.propertyfinder.ae" +:+ rest) ->
      Edge.corsHeaders req !! 0%nat =
        Some ("Access-Control-Allow-Origin", "https://www.propertyfinder.ae" +:+ rest))
  /\ (forall req rest,
      Edge.headers req !! "origin" = Some ("chrome-extension://" +:+ rest) ->
      Edge.corsHeaders req !! 0%nat =
        Some ("Access-Control-Allow-Origin", "chrome-extension://" +:+ rest))
  /\ (forall req,
      (Edge.headers req !! "origin" = None
       \/ exists origin,
            Edge.headers req !! "origin" = Some origin
            /\ String.prefix "https://www.propertyfinder.ae" origin = false
            /\ String.prefix "chrome-extension://" origin = false) ->
      Edge.corsHeaders req !! 0%nat =
        Some ("Access-Control-Allow-Origin", "https://www.propertyfinder.ae"))
  /\ (forall req,
      Edge.corsHeaders req !! 0%nat <> Some ("Access-Control-Allow-Origin", "*")).
Proof.
  split; [|split; [|split]].
  - intros req rest Horigin. unfold Edge.corsHeaders, Edge.allowedOrigins.
    rewrite Horigin. cbn [existsb].
    change (truthyString (Some ("https://www.propertyfinder.ae" +:+ rest)))
      with (Some ("https://www.propertyfinder.ae" +:+ rest)).
    cbn [default from_option id]. by rewrite prefix_app_self.
  - intros req rest Horigin. unfold Edge.corsHeaders, Edge.allowedOrigins.
    rewrite Horigin. cbn [existsb].
    change (truthyString (Some ("chrome-extension://" +:+ rest)))
      with (Some ("chrome-extension://" +:+ rest)).
    cbn [default from_option id]. rewrite prefix_app_self.
    change (String.prefix "https://www.propertyfinder.ae" ("chrome-extension://" +:+ rest))
      with false.
    done.
  - intros req Horigin. unfold Edge.corsHeaders, Edge.allowedOrigins. cbn [existsb].
    destruct Horigin as [-> | (origin & -> & Hpf & Hce)]; [done|].
    simpl. destruct (String.eqb origin ""); simpl; [done|].
    by rewrite Hpf, Hce.
  - intros req. unfold Edge.corsHeaders, Edge.allowedOrigins. cbn [existsb].
    generalize (default "" (truthyString (Edge.headers req !! "origin"))).
    intros origin.
    destruct (String.prefix "https://www.propertyfinder.ae" origin) eqn:Hpf; simpl.
    { intros [= ->]. done. }
    destruct (String.prefix "chrome-extension://" origin) eqn:Hce; simpl.
    { intros [= ->]. done. }
    done.
Qed.

Lemma allow_origin_is_prefix_matched_witness :
  (let req := {| Edge.method := "POST";
                 Edge.headers :=
                   {[ "origin" := "https://www.propertyfinder.ae" +:+ ".example.net" ]};
                 Edge.json := None |} in
   Edge.headers req !! "origin" =
     Some ("https://www.propertyfinder.ae" +:+ ".example.net")
   /\ Edge.corsHeaders req !! 0%nat =
        Some ("Access-Control-Allow-Origin", "https://www.propertyfinder.ae.example.net"))
  /\ (let req := {| Edge.method := "POST";
                    Edge.headers := {[ "origin" := "chrome-extension://" +:+ "abcdef" ]};
                    Edge.json := None |} in
      Edge.headers req !! "origin" = Some ("chrome-extension://" +:+ "abcdef")
      /\ Edge.corsHeaders req !! 0%nat =
           Some ("Access-Control-Allow-Origin", "chrome-extension://abcdef"))
  /\ (let req := {| Edge.method := "POST";
                    Edge.headers := {[ "origin" := "https://example.net" ]};
                    Edge.json := None |} in
      (Edge.headers req !! "origin" = None
       \/ exists origin,
            Edge.headers req !! "origin" = Some origin
            /\ String.prefix "https://www.propertyfinder.ae" origin = false
            /\ String.prefix "chrome-extension://" origin = false)
      /\ Edge.corsHeaders req !! 0%nat =
           Some ("Access-Control-Allow-Origin", "https://www.propertyfinder.ae")).
Proof.
  split; [|split].
  - intros req.
    assert (H : Edge.headers req !! "origin" =
                Some ("https://www.propertyfinder.ae" +:+ ".example.net")) by reflexivity.
    exact (conj H (proj1 allow_origin_is_prefix_matched req ".example.net" H)).
  - intros req.
    assert (H : Edge.headers req !! "origin" = Some ("chrome-extension://" +:+ "abcdef"))
      by reflexivity.
    exact (conj H (proj1 (proj2 allow_origin_is_prefix_matched) req "abcdef" H)).
  - intros req.
    assert (H : Edge.headers req !! "origin" = None
                \/ exists origin,
                     Edge.headers req !! "origin" = Some origin
                     /\ String.prefix "https://www.propertyfinder.ae" origin = false
                     /\ String.prefix "chrome-extension://" origin = false).
    { right. exists "https://example.net". repeat split; reflexivity. }
    exact (conj H (proj1 (proj2 (proj2 allow_origin_is_prefix_matched)) req H)).
Defined.

(** ** The client key *)

Lemma beforeComma_first_hop hop rest :
  (forall n, String.get n hop <> Some ","%char) ->
  beforeComma (hop +:+ "," +:+ rest) = hop.
Proof.
  induction hop as [|c hop IH]; intros Hno.
  - reflexivity.
  - change (String c hop +:+ "," +:+ rest) with (String c (hop +:+ "," +:+ rest)).
    simpl. destruct (Ascii.eqb c ",") eqn:Hc.
    + apply Ascii.eqb_eq in Hc. subst c. by destruct (Hno 0%nat).
    + f_equal. apply IH. intros n. apply (Hno (S n)).
Qed.

(** X14: the key of [src/chat.js] is never the empty string.  It is the
    trimmed first hop of [x-forwarded-for] when that is not blank; otherwise
    [x-real-ip] when that is not empty; otherwise ["unknown"]. *)
Theorem client_key_fallback_chain req :
  Edge.getRateLimitKey req <> ""
  /\ (forall v,
        Edge.headers req !! "x-forwarded-for" = Some v ->
        trim (beforeComma v) <> "" ->
        Edge.getRateLimitKey req = trim (beforeComma v))
  /\ ((Edge.headers req !! "x-forwarded-for" = None
       \/ exists v, Edge.headers req !! "x-forwarded-for" = Some v
                    /\ trim (beforeComma v) = "") ->
      (forall ip, Edge.headers req !! "x-real-ip" = Some ip -> ip <> "" ->
                  Edge.getRateLimitKey req = ip)
      /\ (Edge.headers req !! "x-real-ip" = None
          \/ Edge.headers req !! "x-real-ip" = Some "" ->
          Edge.getRateLimitKey req = "unknown")).
Proof.
  unfold Edge.getRateLimitKey. split; [|split].
  - destruct (Edge.headers req !! "x-forwarded-for") as [v|]; simpl.
    + destruct (trim (beforeComma v)) as [|c s]; simpl; [|done].
      destruct (Edge.headers req !! "x-real-ip") as [[|c s]|]; done.
    + destruct (Edge.headers req !! "x-real-ip") as [[|c s]|]; done.
  - intros v -> Hv. simpl. by destruct (trim (beforeComma v)).
  - intros Hblank.
    assert (truthyString ((fun v => trim (beforeComma v))
                            <$> Edge.headers req !! "x-forwarded-for") = None) as ->.
    { destruct Hblank as [-> | (v & -> & Hv)]; [done|]. simpl. by rewrite Hv. }
    split.
    + intros ip -> Hip. simpl. by destruct ip.
    + by intros [-> | ->].
Qed.

Lemma client_key_fallback_chain_witness :
  let req := {| Edge.method := "POST";
                Edge.headers := {[ "x-forwarded-for" := "  , 10.0.0.1";
                                   "x-real-ip" := "198.51.100.4" ]};
                Edge.json := None |} in
  (Edge.headers req !! "x-forwarded-for" = None
   \/ exists v, Edge.headers req !! "x-forwarded-for" = Some v
                /\ trim (beforeComma v) = "")
  /\ Edge.headers req !! "x-real-ip" = Some "198.51.100.4"
  /\ "198.51.100.4" <> ""
  /\ Edge.getRateLimitKey req = "198.51.100.4".
Proof.
  intros req.
  assert (H1 : Edge.headers req !! "x-forwarded-for" = None
               \/ exists v, Edge.headers req !! "x-forwarded-for" = Some v
                            /\ trim (beforeComma v) = "").
  { right. exists "  , 10.0.0.1". split; reflexivity. }
  assert (H2 : Edge.headers req !! "x-real-ip" = Some "198.51.100.4") by reflexivity.
  assert (H3 : "198.51.100.4" <> "") by discriminate.
  exact (conj H1 (conj H2 (conj H3
           (proj1 (proj2 (proj2 (client_key_fallback_chain req)) H1) _ H2 H3)))).
Defined.

(** X15: only the first hop of [x-forwarded-for] counts.  When the header is
    a hop without comma followed by a comma and anything else, the key is
    the trimmed hop: in [src/chat.js] provided the hop is not blank, in
    [src/unnamed/part_000] always (a blank hop gives the empty key there). *)
Theorem only_first_hop_counts :
  (forall req hop rest,
      Edge.headers req !! "x-forwarded-for" = Some (hop +:+ "," +:+ rest) ->
      (forall n, String.get n hop <> Some ","%char) ->
      trim hop <> "" ->
      Edge.getRateLimitKey req = trim hop)
  /\ (forall req hop rest,
      Serverless.headers req !! "x-forwarded-for" = Some (hop +:+ "," +:+ rest) ->
      (forall n, String.get n hop <> Some ","%char) ->
      Serverless.clientIp req = trim hop).
Proof.
  split.
  - intros req hop rest Hfwd Hno Hhop. unfold Edge.getRateLimitKey.
    rewrite Hfwd. simpl. rewrite beforeComma_first_hop by done.
    by destruct (trim hop).
  - intros req hop rest Hfwd Hno. unfold Serverless.clientIp.
    rewrite Hfwd.
    assert (truthyString (Some (hop +:+ "," +:+ rest)) = Some (hop +:+ "," +:+ rest)) as ->.
    { apply truthyString_nonempty. by destruct hop. }
    simpl. by rewrite beforeComma_first_hop.
Qed.

Lemma only_first_hop_counts_witness :
  (let req := edge_post (" 203.0.113.9 " +:+ "," +:+ " 10.0.0.1, 10.0.0.2") None in
   Edge.headers req !! "x-forwarded-for" =
     Some (" 203.0.113.9 " +:+ "," +:+ " 10.0.0.1, 10.0.0.2")
   /\ (forall n, String.get n " 203.0.113.9 " <> Some ","%char)
   /\ trim " 203.0.113.9 " <> ""
   /\ Edge.getRateLimitKey req = "203.0.113.9")
  /\ (let req := serverless_post (" " +:+ "," +:+ "10.0.0.1") JUndefined in
      Serverless.headers req !! "x-forwarded-for" = Some (" " +:+ "," +:+ "10.0.0.1")
      /\ (forall n, String.get n " " <> Some ","%char)
      /\ Serverless.clientIp req = "").
Proof.
  split.
  - intros req.
    assert (H1 : Edge.headers req !! "x-forwarded-for" =
                 Some (" 203.0.113.9 " +:+ "," +:+ " 10.0.0.1, 10.0.0.2")) by reflexivity.
    assert (H2 : forall n, String.get n " 203.0.113.9 " <> Some ","%char).
    { intros n. do 14 (destruct n as [|n]; [discriminate|]). discriminate. }
    assert (H3 : trim " 203.0.113.9 " <> "") by discriminate.
    exact (conj H1 (conj H2 (conj H3
             (proj1 only_first_hop_counts req _ _ H1 H2 H3)))).
  - intros req.
    assert (H1 : Serverless.headers req !! "x-forwarded-for" =
                 Some (" " +:+ "," +:+ "10.0.0.1")) by reflexivity.
    assert (H2 : forall n, String.get n " " <> Some ","%char).
    { intros n. do 2 (destruct n as [|n]; [discriminate|]). discriminate. }
    exact (conj H1 (conj H2 (proj2 only_first_hop_counts req _ _ H1 H2))).
Defined.

(** ** Exceptions that escape the handler *)

(** X16: the handler of [src/chat.js] lets an exception escape in one case
    only: an admitted POST whose body parses to [null], for which reading
    [body.messages] throws before the [try] block is entered.  Every other
    request gets a response, whatever the upstream does. *)
Theorem escaping_exception_only_for_null_body
    apiKey now req (m : gmap string Edge.RateRecord) fetch :
  (complete fetch (Edge.handler apiKey now req m).1 = Thrown <->
   Edge.method req = "POST"
   /\ Edge.allowed (Edge.checkRateLimit now (Edge.getRateLimitKey req) m).1 = true
   /\ (Edge.json req = Some JNull \/ Edge.json req = Some JUndefined))
  /\ (~ (Edge.method req = "POST"
         /\ Edge.allowed (Edge.checkRateLimit now (Edge.getRateLimitKey req) m).1 = true
         /\ (Edge.json req = Some JNull \/ Edge.json req = Some JUndefined)) ->
      exists r, complete fetch (Edge.handler apiKey now req m).1 = Returned r).
Proof.
  assert (Hiff : complete fetch (Edge.handler apiKey now req m).1 = Thrown <->
                 Edge.method req = "POST"
                 /\ Edge.allowed (Edge.checkRateLimit now (Edge.getRateLimitKey req) m).1
                    = true
                 /\ (Edge.json req = Some JNull \/ Edge.json req = Some JUndefined)).
  { unfold Edge.handler.
    destruct (String.eqb (Edge.method req) "OPTIONS") eqn:Hopt; simpl.
    { apply String.eqb_eq in Hopt. rewrite Hopt. split; [done|]. intros [? _]. discriminate. }
    destruct (String.eqb (Edge.method req) "POST") eqn:Hpost; simpl.
    2: { apply String.eqb_neq in Hpost. split; [done|]. by intros [? _]. }
    apply String.eqb_eq in Hpost.
    destruct (Edge.checkRateLimit now (Edge.getRateLimitKey req) m) as [rc m1]. simpl.
    destruct (Edge.allowed rc); simpl.
    2: { split; [done|]. intros (_ & ? & _). discriminate. }
    destruct (Edge.json req) as [body|]; simpl.
    2: { split; [done|]. intros (_ & _ & [?|?]); discriminate. }
    destruct (getProp body "messages") as [messages|] eqn:Hmsgs; simpl.
    2: { split; [|done]. intros _. repeat split; try done.
         destruct body; simpl in Hmsgs; try discriminate; auto. }
    assert (Hbody : ~ (Some body = Some JNull \/ Some body = Some JUndefined)).
    { intros [[= ->] | [= ->]]; discriminate. }
    split; [|by intros (_ & _ & ?)].
    intros Hthrown. exfalso. revert Hthrown.
    destruct (isArray messages); simpl; [|done].
    destruct (truthyString apiKey) as [key|]; simpl; [|done].
    unfold Edge.afterFetch.
    match goal with |- context [fetch ?c] => destruct (fetch c) as [reason|res] end; [done|].
    destruct (ok res); simpl.
    + destruct (upstreamJson res) as [data|]; [|done].
      by destruct (firstCompletionContent data).
    + destruct (getProp _ "error"); [|done].
      by destruct (newResponse _ _ _). }
  split; [exact Hiff|].
  intros Hnot.
  destruct (complete fetch (Edge.handler apiKey now req m).1) as [r|] eqn:Hrun.
  - by exists r.
  - exfalso. apply Hnot. by apply Hiff.
Qed.

Lemma escaping_exception_only_for_null_body_witness :
  let req := edge_post "203.0.113.9" (Some JNull) in
  (Edge.method req = "POST"
   /\ Edge.allowed (Edge.checkRateLimit 0 (Edge.getRateLimitKey req) ∅).1 = true
   /\ (Edge.json req = Some JNull \/ Edge.json req = Some JUndefined))
  /\ complete (always (Rejected JNull)) (Edge.handler (Some "sk-test") 0 req ∅).1 = Thrown.
Proof.
  intros req.
  assert (H : Edge.method req = "POST"
              /\ Edge.allowed (Edge.checkRateLimit 0 (Edge.getRateLimitKey req) ∅).1 = true
              /\ (Edge.json req = Some JNull \/ Edge.json req = Some JUndefined)).
  { split; [reflexivity|]. split; [reflexivity|]. left. reflexivity. }
  exact (conj H (proj2 (proj1 (escaping_exception_only_for_null_body
                                 (Some "sk-test") 0 req ∅ (always (Rejected JNull)))) H)).
Defined.

(** ** Upstream errors and status codes *)

Lemma upstream_error_status_passed_on_witness :
  let res := {| upstreamStatus := 429;
                upstreamJson :=
                  Some (JObj [("error", JObj [("message", JStr "Rate limit reached")])]) |} in
  let body := JObj [("messages", JArr [])] in
  (ok res = false
   /\ upstreamJson res <> Some JNull /\ upstreamJson res <> Some JUndefined
   /\ 200 <= upstreamStatus res <= 599 /\ nullBodyStatus (upstreamStatus res) = false)
  /\ (let req := edge_post "203.0.113.9" (Some body) in
      complete (always (Resolved res)) (Edge.handler (Some "sk-test") 0 req ∅).1 =
        Returned {| status := 429;
                    responseHeaders := Edge.jsonHeaders (Edge.corsHeaders req);
                    responseBody := Some (JObj [("error", JStr "Rate limit reached")]) |})
  /\ (let req := serverless_post "203.0.113.9" body in
      complete (always (Resolved res)) (Serverless.handler (Some "sk-test") 0 req ∅).1 =
        Returned {| status := 429;
                    responseHeaders := Serverless.corsHeaders;
                    responseBody := Some (JObj [("error", JStr "Rate limit reached")]) |}).
Proof.
  intros res body.
  assert (H1 : ok res = false) by reflexivity.
  assert (H2 : upstreamJson res <> Some JNull) by discriminate.
  assert (H3 : upstreamJson res <> Some JUndefined) by discriminate.
  assert (H4 : 200 <= upstreamStatus res <= 599) by (split; vm_compute; discriminate).
  assert (H5 : nullBodyStatus (upstreamStatus res) = false) by reflexivity.
  split; [exact (conj H1 (conj H2 (conj H3 (conj H4 H5))))|]. split.
  - intros req.
    exact (proj1 upstream_error_status_passed_on (Some "sk-test") 0 req ∅ _ _ _
             (always (Resolved res)) res eq_refl eq_refl H1 H2 H3 H4 H5).
  - intros req.
    exact (proj2 upstream_error_status_passed_on (Some "sk-test") 0 req ∅ _ _ _
             (always (Resolved res)) res eq_refl eq_refl H1 H2 H3).
Defined.

(** X18: the status of a response is one of 204, 405, 429, 400, 500, 200 and
    502, or it is the status of a non-success upstream reply. *)
Theorem handler_status_codes :
  (forall apiKey now req (m : gmap string Edge.RateRecord) fetch r,
      complete fetch (Edge.handler apiKey now req m).1 = Returned r ->
      status r ∈ [204; 405; 429; 400; 500; 200; 502]
      \/ exists call res,
           upstreamCall (Edge.handler apiKey now req m).1 = Some call
           /\ fetch call = Resolved res /\ ok res = false
           /\ status r = upstreamStatus res)
  /\ (forall apiKey now req (m : gmap string Serverless.RateRecord) fetch r,
      complete fetch (Serverless.handler apiKey now req m).1 = Returned r ->
      status r ∈ [204; 405; 429; 400; 500; 200; 502]
      \/ exists call res,
           upstreamCall (Serverless.handler apiKey now req m).1 = Some call
           /\ fetch call = Resolved res /\ ok res = false
           /\ status r = upstreamStatus res).
Proof.
  split.
  - intros apiKey now req m fetch r Hr.
    destruct (Edge.handler apiKey now req m) as [run m'] eqn:Hh. simpl in *.
    destruct run as [o|call k].
    + left. revert Hh Hr. unfold Edge.handler.
      repeat case_match; simpl; intros; simplify_eq; simpl; set_solver.
    + pose proof (edge_handler_fetch_inv _ _ _ _ _ _ _ Hh) as (_ & _ & _ & -> & _).
      simpl in Hr. unfold Edge.afterFetch in Hr.
      destruct (fetch call) as [reason|res'] eqn:Hf.
      { left. injection Hr as <-. simpl. set_solver. }
      destruct (ok res') eqn:Hok'; simpl in Hr.
      * left. destruct (upstreamJson res') as [data|]; [|injection Hr as <-; simpl; set_solver].
        destruct (firstCompletionContent data); injection Hr as <-; simpl; set_solver.
      * destruct (getProp _ "error"); [|left; injection Hr as <-; simpl; set_solver].
        destruct (newResponse _ _ _) as [r'|] eqn:Hnew;
          [|left; injection Hr as <-; simpl; set_solver].
        right. exists call, res'. injection Hr as <-. repeat split; try done.
        unfold newResponse in Hnew. repeat case_match; by simplify_eq.
  - intros apiKey now req m fetch r Hr.
    destruct (Serverless.handler apiKey now req m) as [run m'] eqn:Hh. simpl in *.
    destruct run as [o|call k].
    + left. revert Hh Hr. unfold Serverless.handler.
      repeat case_match; simpl; intros; simplify_eq; simpl; set_solver.
    + pose proof (serverless_handler_fetch_inv _ _ _ _ _ _ _ Hh) as (_ & _ & _ & -> & _).
      simpl in Hr. unfold Serverless.afterFetch in Hr.
      destruct (fetch call) as [reason|res'] eqn:Hf.
      { left. injection Hr as <-. simpl. set_solver. }
      destruct (ok res') eqn:Hok'; simpl in Hr.
      * left. destruct (upstreamJson res') as [data|]; [|injection Hr as <-; simpl; set_solver].
        destruct (firstCompletionContent data); injection Hr as <-; simpl; set_solver.
      * destruct (getProp _ "error"); [|left; injection Hr as <-; simpl; set_solver].
        right. exists call, res'. injection Hr as <-. done.
Qed.

Lemma handler_status_codes_witness :
  let res := {| upstreamStatus := 503; upstreamJson := None |} in
  let req := edge_post "203.0.113.9" (Some (JObj [("messages", JArr [])])) in
  let r := {| status := 503;
              responseHeaders := Edge.jsonHeaders (Edge.corsHeaders req);
              responseBody := Some (JObj [("error", JStr "OpenAI error: 503")]) |} in
  complete (always (Resolved res)) (Edge.handler (Some "sk-test") 0 req ∅).1 = Returned r
  /\ (status r ∈ [204; 405; 429; 400; 500; 200; 502]
      \/ exists call res',
           upstreamCall (Edge.handler (Some "sk-test") 0 req ∅).1 = Some call
           /\ always (Resolved res) call = Resolved res' /\ ok res' = false
           /\ status r = upstreamStatus res').
Proof.
  intros res req r.
  assert (H : complete (always (Resolved res)) (Edge.handler (Some "sk-test") 0 req ∅).1
              = Returned r) by reflexivity.
  exact (conj H (proj1 handler_status_codes (Some "sk-test") 0 req ∅ _ r H)).
Defined.

(** ** Every POST counts *)

Lemma edge_handler_post_map apiKey now req (m : gmap string Edge.RateRecord) :
  Edge.method req = "POST" ->
  (Edge.handler apiKey now req m).2 =
  (Edge.checkRateLimit now (Edge.getRateLimitKey req) m).2.
Proof.
  intros Hmeth. unfold Edge.handler.
  destruct (String.eqb (Edge.method req) "OPTIONS") eqn:Hopt.
  { apply String.eqb_eq in Hopt. congruence. }
  apply String.eqb_eq in Hmeth as ->. simpl.
  destruct (Edge.checkRateLimit now (Edge.getRateLimitKey req) m) as [rc m'].
  repeat case_match; done.
Qed.

Lemma serverless_handler_post_map apiKey now req (m : gmap string Serverless.RateRecord) :
  Serverless.method req = "POST" ->
  (Serverless.handler apiKey now req m).2 =
  (Serverless.checkRateLimit now (Serverless.clientIp req) m).2.
Proof.
  intros Hmeth. unfold Serverless.handler.
  destruct (String.eqb (Serverless.method req) "OPTIONS") eqn:Hopt.
  { apply String.eqb_eq in Hopt. congruence. }
  apply String.eqb_eq in Hmeth as ->. simpl.
  destruct (Serverless.checkRateLimit now (Serverless.clientIp req) m) as [d m'].
  repeat case_match; done.
Qed.

Lemma edge_calls_cons_snd key t ts (m : gmap string Edge.RateRecord) :
  (edge_calls key (t :: ts) m).2 = (edge_calls key ts (Edge.checkRateLimit t key m).2).2.
Proof.
  cbn [edge_calls]. destruct (Edge.checkRateLimit t key m) as [d m1].
  cbn [snd]. by destruct (edge_calls key ts m1).
Qed.

Lemma serverless_calls_cons_snd ip t ts (m : gmap string Serverless.RateRecord) :
  (serverless_calls ip (t :: ts) m).2 =
  (serverless_calls ip ts (Serverless.checkRateLimit t ip m).2).2.
Proof.
  cbn [serverless_calls]. destruct (Serverless.checkRateLimit t ip m) as [d m1].
  cbn [snd]. by destruct (serverless_calls ip ts m1).
Qed.

Lemma edge_serve_cons_snd apiKey fetch now req reqs (m : gmap string Edge.RateRecord) :
  (edge_serve apiKey fetch ((now, req) :: reqs) m).2 =
  (edge_serve apiKey fetch reqs (Edge.handler apiKey now req m).2).2.
Proof.
  cbn [edge_serve]. destruct (Edge.handler apiKey now req m) as [run m1].
  cbn [snd]. by destruct (edge_serve apiKey fetch reqs m1).
Qed.

Lemma serverless_serve_cons_snd apiKey fetch now req reqs
    (m : gmap string Serverless.RateRecord) :
  (serverless_serve apiKey fetch ((now, req) :: reqs) m).2 =
  (serverless_serve apiKey fetch reqs (Serverless.handler apiKey now req m).2).2.
Proof.
  cbn [serverless_serve]. destruct (Serverless.handler apiKey now req m) as [run m1].
  cbn [snd]. by destruct (serverless_serve apiKey fetch reqs m1).
Qed.

(** Serving POST requests of one client moves the map as the rate-limit
    checks at their times do. *)
Lemma edge_serve_map apiKey fetch key reqs : forall (m : gmap string Edge.RateRecord),
  Forall (fun p => Edge.method p.2 = "POST" /\ Edge.getRateLimitKey p.2 = key) reqs ->
  (edge_serve apiKey fetch reqs m).2 = (edge_calls key (fst <$> reqs) m).2.
Proof.
  induction reqs as [|[now req] reqs IH]; intros m Hreqs; [done|].
  apply Forall_cons in Hreqs as [[Hmeth Hkey] Hreqs]. simpl in Hmeth, Hkey.
  rewrite fmap_cons, edge_serve_cons_snd, edge_calls_cons_snd.
  rewrite edge_handler_post_map, Hkey by done. by apply IH.
Qed.

Lemma serverless_serve_map apiKey fetch ip reqs :
  forall (m : gmap string Serverless.RateRecord),
  Forall (fun p => Serverless.method p.2 = "POST" /\ Serverless.clientIp p.2 = ip) reqs ->
  (serverless_serve apiKey fetch reqs m).2 = (serverless_calls ip (fst <$> reqs) m).2.
Proof.
  induction reqs as [|[now req] reqs IH]; intros m Hreqs; [done|].
  apply Forall_cons in Hreqs as [[Hmeth Hip] Hreqs]. simpl in Hmeth, Hip.
  rewrite fmap_cons, serverless_serve_cons_snd, serverless_calls_cons_snd.
  rewrite serverless_handler_post_map, Hip by done. by apply IH.
Qed.

(** X19: every POST of a client counts towards its limit, whatever its
    body, the credential and the upstream's behaviour.  After [RATE_LIMIT]
    POST requests of one client in one window, served in any way (answered,
    rejected as invalid, failed upstream), the client's next POST in that
    window is answered 429 and changes nothing. *)
Theorem post_after_limit_answers_429 :
  (forall apiKey fetch key t0 req0 rest t req (m : gmap string Edge.RateRecord),
      (m !! key = None \/
       exists r, m !! key = Some r /\ Edge.RATE_WINDOW * 1000 < t0 - Edge.windowStart r) ->
      Forall (fun p => Edge.method p.2 = "POST" /\ Edge.getRateLimitKey p.2 = key)
             ((t0, req0) :: rest ++ [(t, req)]) ->
      Forall (fun p => p.1 - t0 <= Edge.RATE_WINDOW * 1000) (rest ++ [(t, req)]) ->
      Z.of_nat (length ((t0, req0) :: rest)) = Edge.RATE_LIMIT ->
      Edge.handler apiKey t req (edge_serve apiKey fetch ((t0, req0) :: rest) m).2 =
        (Done (Returned
           {| status := 429;
              responseHeaders :=
                Edge.jsonHeaders (Edge.corsHeaders req)
                ++ [("Retry-After",
                     pretty (ceil_div (t0 + Edge.RATE_WINDOW * 1000 - t) 1000))];
              responseBody :=
                Some (JObj
                  [("error",
                    JStr ("Rate limited. Try again in "
                          +:+ pretty (ceil_div (t0 + Edge.RATE_WINDOW * 1000 - t) 1000)
                          +:+ "s."));
                   ("resetIn", JInt (ceil_div (t0 + Edge.RATE_WINDOW * 1000 - t) 1000))]) |}),
         (edge_serve apiKey fetch ((t0, req0) :: rest) m).2))
  /\ (forall apiKey fetch ip t0 req0 rest t req (m : gmap string Serverless.RateRecord),
      (m !! ip = None \/
       exists r, m !! ip = Some r /\ Serverless.RATE_WINDOW < t0 - Serverless.start r) ->
      Forall (fun p => Serverless.method p.2 = "POST" /\ Serverless.clientIp p.2 = ip)
             ((t0, req0) :: rest ++ [(t, req)]) ->
      Forall (fun p => p.1 - t0 <= Serverless.RATE_WINDOW) (rest ++ [(t, req)]) ->
      Z.of_nat (length ((t0, req0) :: rest)) = Serverless.RATE_LIMIT ->
      Serverless.handler apiKey t req
          (serverless_serve apiKey fetch ((t0, req0) :: rest) m).2 =
        (Done (Returned
           {| status := 429;
              responseHeaders := Serverless.corsHeaders;
              responseBody :=
                Some (JObj [("error", JStr "Rate limited. Try again later.")]) |}),
         (serverless_serve apiKey fetch ((t0, req0) :: rest) m).2)).
Proof.
  split.
  - intros apiKey fetch key t0 req0 rest t req m Hfresh Hreqs Hwin Hlen.
    rewrite app_comm_cons in Hreqs. apply Forall_app in Hreqs as [Hreqs Hlast].
    rewrite Forall_singleton in Hlast. destruct Hlast as [Hmeth Hkey]. simpl in Hmeth, Hkey.
    apply Forall_app in Hwin as [Hwin Ht]. rewrite Forall_singleton in Ht. simpl in Ht.
    rewrite (edge_serve_map apiKey fetch key _ m Hreqs), fmap_cons. cbn [fst].
    destruct (edge_window_run key t0 (fst <$> rest) m Hfresh) as [_ Hrec].
    { by apply Forall_fmap. }
    { simpl length in Hlen. rewrite length_fmap. lia. }
    unfold Edge.handler. rewrite Hmeth, Hkey. simpl String.eqb. cbn [negb].
    rewrite (edge_checkRateLimit_full t key _ _ Hrec); simpl; [done|lia|].
    simpl length in Hlen. rewrite length_fmap. lia.
  - intros apiKey fetch ip t0 req0 rest t req m Hfresh Hreqs Hwin Hlen.
    rewrite app_comm_cons in Hreqs. apply Forall_app in Hreqs as [Hreqs Hlast].
    rewrite Forall_singleton in Hlast. destruct Hlast as [Hmeth Hip]. simpl in Hmeth, Hip.
    apply Forall_app in Hwin as [Hwin Ht]. rewrite Forall_singleton in Ht. simpl in Ht.
    rewrite (serverless_serve_map apiKey fetch ip _ m Hreqs), fmap_cons. cbn [fst].
    destruct (serverless_window_run ip t0 (fst <$> rest) m Hfresh) as [_ Hrec].
    { by apply Forall_fmap. }
    { simpl length in Hlen. rewrite length_fmap. lia. }
    unfold Serverless.handler. rewrite Hmeth, Hip. simpl String.eqb. cbn [negb].
    rewrite (serverless_checkRateLimit_denies t ip _ _ Hrec); simpl; [done|lia|].
    simpl length in Hlen. rewrite length_fmap. lia.
Qed.

Lemma post_after_limit_answers_429_witness :
  (let bad := edge_post "203.0.113.9" None in
   let good := edge_post "203.0.113.9" (Some (JObj [("messages", JArr [])])) in
   let rest := replicate 19 (5, bad) in
   let m : gmap string Edge.RateRecord := ∅ in
   (m !! "203.0.113.9" = None \/
    exists r, m !! "203.0.113.9" = Some r
              /\ Edge.RATE_WINDOW * 1000 < 0 - Edge.windowStart r)
   /\ Forall (fun p => Edge.method p.2 = "POST"
                       /\ Edge.getRateLimitKey p.2 = "203.0.113.9")
             ((0, bad) :: rest ++ [(1000, good)])
   /\ Forall (fun p => p.1 - 0 <= Edge.RATE_WINDOW * 1000) (rest ++ [(1000, good)])
   /\ Z.of_nat (length ((0, bad) :: rest)) = Edge.RATE_LIMIT
   /\ (Edge.handler (Some "sk-test") 1000 good
         (edge_serve (Some "sk-test") (always (Rejected JNull)) ((0, bad) :: rest) m).2).1 =
        Done (Returned
          {| status := 429;
             responseHeaders :=
               Edge.jsonHeaders (Edge.corsHeaders good) ++ [("Retry-After", "3599")];
             responseBody :=
               Some (JObj [("error", JStr "Rate limited. Try again in 3599s.");
                           ("resetIn", JInt 3599)]) |}))
  /\ (let bad := serverless_post "203.0.113.9" JUndefined in
      let rest := replicate 99 (5, bad) in
      let m : gmap string Serverless.RateRecord := ∅ in
      (m !! "203.0.113.9" = None \/
       exists r, m !! "203.0.113.9" = Some r
                 /\ Serverless.RATE_WINDOW < 0 - Serverless.start r)
      /\ Forall (fun p => Serverless.method p.2 = "POST"
                          /\ Serverless.clientIp p.2 = "203.0.113.9")
                ((0, bad) :: rest ++ [(1000, bad)])
      /\ Forall (fun p => p.1 - 0 <= Serverless.RATE_WINDOW) (rest ++ [(1000, bad)])
      /\ Z.of_nat (length ((0, bad) :: rest)) = Serverless.RATE_LIMIT
      /\ (Serverless.handler None 1000 bad
            (serverless_serve None (always (Rejected JNull)) ((0, bad) :: rest) m).2).1 =
           Done (Returned
             {| status := 429;
                responseHeaders := Serverless.corsHeaders;
                responseBody :=
                  Some (JObj [("error", JStr "Rate limited. Try again later.")]) |})).
Proof.
  split.
  - intros bad good rest m.
    assert (H1 : m !! "203.0.113.9" = None \/
                 exists r, m !! "203.0.113.9" = Some r
                           /\ Edge.RATE_WINDOW * 1000 < 0 - Edge.windowStart r)
      by (left; reflexivity).
    assert (H2 : Forall (fun p => Edge.method p.2 = "POST"
                                  /\ Edge.getRateLimitKey p.2 = "203.0.113.9")
                        ((0, bad) :: rest ++ [(1000, good)]))
      by (apply Forall_cons; split; [by split|];
          apply Forall_app; split; [apply Forall_replicate; by split|];
          apply Forall_singleton; by split).
    assert (H3 : Forall (fun p => p.1 - 0 <= Edge.RATE_WINDOW * 1000)
                        (rest ++ [(1000, good)]))
      by (apply Forall_app; split; [apply Forall_replicate|apply Forall_singleton];
          vm_compute; discriminate).
    assert (H4 : Z.of_nat (length ((0, bad) :: rest)) = Edge.RATE_LIMIT) by reflexivity.
    exact (conj H1 (conj H2 (conj H3 (conj H4
             (f_equal fst
                (proj1 post_after_limit_answers_429 (Some "sk-test")
                       (always (Rejected JNull)) "203.0.113.9" 0 bad rest 1000 good m
                       H1 H2 H3 H4)))))).
  - intros bad rest m.
    assert (H1 : m !! "203.0.113.9" = None \/
                 exists r, m !! "203.0.113.9" = Some r
                           /\ Serverless.RATE_WINDOW < 0 - Serverless.start r)
      by (left; reflexivity).
    assert (H2 : Forall (fun p => Serverless.method p.2 = "POST"
                                  /\ Serverless.clientIp p.2 = "203.0.113.9")
                        ((0, bad) :: rest ++ [(1000, bad)]))
      by (apply Forall_cons; split; [by split|];
          apply Forall_app; split; [apply Forall_replicate; by split|];
          apply Forall_singleton; by split).
    assert (H3 : Forall (fun p => p.1 - 0 <= Serverless.RATE_WINDOW)
                        (rest ++ [(1000, bad)]))
      by (apply Forall_app; split; [apply Forall_replicate|apply Forall_singleton];
          vm_compute; discriminate).
    assert (H4 : Z.of_nat (length ((0, bad) :: rest)) = Serverless.RATE_LIMIT)
      by reflexivity.
    exact (conj H1 (conj H2 (conj H3 (conj H4
             (f_equal fst
                (proj2 post_after_limit_answers_429 None
                       (always (Rejected JNull)) "203.0.113.9" 0 bad rest 1000 bad m
                       H1 H2 H3 H4)))))).
Defined.

(** ** White space around the client key *)

Section Strings.

Lemma string_app_cons a s t : String a s +:+ t = String a (s +:+ t).
Proof. reflexivity. Qed.

Lemma string_app_nil_r s : s +:+ "" = s.
Proof. induction s as [|a s IH]; [done|]. by rewrite string_app_cons, IH. Qed.

Lemma string_app_assoc s1 s2 s3 : (s1 +:+ s2) +:+ s3 = s1 +:+ (s2 +:+ s3).
Proof. induction s1 as [|a s1 IH]; [done|]. by rewrite !string_app_cons, IH. Qed.

Lemma string_rev_app_eq s : forall acc, String.rev_app s acc = String.rev s +:+ acc.
Proof.
  induction s as [|a s IH]; intros acc; [done|].
  unfold String.rev. cbn [String.rev_app].
  rewrite (IH (String a acc)), (IH (String a "")).
  by rewrite string_app_assoc.
Qed.

Lemma string_rev_cons a s : String.rev (String a s) = String.rev s +:+ String a "".
Proof. unfold String.rev at 1. cbn [String.rev_app]. apply string_rev_app_eq. Qed.

Lemma string_rev_app_distr s1 s2 :
  String.rev (s1 +:+ s2) = String.rev s2 +:+ String.rev s1.
Proof.
  induction s1 as [|a s1 IH].
  - by rewrite string_app_nil_r.
  - change (String a s1 +:+ s2) with (String a (s1 +:+ s2)).
    by rewrite !string_rev_cons, IH, string_app_assoc.
Qed.

Lemma string_rev_involutive s : String.rev (String.rev s) = s.
Proof.
  induction s as [|a s IH]; [done|].
  by rewrite string_rev_cons, string_rev_app_distr, IH.
Qed.

(** [trimStart] splits a string into white space and a rest that does not
    begin with white space. *)
Lemma trimStart_split s :
  exists w, s = w +:+ trimStart s /\ trimStart w = "".
Proof.
  induction s as [|c s (w & Hs & Hw)]; [by exists ""|]. simpl.
  destruct (isWhiteSpace c) eqn:Hc.
  - exists (String c w). split; [by rewrite string_app_cons, <- Hs|]. simpl. by rewrite Hc.
  - by exists "".
Qed.

Lemma trimStart_clean s : startsWithWhiteSpace (trimStart s) = false.
Proof.
  induction s as [|c s IH]; [done|]. simpl.
  destruct (isWhiteSpace c) eqn:Hc; [done|]. simpl. by rewrite Hc.
Qed.

Lemma trimStart_of_clean s : startsWithWhiteSpace s = false -> trimStart s = s.
Proof. destruct s as [|c s]; [done|]. simpl. by intros ->. Qed.

Lemma trimStart_app_ws w s : trimStart w = "" -> trimStart (w +:+ s) = trimStart s.
Proof.
  induction w as [|c w IH]; [done|]. simpl.
  change (String c w +:+ s) with (String c (w +:+ s)). simpl.
  destruct (isWhiteSpace c); [done|discriminate].
Qed.

Lemma trimStart_rev_ws w : trimStart w = "" -> trimStart (String.rev w) = "".
Proof.
  induction w as [|c w IH]; [done|]. simpl.
  destruct (isWhiteSpace c) eqn:Hc; [|discriminate].
  intros Hw. rewrite string_rev_cons, trimStart_app_ws by auto.
  simpl. by rewrite Hc.
Qed.

(** [trim] gives a string without white space at either end. *)
Lemma trim_clean s :
  startsWithWhiteSpace (trim s) = false
  /\ startsWithWhiteSpace (String.rev (trim s)) = false.
Proof.
  unfold trim. split; [|rewrite string_rev_involutive; apply trimStart_clean].
  destruct (trimStart_split (String.rev (trimStart s))) as (w & Hsplit & Hw).
  apply (f_equal String.rev) in Hsplit.
  rewrite string_rev_involutive, string_rev_app_distr in Hsplit.
  pose proof (trimStart_clean s) as Hclean. rewrite Hsplit in Hclean.
  by destruct (String.rev (trimStart (String.rev (trimStart s)))).
Qed.

(** [trim] removes the white space around a string that has none at its
    ends, and nothing else. *)
Lemma trim_surrounded l x r :
  trimStart l = "" -> trimStart r = "" ->
  startsWithWhiteSpace x = false -> startsWithWhiteSpace (String.rev x) = false ->
  trim (l +:+ x +:+ r) = x.
Proof.
  intros Hl Hr Hx Hxr. unfold trim. rewrite trimStart_app_ws by done.
  destruct x as [|c x].
  - change ("" +:+ r) with r. by rewrite Hr.
  - rewrite (trimStart_of_clean (String c x +:+ r)) by done.
    rewrite string_rev_app_distr, trimStart_app_ws by by apply trimStart_rev_ws.
    by rewrite trimStart_of_clean, string_rev_involutive.
Qed.

End Strings.

(** X20: white space around the first hop of [x-forwarded-for] does not
    matter for the bucket of a client.  The key taken from the header never
    begins or ends with white space; and when the first, comma-free field of
    the header is a hop (itself without white space at its ends) surrounded
    by white space, the key is that hop. *)
Theorem client_key_is_trimmed :
  (forall req v,
      Edge.headers req !! "x-forwarded-for" = Some v ->
      trim (beforeComma v) <> "" ->
      startsWithWhiteSpace (Edge.getRateLimitKey req) = false
      /\ startsWithWhiteSpace (String.rev (Edge.getRateLimitKey req)) = false)
  /\ (forall req l hop r rest,
      Edge.headers req !! "x-forwarded-for" = Some ((l +:+ hop +:+ r) +:+ "," +:+ rest) ->
      (forall n, String.get n (l +:+ hop +:+ r) <> Some ","%char) ->
      trimStart l = "" -> trimStart r = "" ->
      startsWithWhiteSpace hop = false -> startsWithWhiteSpace (String.rev hop) = false ->
      hop <> "" ->
      Edge.getRateLimitKey req = hop)
  /\ (forall req,
      startsWithWhiteSpace (Serverless.clientIp req) = false
      /\ startsWithWhiteSpace (String.rev (Serverless.clientIp req)) = false)
  /\ (forall req l hop r rest,
      Serverless.headers req !! "x-forwarded-for" =
        Some ((l +:+ hop +:+ r) +:+ "," +:+ rest) ->
      (forall n, String.get n (l +:+ hop +:+ r) <> Some ","%char) ->
      trimStart l = "" -> trimStart r = "" ->
      startsWithWhiteSpace hop = false -> startsWithWhiteSpace (String.rev hop) = false ->
      Serverless.clientIp req = hop).
Proof.
  split; [|split; [|split]].
  - intros req v Hfwd Hv. unfold Edge.getRateLimitKey. rewrite Hfwd. simpl.
    pose proof (trim_clean (beforeComma v)) as Hclean.
    by destruct (trim (beforeComma v)).
  - intros req l hop r rest Hfwd Hno Hl Hr Hhop Hrev Hne.
    unfold Edge.getRateLimitKey. rewrite Hfwd. simpl.
    rewrite beforeComma_first_hop, trim_surrounded by done.
    by destruct hop.
  - intros req. unfold Serverless.clientIp. apply trim_clean.
  - intros req l hop r rest Hfwd Hno Hl Hr Hhop Hrev.
    unfold Serverless.clientIp. rewrite Hfwd.
    assert (truthyString (Some ((l +:+ hop +:+ r) +:+ "," +:+ rest)) =
            Some ((l +:+ hop +:+ r) +:+ "," +:+ rest)) as ->.
    { apply truthyString_nonempty. rewrite string_app_assoc.
      destruct l; [|done]. rewrite string_app_assoc. destruct hop; [|done].
      by destruct r. }
    simpl. by rewrite beforeComma_first_hop, trim_surrounded.
Qed.

Lemma client_key_is_trimmed_witness :
  (let req := edge_post ((" " +:+ "203.0.113.9" +:+ "  ") +:+ "," +:+ " 10.0.0.1") None in
   Edge.headers req !! "x-forwarded-for" =
     Some ((" " +:+ "203.0.113.9" +:+ "  ") +:+ "," +:+ " 10.0.0.1")
   /\ (forall n, String.get n (" " +:+ "203.0.113.9" +:+ "  ") <> Some ","%char)
   /\ trimStart " " = "" /\ trimStart "  " = ""
   /\ startsWithWhiteSpace "203.0.113.9" = false
   /\ startsWithWhiteSpace (String.rev "203.0.113.9") = false
   /\ "203.0.113.9" <> ""
   /\ Edge.getRateLimitKey req = "203.0.113.9")
  /\ (let req := serverless_post ((" " +:+ "203.0.113.9" +:+ "  ") +:+ "," +:+ " 10.0.0.1")
                                 JUndefined in
      Serverless.headers req !! "x-forwarded-for" =
        Some ((" " +:+ "203.0.113.9" +:+ "  ") +:+ "," +:+ " 10.0.0.1")
      /\ (forall n, String.get n (" " +:+ "203.0.113.9" +:+ "  ") <> Some ","%char)
      /\ trimStart " " = "" /\ trimStart "  " = ""
      /\ startsWithWhiteSpace "203.0.113.9" = false
      /\ startsWithWhiteSpace (String.rev "203.0.113.9") = false
      /\ Serverless.clientIp req = "203.0.113.9").
Proof.
  assert (H2 : forall n, String.get n (" " +:+ "203.0.113.9" +:+ "  ") <> Some ","%char).
  { intros n. do 15 (destruct n as [|n]; [discriminate|]). discriminate. }
  assert (H3 : trimStart " " = "") by reflexivity.
  assert (H4 : trimStart "  " = "") by reflexivity.
  assert (H5 : startsWithWhiteSpace "203.0.113.9" = false) by reflexivity.
  assert (H6 : startsWithWhiteSpace (String.rev "203.0.113.9") = false) by reflexivity.
  split.
  - intros req.
    assert (H1 : Edge.headers req !! "x-forwarded-for" =
                 Some ((" " +:+ "203.0.113.9" +:+ "  ") +:+ "," +:+ " 10.0.0.1"))
      by reflexivity.
    assert (H7 : "203.0.113.9" <> "") by discriminate.
    exact (conj H1 (conj H2 (conj H3 (conj H4 (conj H5 (conj H6 (conj H7
             (proj1 (proj2 client_key_is_trimmed)
                    req " " "203.0.113.9" "  " " 10.0.0.1" H1 H2 H3 H4 H5 H6 H7)))))))).
  - intros req.
    assert (H1 : Serverless.headers req !! "x-forwarded-for" =
                 Some ((" " +:+ "203.0.113.9" +:+ "  ") +:+ "," +:+ " 10.0.0.1"))
      by reflexivity.
    exact (conj H1 (conj H2 (conj H3 (conj H4 (conj H5 (conj H6
             (proj2 (proj2 (proj2 client_key_is_trimmed))
                    req " " "203.0.113.9" "  " " 10.0.0.1" H1 H2 H3 H4 H5 H6))))))).
Defined.

(** * Further properties: the map and the reported quota *)

(** X21: [checkRateLimit] never removes a record: after a check the keys of
    the map are the keys it had before together with the checked key, so
    the map only grows, by at most one key per check. *)
Theorem records_are_never_removed :
  (forall now key (m : gmap string Edge.RateRecord),
      dom (Edge.checkRateLimit now key m).2 = {[key]} ∪ dom m)
  /\ (forall now ip (m : gmap string Serverless.RateRecord),
      dom (Serverless.checkRateLimit now ip m).2 = {[ip]} ∪ dom m).
Proof.
  split.
  - intros now key m. unfold Edge.checkRateLimit.
    destruct (m !! key) as [r|] eqn:Hm; repeat case_match; simpl;
      rewrite ?dom_insert_L; try done.
    symmetry. apply subseteq_union_1_L, singleton_subseteq_l.
    by apply elem_of_dom_2 with r.
  - intros now ip m. unfold Serverless.checkRateLimit.
    destruct (m !! ip) as [r|] eqn:Hm; repeat case_match; simpl;
      rewrite ?dom_insert_L; try done.
    symmetry. apply subseteq_union_1_L, singleton_subseteq_l.
    by apply elem_of_dom_2 with r.
Qed.

Lemma edge_reachable_bounds (m : gmap string Edge.RateRecord) key r :
  edge_reachable m -> m !! key = Some r -> 1 <= Edge.count r <= Edge.RATE_LIMIT.
Proof.
  intros Hreach. revert key r.
  induction Hreach as [|now k m Hreach IH]; intros key r.
  - by rewrite lookup_empty.
  - by apply edge_checkRateLimit_preserves_bounds.
Qed.

(** X22: in every state a process can reach, the decision of
    [checkRateLimit] in [src/chat.js] reports [0 <= remaining <=
    RATE_LIMIT - 1]; a denial reports [remaining = 0]; and [resetIn] is
    present exactly in denials. *)
Theorem remaining_is_within_the_quota now key (m : gmap string Edge.RateRecord) :
  edge_reachable m ->
  0 <= Edge.remaining (Edge.checkRateLimit now key m).1 <= Edge.RATE_LIMIT - 1
  /\ (Edge.allowed (Edge.checkRateLimit now key m).1 = false ->
      Edge.remaining (Edge.checkRateLimit now key m).1 = 0)
  /\ (Edge.resetIn (Edge.checkRateLimit now key m).1 = None <->
      Edge.allowed (Edge.checkRateLimit now key m).1 = true).
Proof.
  intros Hreach. unfold Edge.checkRateLimit.
  destruct (m !! key) as [r|] eqn:Hm.
  - pose proof (edge_reachable_bounds m key r Hreach Hm) as Hr.
    repeat case_match; zify_tests; simpl; unfold Edge.RATE_LIMIT in *;
      (split; [lia|]); (split; [done|]); split; done.
  - simpl. unfold Edge.RATE_LIMIT. split; [lia|]. split; [done|]. split; done.
Qed.

Lemma remaining_is_within_the_quota_witness :
  let m := (edge_calls "203.0.113.9" (replicate 20 1000) ∅).2 in
  edge_reachable m
  /\ 0 <= Edge.remaining (Edge.checkRateLimit 1500 "203.0.113.9" m).1 <= Edge.RATE_LIMIT - 1
  /\ Edge.allowed (Edge.checkRateLimit 1500 "203.0.113.9" m).1 = false.
Proof.
  intros m.
  assert (H : edge_reachable m).
  { unfold m. generalize (∅ : gmap string Edge.RateRecord), edge_reachable_start.
    generalize (replicate 20 1000).
    intros ts. induction ts as [|t ts IH]; intros m0 Hm0; [done|].
    rewrite edge_calls_cons_snd. apply IH. by apply edge_reachable_check. }
  split; [exact H|]. split; [|reflexivity].
  exact (proj1 (remaining_is_within_the_quota 1500 "203.0.113.9" m H)).
Defined.

(** ** The quota reported to a client *)

Section EdgeService.
Import Edge.

Variables (apiKey : option string) (OPENAI_KEY : string).
Variables (res : UpstreamResponse) (data content : JSValue).
Hypothesis Hcredential : truthyString apiKey = Some OPENAI_KEY.
Hypothesis Hok : ok res = true.
Hypothesis Hjson : upstreamJson res = Some data.
Hypothesis Hcontent : firstCompletionContent data = Some content.

(** One valid, admitted request against an upstream that answers with the
    completion [content]. *)
Lemma edge_served_once now req (m : gmap string RateRecord) :
  method req = "POST" -> edge_valid req ->
  allowed (checkRateLimit now (getRateLimitKey req) m).1 = true ->
  complete (always (Resolved res)) (handler apiKey now req m).1 =
    edge_success req content (remaining (checkRateLimit now (getRateLimitKey req) m).1).
Proof.
  intros Hmeth (body & messages & Hbody & Hmsgs & Harr) Hallow.
  rewrite (edge_handler_forwards apiKey now req m body messages OPENAI_KEY) by done.
  simpl. unfold afterFetch. by rewrite Hok, Hjson, Hcontent.
Qed.

Lemma edge_serve_cons now req reqs fetch (m : gmap string RateRecord) :
  (edge_serve apiKey fetch ((now, req) :: reqs) m).1 =
  complete fetch (handler apiKey now req m).1
  :: (edge_serve apiKey fetch reqs (handler apiKey now req m).2).1.
Proof.
  cbn [edge_serve]. destruct (handler apiKey now req m) as [run m1].
  cbn [fst snd]. by destruct (edge_serve apiKey fetch reqs m1).
Qed.

Lemma edge_served_under key reqs : forall (m : gmap string RateRecord) r,
  m !! key = Some r ->
  Forall (fun p => method p.2 = "POST" /\ getRateLimitKey p.2 = key /\ edge_valid p.2
                   /\ p.1 - windowStart r <= RATE_WINDOW * 1000) reqs ->
  count r + Z.of_nat (length reqs) <= RATE_LIMIT ->
  (edge_serve apiKey (always (Resolved res)) reqs m).1 =
    imap (fun i p => edge_success p.2 content (RATE_LIMIT - (count r + 1 + Z.of_nat i))) reqs.
Proof.
  induction reqs as [|[now req] reqs IH]; intros m r Hm Hreqs Hlen; [done|].
  apply Forall_cons in Hreqs as [(Hmeth & Hkey & Hvalid & Hwin) Hreqs].
  simpl in Hmeth, Hkey, Hvalid, Hwin. simpl length in Hlen.
  rewrite edge_serve_cons, edge_handler_post_map, Hkey by done.
  assert (Hcheck := edge_checkRateLimit_under now key m r Hm Hwin ltac:(lia)).
  rewrite edge_served_once by (rewrite ?Hkey, ?Hcheck; done).
  rewrite Hkey, Hcheck. cbn [fst snd remaining imap].
  f_equal; [apply (f_equal (edge_success _ _)); lia|].
  rewrite (IH _ {| windowStart := windowStart r; count := count r + 1 |}).
  - apply imap_ext. intros i p _. unfold compose. cbn [Edge.count].
    apply (f_equal (edge_success _ _)). lia.
  - apply lookup_insert_eq.
  - done.
  - simpl. lia.
Qed.

End EdgeService.

(** X23: in [src/chat.js] the [remaining] of the responses counts down.  A
    client whose window opens with its first request and whose requests,
    all valid and inside the window, number at most [RATE_LIMIT], gets, from
    an upstream that answers each with a completion, the responses 200 with
    that completion and [remaining] equal to [RATE_LIMIT - 1],
    [RATE_LIMIT - 2], ... in turn. *)
Theorem remaining_counts_down_over_a_window
    apiKey OPENAI_KEY res data content key t0 req0 rest
    (m : gmap string Edge.RateRecord) :
  truthyString apiKey = Some OPENAI_KEY ->
  ok res = true ->
  upstreamJson res = Some data ->
  firstCompletionContent data = Some content ->
  (m !! key = None \/
   exists r, m !! key = Some r /\ Edge.RATE_WINDOW * 1000 < t0 - Edge.windowStart r) ->
  Forall (fun p => Edge.method p.2 = "POST" /\ Edge.getRateLimitKey p.2 = key
                   /\ edge_valid p.2 /\ p.1 - t0 <= Edge.RATE_WINDOW * 1000)
         ((t0, req0) :: rest) ->
  Z.of_nat (length ((t0, req0) :: rest)) <= Edge.RATE_LIMIT ->
  (edge_serve apiKey (always (Resolved res)) ((t0, req0) :: rest) m).1 =
    imap (fun i p => edge_success p.2 content (Edge.RATE_LIMIT - 1 - Z.of_nat i))
         ((t0, req0) :: rest).
Proof.
  intros Hcred Hok Hjson Hcontent Hfresh Hreqs Hlen.
  apply Forall_cons in Hreqs as [(Hmeth & Hkey & Hvalid & _) Hreqs].
  simpl in Hmeth, Hkey, Hvalid. simpl length in Hlen.
  assert (Hcheck : Edge.checkRateLimit t0 key m =
            ({| Edge.allowed := true; Edge.remaining := Edge.RATE_LIMIT - 1;
                Edge.resetIn := None |},
             <[key := {| Edge.windowStart := t0; Edge.count := 1 |}]> m)).
  { destruct Hfresh as [Hnone | (r & Hr & Hexp)].
    - by apply edge_checkRateLimit_no_record.
    - by apply edge_checkRateLimit_expired with r. }
  rewrite edge_serve_cons, edge_handler_post_map, Hkey by done.
  rewrite (edge_served_once apiKey OPENAI_KEY res data content)
    by (rewrite ?Hkey, ?Hcheck; done).
  rewrite Hkey, Hcheck. cbn [fst snd Edge.remaining imap].
  f_equal.
  rewrite (edge_served_under apiKey OPENAI_KEY res data content Hcred Hok Hjson Hcontent
             key rest _ {| Edge.windowStart := t0; Edge.count := 1 |}).
  - apply imap_ext. intros i p _. unfold compose. cbn [Edge.count].
    apply (f_equal (edge_success _ _)). lia.
  - apply lookup_insert_eq.
  - done.
  - simpl. lia.
Qed.

Lemma remaining_counts_down_over_a_window_witness :
  let message := JObj [("role", JStr "assistant"); ("content", JStr "hello")] in
  let data := JObj [("choices", JArr [JObj [("message", message)]])] in
  let res := {| upstreamStatus := 200; upstreamJson := Some data |} in
  let req := edge_post "203.0.113.9" (Some (JObj [("messages", JArr [])])) in
  let reqs := [(0, req); (10, req); (3600000, req)] in
  let m : gmap string Edge.RateRecord := ∅ in
  truthyString (Some "sk-test") = Some "sk-test"
  /\ ok res = true
  /\ upstreamJson res = Some data
  /\ firstCompletionContent data = Some (JStr "hello")
  /\ (m !! "203.0.113.9" = None \/
      exists r, m !! "203.0.113.9" = Some r
                /\ Edge.RATE_WINDOW * 1000 < 0 - Edge.windowStart r)
  /\ Forall (fun p => Edge.method p.2 = "POST"
                      /\ Edge.getRateLimitKey p.2 = "203.0.113.9"
                      /\ edge_valid p.2 /\ p.1 - 0 <= Edge.RATE_WINDOW * 1000) reqs
  /\ Z.of_nat (length reqs) <= Edge.RATE_LIMIT
  /\ (edge_serve (Some "sk-test") (always (Resolved res)) reqs m).1 =
       [edge_success req (JStr "hello") 19;
        edge_success req (JStr "hello") 18;
        edge_success req (JStr "hello") 17].
Proof.
  intros message data res req reqs m.
  assert (H1 : truthyString (Some "sk-test") = Some "sk-test") by reflexivity.
  assert (H2 : ok res = true) by reflexivity.
  assert (H3 : upstreamJson res = Some data) by reflexivity.
  assert (H4 : firstCompletionContent data = Some (JStr "hello")) by reflexivity.
  assert (H5 : m !! "203.0.113.9" = None \/
               exists r, m !! "203.0.113.9" = Some r
                         /\ Edge.RATE_WINDOW * 1000 < 0 - Edge.windowStart r)
    by (left; reflexivity).
  assert (Hreq : Edge.method req = "POST"
                 /\ Edge.getRateLimitKey req = "203.0.113.9" /\ edge_valid req).
  { split; [reflexivity|]. split; [reflexivity|].
    exists (JObj [("messages", JArr [])]), (JArr []). by repeat split. }
  assert (H6 : Forall (fun p => Edge.method p.2 = "POST"
                        /\ Edge.getRateLimitKey p.2 = "203.0.113.9"
                        /\ edge_valid p.2 /\ p.1 - 0 <= Edge.RATE_WINDOW * 1000) reqs).
  { destruct Hreq as (Ha & Hb & Hc).
    repeat (constructor; [split_and!; [exact Ha|exact Hb|exact Hc|by vm_compute]|]).
    constructor. }
  assert (H7 : Z.of_nat (length reqs) <= Edge.RATE_LIMIT) by (vm_compute; discriminate).
  exact (conj H1 (conj H2 (conj H3 (conj H4 (conj H5 (conj H6 (conj H7
    (remaining_counts_down_over_a_window (Some "sk-test") "sk-test" res data
       (JStr "hello") "203.0.113.9" 0 req [(10, req); (3600000, req)] m
       H1 H2 H3 H4 H5 H6 H7)))))))).
Defined.
